(** * SnapPlan: vector pattern and door geometry extraction engine

    A shallow embedding of the pattern matching engine
    ([app/services/material_pattern_detector.py], with the data model and
    [analyze_pattern] of [app/services/plankopf_parser.py]) and of the
    label/geometry associator ([app/services/door_geometry_extraction.py]),
    followed by the properties claimed for them.

    Numbers.  Python floats are idealised as exact rationals ([Q]): there is
    no rounding, no infinity and no NaN.  Where Python raises
    [OverflowError] instead of returning an infinity ([x ** 2] on a float,
    an [int] operand too large for a float), the model raises too, see
    [Py.square] and [Py.float_of_int].  The functions of
    Python's [math] module are an interface ([MathSqrt], [MathTrig]); every
    general theorem holds for every implementation of it, under the
    hypotheses on the square root that it states, and the concrete examples
    use [QMath], whose square root is exact on the squares they need, and
    [QTrig], a rational approximation that is exact on horizontal lines.
    A raised exception is the [Raise] outcome of [Py.result].

    Objects.  The functions that read the PDF are not modelled: the
    functions of a page take what those readers return.  The labels given to
    the associator are objects of the caller's list, one object for each
    index; the associator returns that list as it leaves it, next to its
    result.  Identifiers drawn from [uuid] come from a supply
    [uuid4_hex8 : nat -> string], the [n]-th call giving [uuid4_hex8 n].

    Strings are Rocq strings (bytes): the regular expressions below are the
    source's patterns as they read on a string of ASCII characters
    ([Re.is_ascii]).  On other strings Python's [\d] and [\s] accept more
    than the ASCII digits and spaces; what is stated of a parsed string is
    stated for ASCII strings. *)

From Stdlib Require Import QArith Qround Qabs ZArith String Ascii List Lia Lqa Bool Sorted.
From stdpp Require Import base gmap sets list strings pretty.

Import ListNotations.

(** ** Python values on exact rationals *)

Module Py.
Local Open Scope Q_scope.

Definition Qltb (a b : Q) : bool := negb (Qle_bool b a).
Definition Qgtb (a b : Q) : bool := Qltb b a.
Definition Qgeb (a b : Q) : bool := Qle_bool b a.

(** [min(a, b)] and [max(a, b)]: the first argument wins a tie. *)
Definition min (a b : Q) : Q := if Qltb b a then b else a.
Definition max (a b : Q) : Q := if Qltb a b then b else a.

(** [min(xs)] and [max(xs)] of a non-empty list [x :: xs]. *)
Definition min_list (x : Q) (xs : list Q) : Q := fold_left min xs x.
Definition max_list (x : Q) (xs : list Q) : Q := fold_left max xs x.

(** [sum(xs)], starting from [0] and adding from the left. *)
Definition sum (xs : list Q) : Q := fold_left Qplus xs 0.

(** [a % m] for a positive [m]: the result has the sign of [m]. *)
Definition mod_ (a m : Q) : Q := a - m * inject_Z (Qfloor (a / m)).

(** Truthiness of a float: zero is false. *)
Definition truthy (a : Q) : bool := negb (Qeq_bool a 0).

(** Outcome of a call that may raise. *)
Inductive exn : Type := ZeroDivisionError | OverflowError.

Inductive result (A : Type) : Type :=
| Return (a : A)
| Raise (e : exn).
Arguments Return {A} a.
Arguments Raise {A} e.

(** [a / b] on floats raises when [b] is zero. *)
Definition div (a b : Q) : result Q :=
  if Qeq_bool b 0 then Raise ZeroDivisionError else Return (a / b).

(** The least magnitude that is out of the range of floats: a number is
    rounded to a float when its magnitude is below [2^1024 - 2^970]. *)
Definition float_overflow : Q := inject_Z (2 ^ 1024 - 2 ^ 970).

(** [x ** 2] on a float raises when the square is out of range. *)
Definition square (x : Q) : result Q :=
  if Qle_bool float_overflow (x * x) then Raise OverflowError else Return (x ^ 2).

(** An [int] operand of a float operation is converted to float, which
    raises when the integer is out of range. *)
Definition float_of_int (n : Z) : result Q :=
  if Qle_bool float_overflow (Qabs (inject_Z n)) then Raise OverflowError
  else Return (inject_Z n).

(** Stable sort by a strict "comes before" test: [x] is put in front of
    the first element that does not come strictly before it, so that equal
    keys keep their input order (as [sorted] does). *)
Section Sorted.
Context {A : Type} (before : A -> A -> bool).

Fixpoint insert_sorted (x : A) (l : list A) : list A :=
  match l with
  | [] => [x]
  | y :: l' => if before y x then y :: insert_sorted x l' else x :: l
  end.

Fixpoint sorted (l : list A) : list A :=
  match l with
  | [] => []
  | x :: l' => insert_sorted x (sorted l')
  end.
End Sorted.

End Py.

(** Python's [math] module, as far as the engine uses it. *)
Class MathSqrt := { math_sqrt : Q -> Q }.

Class MathTrig := {
  math_atan2 : Q -> Q -> Q;
  math_degrees : Q -> Q;
  math_radians : Q -> Q;
  math_sin : Q -> Q;
  math_cos : Q -> Q
}.

(** A square root that computes: the integer square root at six decimal
    places, exact whenever the argument is the square of a rational with at
    most six decimals. *)
Definition Qsqrt (q : Q) : Q :=
  (Z.sqrt (Qnum q * Zpos (Qden q) * 1000000000000) # (Qden q * 1000000))%Q.

Definition QMath : MathSqrt := {| math_sqrt := Qsqrt |}.

(** ** app/services/plankopf_parser.py: data model *)

Module plankopf_parser.
Local Open Scope Q_scope.

Inductive PatternType : Type :=
| HATCHING | CROSSHATCH | SOLID_FILL | DOT_PATTERN | STIPPLE | NONE.

Definition PatternType_eqb (a b : PatternType) : bool :=
  match a, b with
  | HATCHING, HATCHING | CROSSHATCH, CROSSHATCH | SOLID_FILL, SOLID_FILL
  | DOT_PATTERN, DOT_PATTERN | STIPPLE, STIPPLE | NONE, NONE => true
  | _, _ => false
  end.

Record BoundingBox : Type := mkBoundingBox {
  x0 : Q; y0 : Q; x1 : Q; y1 : Q
}.

(** A colour is a tuple of floats; the engine checks its length. *)
Definition Color : Type := list Q.

Record PatternInfo : Type := mkPatternInfo {
  pattern_type : PatternType;
  stroke_color : option Color;
  fill_color : option Color;
  hatching_angle : option Q;
  hatching_spacing : option Q;
  line_count : nat;
  secondary_angle : option Q
}.

(** The collaborator's values that occur in a drawing item: a point has
    attributes [x] and [y], a rectangle [x0 .. y1]; of anything else only
    its truth value is observed.  Points and rectangles are false exactly
    when all their coordinates are zero (PyMuPDF's [__bool__]). *)
Inductive PyVal : Type :=
| VNone
| VPoint (x y : Q)
| VRect (rx0 ry0 rx1 ry1 : Q)
| VOther (truth : bool).

Definition is_None (v : PyVal) : bool :=
  match v with VNone => true | _ => false end.

Definition val_truthy (v : PyVal) : bool :=
  match v with
  | VNone => false
  | VPoint x y => negb (Qeq_bool x 0 && Qeq_bool y 0)
  | VRect a b c d =>
      negb (Qeq_bool a 0 && Qeq_bool b 0 && Qeq_bool c 0 && Qeq_bool d 0)
  | VOther t => t
  end.

(** A path item is the tuple [(cmd, args...)], so [len(item)] is one more
    than the number of arguments. *)
Record Item : Type := mkItem { cmd : string; args : list PyVal }.

Definition item_len (it : Item) : nat := S (length (args it)).

(** One entry of [page.get_drawings()]: the keys the engine reads. *)
Record Drawing : Type := mkDrawing {
  items : list Item;
  color : option Color;
  fill : option Color;
  rect : option (Q * Q * Q * Q)
}.

(** Truthiness of [drawing.get("fill")]: [None] and the empty tuple are
    false. *)
Definition color_truthy (c : option Color) : bool :=
  match c with Some (_ :: _) => true | _ => false end.

(** The dict [{"x1": .., "y1": .., "x2": .., "y2": ..}] of a line. *)
Record Line : Type := mkLine { lx1 : Q; ly1 : Q; lx2 : Q; ly2 : Q }.

Record Cluster : Type := mkCluster {
  center : Q;
  count : nat;
  angles : list Q
}.

Definition mean (xs : list Q) : Q := Py.sum xs / inject_Z (Z.of_nat (length xs)).

Definition close_cluster (current : list Q) : list Cluster :=
  match current with
  | [] => []
  | _ => [mkCluster (mean current) (length current) current]
  end.

(** The loop of [_cluster_angles] over [sorted_angles[1:]]: the state is
    [(clusters, current_cluster)]. *)
Definition cluster_step (tolerance : Q) (st : list Cluster * list Q) (angle : Q)
  : list Cluster * list Q :=
  let '(clusters, current) := st in
  if Qle_bool (angle - List.last current 0) tolerance
  then (clusters, current ++ [angle])
  else (clusters ++ close_cluster current, [angle]).

Definition _cluster_angles (angles : list Q) (tolerance : Q) : list Cluster :=
  match Py.sorted Py.Qltb angles with
  | [] => []
  | a0 :: rest =>
      let '(clusters, current) := fold_left (cluster_step tolerance) rest ([], [a0]) in
      List.filter (fun c => (2 <=? count c)%nat) (clusters ++ close_cluster current)
  end.

Fixpoint gaps (d : list Q) : list Q :=
  match d with
  | a :: ((b :: _) as t) => (b - a) :: gaps t
  | _ => []
  end.

Section Trig.
Context `{MathTrig}.

Definition _estimate_line_spacing (lines : list Line) (dominant_angle : Q)
  : option Q :=
  if (length lines <? 2)%nat then None else
  let angle_rad := math_radians dominant_angle in
  let distances :=
    map (fun line =>
           let mx := (lx1 line + lx2 line) / 2 in
           let my := (ly1 line + ly2 line) / 2 in
           Qabs (mx * math_sin angle_rad - my * math_cos angle_rad)) lines in
  if (length distances <? 2)%nat then None else
  let distances := Py.sorted Py.Qltb distances in
  let spacings := List.filter (fun s => Py.Qgtb s 0.1) (gaps distances) in
  match spacings with
  | [] => None
  | _ => Some (mean spacings)
  end.

(** The lines of the items [("l", p1, p2, ...)] whose [p1] and [p2] are
    points. *)
Definition pattern_lines (its : list Item) : list Line :=
  flat_map (fun it =>
    if (item_len it <? 3)%nat then [] else
    if String.eqb (cmd it) "l" then
      match args it with
      | VPoint ax ay :: VPoint bx by_ :: _ => [mkLine ax ay bx by_]
      | _ => []
      end
    else []) its.

Definition line_angles (lines : list Line) : list Q :=
  flat_map (fun line =>
    let dx := lx2 line - lx1 line in
    let dy := ly2 line - ly1 line in
    if Qeq_bool dx 0 && Qeq_bool dy 0 then []
    else [Py.mod_ (math_degrees (math_atan2 dy dx)) 180]) lines.

Definition analyze_pattern (drawing : Drawing) : PatternInfo :=
  let stroke_color := color drawing in
  let fill_color := fill drawing in
  let lines := pattern_lines (items drawing) in
  if (length lines <? 2)%nat then
    if color_truthy fill_color
    then mkPatternInfo SOLID_FILL stroke_color fill_color None None 0%nat None
    else mkPatternInfo NONE stroke_color None None None 0%nat None
  else
  let angles := line_angles lines in
  match angles with
  | [] => mkPatternInfo NONE stroke_color None None None 0%nat None
  | _ =>
    let angle_clusters := _cluster_angles angles 10.0 in
    match angle_clusters with
    | [c] =>
        let dominant_angle := center c in
        let spacing := _estimate_line_spacing lines dominant_angle in
        mkPatternInfo HATCHING stroke_color fill_color (Some dominant_angle)
                      spacing (length lines) None
    | [_; _] =>
        let angles_sorted :=
          Py.sorted (fun a b => (count b <? count a)%nat) angle_clusters in
        mkPatternInfo CROSSHATCH stroke_color fill_color
                      (option_map center (nth_error angles_sorted 0))
                      None (length lines)
                      (option_map center (nth_error angles_sorted 1))
    | _ =>
        mkPatternInfo HATCHING stroke_color fill_color None None
                      (length lines) None
    end
  end.
End Trig.

(** The properties [width], [height] and [area] of a [BoundingBox], and
    its method [overlaps]. *)
Definition width (self : BoundingBox) : Q := Qabs (x1 self - x0 self).
Definition height (self : BoundingBox) : Q := Qabs (y1 self - y0 self).
Definition area (self : BoundingBox) : Q := width self * height self.

Definition overlaps (self other : BoundingBox) (min_overlap : Q) : bool :=
  let x_overlap :=
    Py.max 0 (Py.min (x1 self) (x1 other) - Py.max (x0 self) (x0 other)) in
  let y_overlap :=
    Py.max 0 (Py.min (y1 self) (y1 other) - Py.max (y0 self) (y0 other)) in
  let overlap_area := x_overlap * y_overlap in
  let min_area := Py.min (area self) (area other) in
  if Qeq_bool min_area 0 then false
  else Qle_bool min_overlap (overlap_area / min_area).

(** One turn of the loop of [find_pattern_left_of_text]; the state is
    [(best_match, best_distance)]. *)
Definition left_of_text_step (text_bbox : BoundingBox) (max_distance : Q)
    (st : option Drawing * Q) (drawing : Drawing) : option Drawing * Q :=
  let '(best_match, best_distance) := st in
  let text_left := x0 text_bbox in
  let text_center_y := (y0 text_bbox + y1 text_bbox) / 2 in
  match rect drawing with
  | None => st
  | Some (_, ry0, rx1, ry1) =>
      let drawing_right := rx1 in
      let drawing_center_y := (ry0 + ry1) / 2 in
      if Py.Qgtb drawing_right text_left then st else
      let h_distance := text_left - drawing_right in
      if Py.Qgtb h_distance max_distance then st else
      let v_distance := Qabs (text_center_y - drawing_center_y) in
      if Py.Qgtb v_distance (height text_bbox * 2) then st else
      let distance := h_distance + v_distance * 0.5 in
      if Py.Qltb distance best_distance then (Some drawing, distance) else st
  end.

Definition find_pattern_left_of_text (drawings : list Drawing)
    (text_bbox : BoundingBox) (max_distance : Q) : option Drawing :=
  fst (fold_left (left_of_text_step text_bbox max_distance) drawings
                 (None, max_distance)).

Record LegendSymbol : Type := mkLegendSymbol {
  symbol_id : string;
  label : string;
  label_normalized : string;
  bbox : BoundingBox;
  pattern_info : PatternInfo;
  material_type : option string;
  confidence : Q
}.

End plankopf_parser.

(** ** Regular expressions of the engine, read on ASCII *)

Module Re.

Definition is_digit (c : ascii) : bool :=
  let n := nat_of_ascii c in ((48 <=? n) && (n <=? 57))%nat.

(** [\s] on ASCII: space, tab, newline, vertical tab, form feed, carriage
    return and the four separators 28..31. *)
Definition is_space (c : ascii) : bool :=
  let n := nat_of_ascii c in
  ((n =? 32) || ((9 <=? n) && (n <=? 13)) || ((28 <=? n) && (n <=? 31)))%nat.

Definition chars (s : string) : list ascii := list_ascii_of_string s.

(** Consume one given character. *)
Definition lit (c : ascii) (s : list ascii) : option (list ascii) :=
  match s with
  | d :: s' => if Ascii.eqb c d then Some s' else None
  | [] => None
  end.

(** Consume exactly [n] digits. *)
Fixpoint digits_n (n : nat) (s : list ascii) : option (list ascii) :=
  match n with
  | O => Some s
  | S n' =>
      match s with
      | d :: s' => if is_digit d then digits_n n' s' else None
      | [] => None
      end
  end.

(** Longest prefix of characters satisfying [p], and the rest. *)
Fixpoint span (p : ascii -> bool) (s : list ascii) : list ascii * list ascii :=
  match s with
  | d :: s' =>
      if p d then let '(a, b) := span p s' in (d :: a, b) else ([], s)
  | [] => ([], [])
  end.

(** [\d+]: the maximal run of digits, which must not be empty.  In the
    patterns below a run of digits is always followed by a non-digit or
    by [\d{3}] after a dot, so the greedy choice is the only one that can
    succeed. *)
Definition digits1 (s : list ascii) : option (list ascii * list ascii) :=
  match span is_digit s with
  | ([], _) => None
  | r => Some r
  end.

(** [B\.\d{2}\.\d+\.\d{3}] at the start of [s]; returns the rest. *)
Definition room_code (s : list ascii) : option (list ascii) :=
  s ← lit "B" s ;
  s ← lit "." s ;
  s ← digits_n 2 s ;
  s ← lit "." s ;
  r ← digits1 s ;
  s ← lit "." (snd r) ;
  digits_n 3 s.

(** [re.compile(r'B\.\d{2}\.\d+\.\d{3}-\d+').match(s)] succeeds. *)
Definition door_number_with_suffix (s : string) : bool :=
  match (s ← room_code (chars s) ; s ← lit "-" s ; digits1 s) with
  | Some _ => true
  | None => false
  end.

(** [re.compile(r'B\.\d{2}\.\d+\.\d{3}(?:-\d+)?').search(s)] succeeds: the
    optional group never makes a match fail. *)
Fixpoint search_room_code (s : list ascii) : bool :=
  match room_code s with
  | Some _ => true
  | None => match s with [] => false | _ :: s' => search_room_code s' end
  end.

Definition door_number_pattern (s : string) : bool := search_room_code (chars s).

Definition digit_value (c : ascii) : Z := Z.of_nat (nat_of_ascii c) - 48.

(** [int(ds)] for a string of digits. *)
Definition int_of_digits (ds : list ascii) : Z :=
  fold_left (fun acc c => 10 * acc + digit_value c)%Z ds 0%Z.

(** The string has ASCII characters only. *)
Definition is_ascii (s : string) : bool :=
  forallb (fun c => (nat_of_ascii c <? 128)%nat) (chars s).

(** [re.match(r"1\s*[:/]\s*(\d+)", s)]: the text of the group. *)
Definition scale_group (s : string) : option (list ascii) :=
  s ← lit "1" (chars s) ;
  let s := snd (span is_space s) in
  s ← match s with
       | c :: s' => if Ascii.eqb c ":" || Ascii.eqb c "/" then Some s' else None
       | [] => None
       end ;
  let s := snd (span is_space s) in
  r ← digits1 s ;
  Some (fst r).

(** The value [int(match.group(1))] of the group.  (An interpreter that
    limits the digits of such a conversion, 4300 by default where the limit
    exists, refuses a longer group; what is stated of a parsed scale is
    stated for groups of at most 308 digits.) *)
Definition scale_match (s : string) : option Z :=
  ds ← scale_group s ;
  Some (int_of_digits ds).

End Re.

(** ** app/services/material_pattern_detector.py *)

Module material_pattern_detector.
Import plankopf_parser.
Local Open Scope Q_scope.

Record DetectedRegion : Type := mkDetectedRegion {
  region_id : string;
  bbox : BoundingBox;
  pattern_info : PatternInfo;
  matched_symbol : option LegendSymbol;
  confidence : Q;
  length_px : Q;
  length_m : option Q;
  wall_thickness_px : Q
}.

Record PatternMatchResult : Type := mkPatternMatchResult {
  page_number : Z;
  target_pattern : PatternInfo;
  detected_regions : list DetectedRegion;
  total_length_px : Q;
  total_length_m : Q;
  segment_count : nat;
  result_confidence : Q;
  warnings : list string
}.

Section Sqrt.
Context `{MathSqrt}.

Definition color_distance (c1 c2 : option Color) : Q :=
  match c1, c2 with
  | None, None => 0.0
  | None, Some _ | Some _, None => 1.0
  | Some c1, Some c2 =>
      if ((length c1 <? 3) || (length c2 <? 3))%nat then 0.5 else
      let dr := nth 0 c1 0 - nth 0 c2 0 in
      let dg := nth 1 c1 0 - nth 1 c2 0 in
      let db := nth 2 c1 0 - nth 2 c2 0 in
      math_sqrt (dr * dr + dg * dg + db * db)
  end.

Definition angle_distance (a1 a2 : option Q) : Q :=
  match a1, a2 with
  | Some a1, Some a2 =>
      let a1 := Py.mod_ a1 180 in
      let a2 := Py.mod_ a2 180 in
      let diff := Qabs (a1 - a2) in
      Py.min diff (180 - diff)
  | _, _ => 45.0
  end.

(** [{t1, t2} <= {SOLID_FILL, HATCHING}] *)
Definition solid_or_hatching (t : PatternType) : bool :=
  match t with SOLID_FILL | HATCHING => true | _ => false end.

Definition hatched (t : PatternType) : bool :=
  match t with HATCHING | CROSSHATCH => true | _ => false end.

(** [if p1.hatching_spacing and p2.hatching_spacing] *)
Definition both_spacings (s1 s2 : option Q) : option (Q * Q) :=
  match s1, s2 with
  | Some a, Some b => if Py.truthy a && Py.truthy b then Some (a, b) else None
  | _, _ => None
  end.

Definition patterns_match (pattern1 pattern2 : PatternInfo)
    (color_tolerance angle_tolerance spacing_tolerance : Q) : bool * Q :=
  let t1 := pattern_type pattern1 in
  let t2 := pattern_type pattern2 in
  if negb (PatternType_eqb t1 t2)
     && negb (solid_or_hatching t1 && solid_or_hatching t2)
  then (false, 0.0) else
  let confidence := 1.0 in
  (* stroke colour *)
  let stroke_dist :=
    color_distance (stroke_color pattern1) (stroke_color pattern2) in
  match (if Py.Qgtb stroke_dist color_tolerance then
           let confidence := confidence * 0.5 in
           if Py.Qgtb stroke_dist (color_tolerance * 2) then None
           else Some confidence
         else Some confidence) with
  | None => (false, 0.0)
  | Some confidence =>
  (* fill colour *)
  let fill_dist := color_distance (fill_color pattern1) (fill_color pattern2) in
  let confidence :=
    if Py.Qgtb fill_dist color_tolerance then confidence * 0.7
    else confidence in
  (* angle, for hatching patterns *)
  match (if hatched t1 then
           let angle_dist :=
             angle_distance (hatching_angle pattern1) (hatching_angle pattern2) in
           if Py.Qgtb angle_dist angle_tolerance then
             let confidence := confidence * 0.5 in
             if Py.Qgtb angle_dist (angle_tolerance * 2) then None
             else Some confidence
           else Some confidence
         else Some confidence) with
  | None => (false, 0.0)
  | Some confidence =>
  (* spacing, if available *)
  let confidence :=
    match both_spacings (hatching_spacing pattern1) (hatching_spacing pattern2) with
    | Some (s1, s2) =>
        let spacing_diff := Qabs (s1 - s2) in
        let spacing_ratio := spacing_diff / Py.max s1 s2 in
        if Py.Qgtb spacing_ratio spacing_tolerance then confidence * 0.7
        else confidence
    | None => confidence
    end in
  (Py.Qgtb confidence 0.3, confidence)
  end end.





End Sqrt.

(** *** Pattern analysis of a drawing *)

Record ValueCluster : Type := mkValueCluster {
  vcenter : Q;
  vcount : nat
}.

Definition close_values (current : list Q) : list ValueCluster :=
  match current with
  | [] => []
  | _ => [mkValueCluster (mean current) (length current)]
  end.

Definition values_step (tolerance : Q) (st : list ValueCluster * list Q) (val : Q)
  : list ValueCluster * list Q :=
  let '(clusters, current) := st in
  if Qle_bool (val - List.last current 0) tolerance
  then (clusters, current ++ [val])
  else (clusters ++ close_values current, [val]).

Definition _cluster_values (values : list Q) (tolerance : Q) : list ValueCluster :=
  match Py.sorted Py.Qltb values with
  | [] => []
  | v0 :: rest =>
      let '(clusters, current) := fold_left (values_step tolerance) rest ([], [v0]) in
      List.filter (fun c => (2 <=? vcount c)%nat) (clusters ++ close_values current)
  end.

Definition is_point (v : PyVal) : bool :=
  match v with VPoint _ _ => true | _ => false end.

Definition line_between (p q : PyVal) : list Line :=
  match p, q with
  | VPoint ax ay, VPoint bx by_ => [mkLine ax ay bx by_]
  | _, _ => []
  end.

(** [item[i]] for an index within the tuple ([i >= 1]). *)
Definition arg (it : Item) (i : nat) : PyVal := nth (i - 1) (args it) VNone.

(** One turn of the item loop of [analyze_drawing_pattern]; the state is
    [(lines, current_pos)]. *)
Definition drawing_lines_step (st : list Line * PyVal) (it : Item)
  : list Line * PyVal :=
  let '(lines, current_pos) := st in
  if (item_len it <? 2)%nat then st else
  if String.eqb (cmd it) "m" then (lines, arg it 1)
  else if String.eqb (cmd it) "l" && negb (is_None current_pos) then
    let p2 := arg it 1 in
    if val_truthy p2 && is_point current_pos && is_point p2
    then (lines ++ line_between current_pos p2, p2)
    else st
  else if String.eqb (cmd it) "l" && (3 <=? item_len it)%nat then
    let p1 := arg it 1 in
    let p2 := arg it 2 in
    if is_point p1 && is_point p2
    then (lines ++ line_between p1 p2, p2)
    else st
  else st.

Definition drawing_lines (its : list Item) : list Line :=
  fst (fold_left drawing_lines_step its ([], VNone)).

Section Analyze.
Context `{MathSqrt} `{MathTrig}.

Definition drawing_angles (lines : list Line) : list Q :=
  flat_map (fun line =>
    let dx := lx2 line - lx1 line in
    let dy := ly2 line - ly1 line in
    let length := math_sqrt (dx * dx + dy * dy) in
    if Py.Qltb length 0.1 then []
    else [Py.mod_ (math_degrees (math_atan2 dy dx)) 180]) lines.

Definition analyze_drawing_pattern (drawing : Drawing) : PatternInfo :=
  let stroke_color := color drawing in
  let fill_color := fill drawing in
  let lines := drawing_lines (items drawing) in
  if (length lines <? 2)%nat then
    if color_truthy fill_color
    then mkPatternInfo SOLID_FILL stroke_color fill_color None None 0%nat None
    else mkPatternInfo NONE stroke_color None None None 0%nat None
  else
  let angles := drawing_angles lines in
  match angles with
  | [] => mkPatternInfo NONE stroke_color None None None 0%nat None
  | _ =>
    let angle_clusters := _cluster_values angles 15.0 in
    match angle_clusters with
    | [c] =>
        mkPatternInfo HATCHING stroke_color fill_color (Some (vcenter c))
                      None (length lines) None
    | [_; _] =>
        let sorted_clusters :=
          Py.sorted (fun a b => (vcount b <? vcount a)%nat) angle_clusters in
        mkPatternInfo CROSSHATCH stroke_color fill_color
                      (option_map vcenter (nth_error sorted_clusters 0))
                      None (length lines)
                      (option_map vcenter (nth_error sorted_clusters 1))
    | _ =>
        mkPatternInfo HATCHING stroke_color fill_color None None
                      (length lines) None
    end
  end.
End Analyze.

(** *** Region length *)

Record LengthState : Type := mkLengthState {
  total_length : Q;
  x_coords : list Q;
  y_coords : list Q;
  current_pos : PyVal
}.

Section Length.
Context `{MathSqrt}.

(** The segment [p1 -> p2] of an ["l"] item, once both ends are chosen. *)
Definition add_segment (st : LengthState) (p1 p2 : PyVal) : LengthState :=
  match p1, p2 with
  | VPoint ax ay, VPoint bx by_ =>
      let dx := bx - ax in
      let dy := by_ - ay in
      mkLengthState (total_length st + math_sqrt (dx * dx + dy * dy))
                    (x_coords st ++ [ax; bx]) (y_coords st ++ [ay; by_]) p2
  | _, _ => st
  end.

Definition region_length_step (st : LengthState) (it : Item) : LengthState :=
  if (item_len it <? 2)%nat then st else
  if String.eqb (cmd it) "m" then
    let pos := arg it 1 in
    match pos with
    | VPoint px py =>
        if val_truthy pos
        then mkLengthState (total_length st) (x_coords st ++ [px])
                           (y_coords st ++ [py]) pos
        else mkLengthState (total_length st) (x_coords st) (y_coords st) pos
    | _ => mkLengthState (total_length st) (x_coords st) (y_coords st) pos
    end
  else if String.eqb (cmd it) "l" then
    if (3 <=? item_len it)%nat then add_segment st (arg it 1) (arg it 2)
    else if val_truthy (current_pos st) && (2 <=? item_len it)%nat
    then add_segment st (current_pos st) (arg it 1)
    else st
  else if String.eqb (cmd it) "re" && (2 <=? item_len it)%nat then
    match arg it 1 with
    | VRect rx0 ry0 rx1 ry1 =>
        let width := Qabs (rx1 - rx0) in
        let height := Qabs (ry1 - ry0) in
        mkLengthState (total_length st + 2 * (width + height))
                      (x_coords st ++ [rx0; rx1]) (y_coords st ++ [ry0; ry1])
                      (current_pos st)
    | _ => st
    end
  else st.

Definition span_of (coords : list Q) : Q :=
  match coords with
  | [] => 0
  | c :: cs => Py.max_list c cs - Py.min_list c cs
  end.

(** The state after the loop over the items. *)
Definition region_length_loop (its : list Item) : LengthState :=
  fold_left region_length_step its (mkLengthState 0.0 [] [] VNone).

Definition calculate_region_length (drawing : Drawing) : Q :=
  let st := region_length_loop (items drawing) in
  match x_coords st, y_coords st with
  | _ :: _, _ :: _ =>
      let x_span := span_of (x_coords st) in
      let y_span := span_of (y_coords st) in
      Py.max x_span y_span
  | _, _ => total_length st / 2
  end.
End Length.

(** *** Merging adjacent regions *)

Definition union_bbox (a b : BoundingBox) : BoundingBox :=
  mkBoundingBox (Py.min (x0 a) (x0 b)) (Py.min (y0 a) (y0 b))
                (Py.max (x1 a) (x1 b)) (Py.max (y1 a) (y1 b)).

Definition x_gap (current region : DetectedRegion) : Q :=
  Py.max 0 (x0 (bbox region) - x1 (bbox current)).

Definition y_gap (current region : DetectedRegion) : Q :=
  Py.max 0 (y0 (bbox region) - y1 (bbox current)).

Definition adjacent (merge_distance : Q) (current region : DetectedRegion) : bool :=
  Qle_bool (x_gap current region) merge_distance
  && Qle_bool (y_gap current region) merge_distance.

Definition merge_two (current region : DetectedRegion) : DetectedRegion :=
  mkDetectedRegion
    (region_id current)
    (union_bbox (bbox current) (bbox region))
    (pattern_info current)
    None
    ((confidence current + confidence region) / 2)
    (length_px current + length_px region)
    None
    ((wall_thickness_px current + wall_thickness_px region) / 2).

(** The key [(r.bbox.y0, r.bbox.x0)], compared as tuples. *)
Definition position_before (a b : DetectedRegion) : bool :=
  Py.Qltb (y0 (bbox a)) (y0 (bbox b))
  || (Qeq_bool (y0 (bbox a)) (y0 (bbox b))
      && Py.Qltb (x0 (bbox a)) (x0 (bbox b))).

(** One turn of the merge loop; the state is [(merged, current)]. *)
Definition merge_step (merge_distance : Q)
    (st : list DetectedRegion * DetectedRegion) (region : DetectedRegion)
  : list DetectedRegion * DetectedRegion :=
  let '(merged, current) := st in
  if adjacent merge_distance current region
  then (merged, merge_two current region)
  else (merged ++ [current], region).

Definition merge_adjacent_regions (regions : list DetectedRegion)
    (merge_distance : Q) : list DetectedRegion :=
  if (length regions <=? 1)%nat then regions else
  match Py.sorted position_before regions with
  | [] => []
  | first :: rest =>
      let '(merged, current) :=
        fold_left (merge_step merge_distance) rest ([], first) in
      merged ++ [current]
  end.

(** *** Unit conversion *)

Definition parse_scale (scale : string) : Z :=
  match Re.scale_match scale with
  | Some n => n
  | None => 100%Z
  end.

Definition convert_to_meters (length_px : Q) (scale : string) (page_dpi : Q)
  : Py.result Q :=
  let scale_factor := parse_scale scale in
  match Py.div (length_px * 25.4) page_dpi with
  | Py.Raise e => Py.Raise e
  | Py.Return length_mm_on_paper =>
      match Py.float_of_int scale_factor with
      | Py.Raise e => Py.Raise e
      | Py.Return factor =>
          let real_mm := length_mm_on_paper * factor in
          Py.Return (real_mm / 1000)
      end
  end.

(** [detect_pattern_in_page] after [find_matching_patterns] has read the
    page: [regions] is what that scan returned.  The loop state is
    [(regions so far, total_length_px, total_length_m)]. *)
Definition convert_step (target_symbol : LegendSymbol) (scale : string)
    (acc : Py.result (list DetectedRegion * Q * Q)) (region : DetectedRegion)
  : Py.result (list DetectedRegion * Q * Q) :=
  match acc with
  | Py.Raise e => Py.Raise e
  | Py.Return (done, total_px, total_m) =>
      match convert_to_meters (length_px region) scale 72.0 with
      | Py.Raise e => Py.Raise e
      | Py.Return m =>
          let region' :=
            mkDetectedRegion (region_id region) (bbox region) (pattern_info region)
              (Some target_symbol) (confidence region) (length_px region)
              (Some m) (wall_thickness_px region) in
          Py.Return (done ++ [region'], total_px + length_px region, total_m + m)
      end
  end.

Definition detect_pattern_in_page (regions : list DetectedRegion)
    (target_symbol : LegendSymbol) (scale : string) (page_number : Z)
  : Py.result PatternMatchResult :=
  let warnings := [] in
  let merged_regions := merge_adjacent_regions regions 5.0 in
  match fold_left (convert_step target_symbol scale) merged_regions
                  (Py.Return ([], 0.0, 0.0)) with
  | Py.Raise e => Py.Raise e
  | Py.Return (merged_regions, total_length_px, total_length_m) =>
      let '(confidence, warnings) :=
        match merged_regions with
        | [] => (0.0, warnings ++ ["No matching patterns found in drawing area"%string])
        | _ => (Py.sum (map confidence merged_regions)
                / inject_Z (Z.of_nat (length merged_regions)), warnings)
        end in
      Py.Return (mkPatternMatchResult page_number
                   (plankopf_parser.pattern_info target_symbol)
                   merged_regions total_length_px total_length_m
                   (length merged_regions) confidence warnings)
  end.

End material_pattern_detector.

(** ** app/services/door_label_detection.py: data model *)

Module door_label_detection.
Local Open Scope Q_scope.

(** The [metadata] dictionary of the dataclass is not read by the
    associator and is left out. *)
Record DoorLabel : Type := mkDoorLabel {
  label_text : string;
  raw_text : string;
  page_number : Z;
  bbox : Q * Q * Q * Q;
  confidence : Q;
  pattern_type : string;
  width_m : option Q;
  height_m : option Q;
  door_type : option string;
  fire_rating : option string
}.

Definition set_fire_rating (l : DoorLabel) (r : option string) : DoorLabel :=
  mkDoorLabel (label_text l) (raw_text l) (page_number l) (bbox l) (confidence l)
              (pattern_type l) (width_m l) (height_m l) (door_type l) r.

End door_label_detection.

(** ** app/services/door_geometry_extraction.py *)

Module door_geometry_extraction.
Import door_label_detection.
Local Open Scope Q_scope.

(** Modelled from the spec: [LineSegment] of [vector_measurement.py], which
    is not part of the sources at hand.  It has the end points of the
    segment and the attributes the door detector reads; [midpoint] is kept
    as a field of its own, so that nothing is assumed on how it is
    derived. *)
Record LineSegment : Type := mkLineSegment {
  x1 : Q; y1 : Q; x2 : Q; y2 : Q;
  midpoint : Q * Q;
  length_px : Q;
  angle_degrees : Q
}.

(** Modelled from the spec: [ScaleContext] of [scale_calibration.py], with
    the fields the extraction reads. *)
Record ScaleContext : Type := mkScaleContext {
  id : string;
  scale_factor : Z;
  pixels_per_meter : Q
}.

(** Modelled from the spec: the members of [DoorCategory] that the
    classification table uses. *)
Inductive DoorCategory : Type := T90 | T30 | DSS | STANDARD.

Record DoorGeometry : Type := mkDoorGeometry {
  geometry_id : string;
  g_page_number : Z;
  center : Q * Q;
  width_px : Q;
  height_px : option Q;
  orientation_deg : Q;
  opening_type : string;
  g_bbox : Q * Q * Q * Q;
  g_confidence : Q;
  source_type : string;
  arc_center : option (Q * Q);
  arc_radius_px : option Q;
  leaf_line : option LineSegment;
  parallel_lines : option (list LineSegment)
}.

Record DoorExtraction : Type := mkDoorExtraction {
  extraction_id : string;
  d_page_number : Z;
  label : option DoorLabel;
  geometry : option DoorGeometry;
  d_width_m : option Q;
  d_height_m : option Q;
  d_door_type : option string;
  door_number : option string;
  d_fire_rating : option string;
  category : option DoorCategory;
  d_confidence : Q;
  extraction_method : string;
  scale_context_id : option string;
  assumptions : list string;
  warnings : list string
}.

(** [DoorExtraction(extraction_id=.., page_number=.., label=.., geometry=..,
    extraction_method=.., confidence=.., warnings=..)], the other fields at
    their defaults. *)
Definition new_extraction (eid : string) (page : Z) (l : option DoorLabel)
    (g : option DoorGeometry) (method : string) (conf : Q) (warns : list string)
  : DoorExtraction :=
  mkDoorExtraction eid page l g None None None None None None conf method None [] warns.

Definition bbox_center (b : Q * Q * Q * Q) : Q * Q :=
  let '(bx0, by0, bx1, by1) := b in ((bx0 + bx1) / 2, (by0 + by1) / 2).

(** Truthiness of an optional string: [None] and the empty string are
    false. *)
Definition str_truthy (s : option string) : bool :=
  match s with
  | Some s => negb (String.eqb s "")
  | None => false
  end.

Section Associate.
Context `{MathSqrt}.
(** [uuid.uuid4().hex[:8]] at its [n]-th call within the association. *)
Variable uuid4_hex8 : nat -> string.

Definition fresh_id (doors : list DoorExtraction) : string :=
  ("door_" ++ uuid4_hex8 (length doors))%string.

Definition distance (p q : Q * Q) : Q :=
  math_sqrt ((fst p - fst q) ^ 2 + (snd p - snd q) ^ 2).

(** One turn of the inner loop: the state is the pair
    [(nearest_geometry, nearest_distance)], [None] standing for no
    geometry at an infinite distance. *)
Definition nearest_step (label_center : Q * Q) (max_distance_px : Q)
    (matched_geometry_ids : gset string)
    (nearest : option (DoorGeometry * Q)) (geometry : DoorGeometry)
  : option (DoorGeometry * Q) :=
  if bool_decide (geometry_id geometry ∈ matched_geometry_ids) then nearest else
  let d := distance (center geometry) label_center in
  let closer :=
    match nearest with
    | None => true
    | Some (_, nearest_distance) => Py.Qltb d nearest_distance
    end in
  if closer && Qle_bool d max_distance_px then Some (geometry, d) else nearest.

Definition find_nearest (label_center : Q * Q) (max_distance_px : Q)
    (matched_geometry_ids : gset string) (geometries_sorted : list DoorGeometry)
  : option (DoorGeometry * Q) :=
  fold_left (nearest_step label_center max_distance_px matched_geometry_ids)
            geometries_sorted None.

Record MatchState : Type := mkMatchState {
  doors : list DoorExtraction;
  matched_geometry_ids : gset string;
  matched_label_indices : gset nat
}.

(** One turn of the loop over [enumerate(labels)]. *)
Definition match_step (geometries_sorted : list DoorGeometry) (max_distance_px : Q)
    (st : MatchState) (il : nat * DoorLabel) : MatchState :=
  let '(i, label) := il in
  let label_center := bbox_center (bbox label) in
  match find_nearest label_center max_distance_px (matched_geometry_ids st)
                     geometries_sorted with
  | Some (nearest_geometry, _) =>
      let door :=
        new_extraction (fresh_id (doors st)) (page_number label)
          (Some label) (Some nearest_geometry) "label_geometry_match"
          (Py.min (confidence label) (g_confidence nearest_geometry)) [] in
      mkMatchState (doors st ++ [door])
                   (matched_geometry_ids st ∪ {[geometry_id nearest_geometry]})
                   (matched_label_indices st ∪ {[i]})
  | None => st
  end.

(** The loop over the geometries that were not matched. *)
Definition geometry_only_step (matched : gset string)
    (doors : list DoorExtraction) (geometry : DoorGeometry)
  : list DoorExtraction :=
  if bool_decide (geometry_id geometry ∈ matched) then doors else
  doors ++ [new_extraction (fresh_id doors) (g_page_number geometry)
              None (Some geometry) "geometry_only"
              (g_confidence geometry * 0.7)
              ["No label found near this door geometry"%string]].

(** The search for a fire rating near [label]: the first label of the
    list, in its order, that is a fire rating closer than 100px; the
    result is that label's [fire_rating]. *)
Definition near_fire_rating (label other_label : DoorLabel) : bool :=
  String.eqb (pattern_type other_label) "fire_rating"
  && Py.Qltb (distance (bbox_center (bbox label)) (bbox_center (bbox other_label))) 100.

Definition find_fire_rating (label : DoorLabel) (labels : list DoorLabel)
  : option string :=
  match List.find (near_fire_rating label) labels with
  | Some other_label => fire_rating other_label
  | None => None
  end.

(** One turn of the loop over the labels that were not matched.  The
    labels are objects of the caller's list: the state carries that list,
    and the assignment [label.fire_rating = fire_rating] writes it at
    index [i]. *)
Definition label_only_step (matched : gset nat)
    (st : list DoorExtraction * list DoorLabel) (i : nat)
  : list DoorExtraction * list DoorLabel :=
  let '(doors, labels) := st in
  match labels !! i with
  | None => st
  | Some label =>
      if bool_decide (i ∈ matched) then st else
      if String.eqb (pattern_type label) "room_door"
         || Re.door_number_pattern (label_text label) then
        let found := find_fire_rating label labels in
        let label :=
          if str_truthy found && negb (str_truthy (fire_rating label))
          then set_fire_rating label found
          else label in
        let labels := <[i := label]> labels in
        let door :=
          new_extraction (fresh_id doors) (page_number label)
            (Some label) None "label_only" (confidence label * 0.8)
            ["Door label found but no geometry detected nearby"%string] in
        (doors ++ [door], labels)
      else st
  end.

(** [associate_labels_with_geometries]: the list of doors, and the
    caller's [labels] list as the call leaves it. *)
Definition associate_labels_with_geometries (labels : list DoorLabel)
    (geometries : list DoorGeometry) (max_distance_px : Q)
  : list DoorExtraction * list DoorLabel :=
  let geometries_sorted :=
    Py.sorted (fun a b => Py.Qltb (g_confidence b) (g_confidence a)) geometries in
  let st :=
    fold_left (match_step geometries_sorted max_distance_px)
              (imap (fun i l => (i, l)) labels)
              (mkMatchState [] ∅ ∅) in
  let doors :=
    fold_left (geometry_only_step (matched_geometry_ids st))
              geometries_sorted (doors st) in
  fold_left (label_only_step (matched_label_indices st))
            (seq 0 (length labels)) (doors, labels).

(** [_distance_between_parallel_lines] *)
Definition _distance_between_parallel_lines (seg1 seg2 : LineSegment)
  : Py.result Q :=
  let '(px, py) := midpoint seg2 in
  let a := y2 seg1 - y1 seg1 in
  let b := x1 seg1 - x2 seg1 in
  let c := x2 seg1 * y1 seg1 - x1 seg1 * y2 seg1 in
  let numerator := Qabs (a * px + b * py + c) in
  match Py.square a with
  | Py.Raise e => Py.Raise e
  | Py.Return a2 =>
      match Py.square b with
      | Py.Raise e => Py.Raise e
      | Py.Return b2 =>
          let denominator := math_sqrt (a2 + b2) in
          if Qeq_bool denominator 0 then Py.Return 0.0
          else Py.div numerator denominator
      end
  end.
End Associate.

(** [needle in hay] on strings. *)
Fixpoint contains (needle hay : string) : bool :=
  String.prefix needle hay
  || match hay with
     | EmptyString => false
     | String _ hay' => contains needle hay'
     end.

Definition float_truthy (x : option Q) : bool :=
  match x with Some x => Py.truthy x | None => false end.

(** [extract_door_attributes]: the record after the in-place update. *)
Definition extract_door_attributes (extraction : DoorExtraction)
    (scale_context : option ScaleContext) : DoorExtraction :=
  (* width and height *)
  let dimensioned_label :=
    match label extraction with
    | Some l => if float_truthy (width_m l) then Some l else None
    | None => None
    end in
  let '(width_m', height_m', assumptions') :=
    match dimensioned_label with
    | Some l =>
        (width_m l, height_m l,
         assumptions extraction ++ ["Width/height from label text"%string])
    | None =>
        match geometry extraction, scale_context with
        | Some g, Some sc =>
            if Py.truthy (pixels_per_meter sc) then
              (Some (width_px g / pixels_per_meter sc),
               (if float_truthy (height_px g)
                then option_map (fun h => h / pixels_per_meter sc) (height_px g)
                else d_height_m extraction),
               assumptions extraction ++
                 [("Width calculated from geometry (scale 1:"
                   ++ pretty (scale_factor sc) ++ ")")%string])
            else (d_width_m extraction, d_height_m extraction, assumptions extraction)
        | _, _ => (d_width_m extraction, d_height_m extraction, assumptions extraction)
        end
    end in
  (* door type, fire rating and door number, from the label *)
  let door_type' :=
    match label extraction with
    | Some l => if str_truthy (door_type l) then door_type l else d_door_type extraction
    | None => d_door_type extraction
    end in
  let fire_rating' :=
    match label extraction with
    | Some l =>
        if str_truthy (fire_rating l) then fire_rating l else d_fire_rating extraction
    | None => d_fire_rating extraction
    end in
  let door_number' :=
    match label extraction with
    | Some l => Some (label_text l)
    | None => door_number extraction
    end in
  (* category *)
  let category' :=
    match fire_rating' with
    | Some r =>
        if str_truthy fire_rating' then
          if contains "T90" r then T90
          else if contains "T30" r then T30
          else if contains "DSS" r || contains "Rauchschutz" r then DSS
          else STANDARD
        else STANDARD
    | None => STANDARD
    end in
  let scale_context_id' :=
    match scale_context with
    | Some sc => Some (id sc)
    | None => scale_context_id extraction
    end in
  mkDoorExtraction (extraction_id extraction) (d_page_number extraction)
    (label extraction) (geometry extraction) width_m' height_m' door_type'
    door_number' fire_rating' (Some category') (d_confidence extraction)
    (extraction_method extraction) scale_context_id' assumptions'
    (warnings extraction).

(** The dictionary [unique_doors]: keys in insertion order; an assignment
    to an existing key replaces the value where it is. *)
Definition Dict : Type := list (string * DoorExtraction).

Fixpoint dict_get (k : string) (d : Dict) : option DoorExtraction :=
  match d with
  | [] => None
  | (k', v) :: d' => if String.eqb k k' then Some v else dict_get k d'
  end.

Fixpoint dict_set (k : string) (v : DoorExtraction) (d : Dict) : Dict :=
  match d with
  | [] => [(k, v)]
  | (k', v') :: d' =>
      if String.eqb k k' then (k, v) :: d' else (k', v') :: dict_set k v d'
  end.

Definition dict_values (d : Dict) : list DoorExtraction := map snd d.

(** One turn of the deduplication loop of [_extract_doors_from_page]. *)
Definition unique_step (unique_doors : Dict) (door : DoorExtraction) : Dict :=
  if str_truthy (door_number door) then
    match door_number door with
    | Some door_num =>
        if Re.door_number_with_suffix door_num then
          match dict_get door_num unique_doors with
          | None => dict_set door_num door unique_doors
          | Some kept =>
              if Py.Qgtb (d_confidence door) (d_confidence kept)
              then dict_set door_num door unique_doors
              else unique_doors
          end
        else unique_doors
    | None => unique_doors
    end
  else dict_set (extraction_id door) door unique_doors.

(** The last part of [_extract_doors_from_page], from the filter by
    minimum confidence on. *)
Definition final_doors (min_confidence : Q) (doors : list DoorExtraction)
  : list DoorExtraction :=
  let doors := List.filter (fun door => Py.Qgeb (d_confidence door) min_confidence) doors in
  dict_values (fold_left unique_step doors []).

Section Page.
Context `{MathSqrt}.
Variable uuid4_hex8 : nat -> string.

(** [_extract_doors_from_page] once the two detectors have read the page:
    [labels] and [geometries] are what they returned. *)
Definition _extract_doors_from_page (labels : list DoorLabel)
    (geometries : list DoorGeometry) (scale_context : option ScaleContext)
    (search_radius_px min_confidence : Q) : list DoorExtraction :=
  let doors :=
    fst (associate_labels_with_geometries uuid4_hex8 labels geometries
                                          search_radius_px) in
  let doors := map (fun door => extract_door_attributes door scale_context) doors in
  final_doors min_confidence doors.
End Page.

(** [_calculate_bbox_from_arc] *)
Definition _calculate_bbox_from_arc (center : Q * Q) (radius_px : Q)
  : Q * Q * Q * Q :=
  let '(x, y) := center in
  (x - radius_px, y - radius_px, x + radius_px, y + radius_px).

Section Rectangles.
Context `{MathSqrt}.
(** [uuid.uuid4().hex[:8]] at its [n]-th call within the detection. *)
Variable uuid4_hex8 : nat -> string.

(** The geometry that [detect_door_rectangles] makes for a pair of lines
    at the distance [distance_px]. *)
Definition rectangle_geometry (geometries : list DoorGeometry) (page_number : Z)
    (seg1 seg2 : LineSegment) (distance_px : Q) : DoorGeometry :=
  let mid1 := midpoint seg1 in
  let mid2 := midpoint seg2 in
  let center := ((fst mid1 + fst mid2) / 2, (snd mid1 + snd mid2) / 2) in
  let bx0 := Py.min_list (x1 seg1) [x2 seg1; x1 seg2; x2 seg2] in
  let by0 := Py.min_list (y1 seg1) [y2 seg1; y1 seg2; y2 seg2] in
  let bx1 := Py.max_list (x1 seg1) [x2 seg1; x1 seg2; x2 seg2] in
  let by1 := Py.max_list (y1 seg1) [y2 seg1; y1 seg2; y2 seg2] in
  mkDoorGeometry ("door_rect_" ++ uuid4_hex8 (length geometries))%string
    page_number center distance_px
    (Some (Py.max (length_px seg1) (length_px seg2)))
    (angle_degrees seg1) "rectangle" (bx0, by0, bx1, by1) 0.6 "vector"
    None None None (Some [seg1; seg2]).

(** One turn of the inner loop over [segments[i+1:]].  The state is the
    list [geometries] and whether an exception has left the [try] block:
    the list built so far is what the function returns then. *)
Definition pair_step (page_number : Z) (pixels_per_meter : Q)
    (min_door_width_m max_door_width_m : Q) (seg1 : LineSegment)
    (st : list DoorGeometry * bool) (seg2 : LineSegment)
  : list DoorGeometry * bool :=
  let '(geometries, raised) := st in
  if raised then st else
  let angle_diff := Qabs (angle_degrees seg1 - angle_degrees seg2) in
  if Py.Qgtb angle_diff 10 then st else
  match _distance_between_parallel_lines seg1 seg2 with
  | Py.Raise _ => (geometries, true)
  | Py.Return distance_px =>
      match Py.div distance_px pixels_per_meter with
      | Py.Raise _ => (geometries, true)
      | Py.Return distance_m =>
          if Qle_bool min_door_width_m distance_m
             && Qle_bool distance_m max_door_width_m
          then (geometries ++ [rectangle_geometry geometries page_number
                                 seg1 seg2 distance_px], false)
          else st
      end
  end.

(** The loop over [enumerate(segments)]. *)
Fixpoint rectangle_loop (page_number : Z) (pixels_per_meter : Q)
    (min_door_width_m max_door_width_m : Q) (segments : list LineSegment)
    (st : list DoorGeometry * bool) : list DoorGeometry * bool :=
  match segments with
  | [] => st
  | seg1 :: rest =>
      rectangle_loop page_number pixels_per_meter min_door_width_m
        max_door_width_m rest
        (fold_left (pair_step page_number pixels_per_meter min_door_width_m
                              max_door_width_m seg1) rest st)
  end.

(** [detect_door_rectangles] once the page has been read: [segments] is
    what [extract_line_segments_from_page] returned. *)
Definition detect_door_rectangles (segments : list LineSegment) (page_number : Z)
    (scale_context : option ScaleContext)
    (min_door_width_m max_door_width_m : Q) : list DoorGeometry :=
  match scale_context with
  | None => []
  | Some sc =>
      if negb (Py.truthy (pixels_per_meter sc)) then [] else
      fst (rectangle_loop page_number (pixels_per_meter sc) min_door_width_m
             max_door_width_m segments ([], false))
  end.
End Rectangles.

(** The summary statistics of [extract_doors_from_pdf], from [all_doors]
    on.  A counting dictionary is a finite map; [d[k] = d.get(k, 0) + 1]
    is [count_in k d]. *)
Definition count_in (k : string) (d : gmap string nat) : gmap string nat :=
  <[k := (default 0%nat (d !! k) + 1)%nat]> d.

(** [round(x)]: the nearest integer, a tie going to the even one. *)
Definition py_round (x : Q) : Z :=
  let f := Qfloor x in
  let r := x - inject_Z f in
  if Py.Qltb r 0.5 then f
  else if Py.Qltb 0.5 r then (f + 1)%Z
  else if Z.even f then f else (f + 1)%Z.

Record Summary : Type := mkSummary {
  by_type : gmap string nat;
  by_fire_rating : gmap string nat;
  by_width : gmap string nat;
  total_width : Q;
  width_count : nat
}.

Section SummaryStatistics.
(** The formatting [f"{x:.2f}"] of a float. *)
Variable format_2f : Q -> string.

Definition summary_step (s : Summary) (door : DoorExtraction) : Summary :=
  let by_type' :=
    match d_door_type door with
    | Some t => if str_truthy (Some t) then count_in t (by_type s) else by_type s
    | None => by_type s
    end in
  let by_fire_rating' :=
    match d_fire_rating door with
    | Some r =>
        if str_truthy (Some r) then count_in r (by_fire_rating s)
        else count_in "Standard" (by_fire_rating s)
    | None => count_in "Standard" (by_fire_rating s)
    end in
  match d_width_m door with
  | Some w =>
      if Py.truthy w then
        let width_rounded := inject_Z (py_round (w * 20)) / 20 in
        let width_key := format_2f width_rounded in
        mkSummary by_type' by_fire_rating' (count_in width_key (by_width s))
                  (total_width s + w) (width_count s + 1)
      else mkSummary by_type' by_fire_rating' (by_width s) (total_width s)
                     (width_count s)
  | None => mkSummary by_type' by_fire_rating' (by_width s) (total_width s)
                      (width_count s)
  end.

Definition summary_of (all_doors : list DoorExtraction) : Summary :=
  fold_left summary_step all_doors (mkSummary ∅ ∅ ∅ 0.0 0).

Definition avg_width_m (s : Summary) : option Q :=
  if (0 <? width_count s)%nat
  then Some (total_width s / inject_Z (Z.of_nat (width_count s)))
  else None.
End SummaryStatistics.

End door_geometry_extraction.

(** * Properties *)

Section PyFacts.
Local Open Scope Q_scope.

Lemma Qltb_lt (a b : Q) : Py.Qltb a b = true <-> a < b.
Proof.
  unfold Py.Qltb. rewrite negb_true_iff.
  split.
  - intros Hf. apply Qnot_le_lt. intros Hle.
    apply Qle_bool_iff in Hle. congruence.
  - intros Hlt. destruct (Qle_bool b a) eqn:E; [|reflexivity].
    apply Qle_bool_iff in E. exfalso. lra.
Qed.

Lemma Qltb_ge (a b : Q) : Py.Qltb a b = false <-> b <= a.
Proof.
  unfold Py.Qltb. rewrite negb_false_iff. apply Qle_bool_iff.
Qed.

Lemma Qgtb_gt (a b : Q) : Py.Qgtb a b = true <-> b < a.
Proof. apply Qltb_lt. Qed.

Lemma Qgtb_le (a b : Q) : Py.Qgtb a b = false <-> a <= b.
Proof. apply Qltb_ge. Qed.

Lemma min_cases (a b : Q) :
  (b < a /\ Py.min a b = b) \/ (a <= b /\ Py.min a b = a).
Proof.
  unfold Py.min. destruct (Py.Qltb b a) eqn:E.
  - left. apply Qltb_lt in E. auto.
  - right. apply Qltb_ge in E. auto.
Qed.

Lemma max_cases (a b : Q) :
  (a < b /\ Py.max a b = b) \/ (b <= a /\ Py.max a b = a).
Proof.
  unfold Py.max. destruct (Py.Qltb a b) eqn:E.
  - left. apply Qltb_lt in E. auto.
  - right. apply Qltb_ge in E. auto.
Qed.

Lemma mod_range (a m : Q) : 0 < m -> 0 <= Py.mod_ a m /\ Py.mod_ a m < m.
Proof.
  intros Hm. unfold Py.mod_.
  pose proof (Qfloor_le (a / m)) as Hlo.
  pose proof (Qlt_floor (a / m)) as Hhi.
  rewrite inject_Z_plus in Hhi.
  assert (Ha : a == m * (a / m)) by (field; lra).
  set (x := a / m) in *. set (k := inject_Z (Qfloor x)) in *.
  change (inject_Z 1) with 1 in Hhi.
  split.
  - assert (m * k <= m * x) by (apply Qmult_le_l; assumption). lra.
  - assert (m * x < m * (k + 1)) by (apply Qmult_lt_l; assumption). lra.
Qed.

End PyFacts.

(** ** Pattern matching *)

Section PatternsMatch.
Import plankopf_parser material_pattern_detector.
Local Open Scope Q_scope.
Context `{MathSqrt}.


Lemma angle_distance_nonneg (a1 a2 : option Q) : 0 <= angle_distance a1 a2.
Proof.
  unfold angle_distance.
  destruct a1 as [a1|], a2 as [a2|]; try (apply Qle_bool_iff; reflexivity).
  assert (H180 : 0 < 180) by reflexivity.
  destruct (mod_range a1 180 H180) as [L1 U1].
  destruct (mod_range a2 180 H180) as [L2 U2].
  set (x := Py.mod_ a1 180) in *. set (y := Py.mod_ a2 180) in *.
  assert (Hd : 0 <= Qabs (x - y)) by apply Qabs_nonneg.
  assert (Hu : Qabs (x - y) <= 180).
  { apply Qabs_Qle_condition. split; lra. }
  destruct (min_cases (Qabs (x - y)) (180 - Qabs (x - y))) as [[_ ->]|[_ ->]]; lra.
Qed.




(** Two identical hatching patterns: angle 45 degrees, stroke (1,0,0). *)
Definition hatching_45_red : PatternInfo :=
  mkPatternInfo HATCHING (Some [1; 0; 0]) None (Some 45) None 0%nat None.


End PatternsMatch.



(** ** The perpendicular distance of the rectangle-based door detector *)

Section ParallelLines.
Import door_geometry_extraction.
Local Open Scope Q_scope.
Context `{MathSqrt}.

Lemma div_returns (a b : Q) :
  Qeq_bool b 0 = false -> Py.div a b = Py.Return (a / b).
Proof. intros Hb. unfold Py.div. rewrite Hb. reflexivity. Qed.





End ParallelLines.






(** ** Conversion of lengths to meters *)

Section ConvertToMeters.
Import plankopf_parser material_pattern_detector.
Local Open Scope Q_scope.

Lemma span_all (p : ascii -> bool) (s rest : list ascii) :
  forallb p s = true ->
  match rest with [] => True | c :: _ => p c = false end ->
  Re.span p (s ++ rest) = (s, rest).
Proof.
  induction s as [|c s IH]; cbn [forallb app Re.span]; intros Hall Hrest.
  - destruct rest as [|c rest]; [reflexivity|]. cbn [Re.span]. rewrite Hrest. reflexivity.
  - apply andb_prop in Hall as [Hc Hs]. rewrite Hc, (IH Hs Hrest). reflexivity.
Qed.




(** The group of the scale pattern has at most 308 digits, so that its
    value is below 10^308 and in the range of floats. *)
Definition short_scale (scale : string) : bool :=
  match Re.scale_group scale with
  | Some ds => (length ds <=? 308)%nat
  | None => true
  end.

Lemma span_fst_all (p : ascii -> bool) (s : list ascii) :
  forallb p (fst (Re.span p s)) = true.
Proof.
  induction s as [|c s IH]; [reflexivity|]. cbn [Re.span].
  destruct (p c) eqn:Hc; [|reflexivity].
  destruct (Re.span p s) as [a b]. cbn [fst forallb] in *. rewrite Hc, IH. reflexivity.
Qed.

Lemma scale_group_is_digits (scale : string) (ds : list ascii) :
  Re.scale_group scale = Some ds -> forallb Re.is_digit ds = true.
Proof.
  unfold Re.scale_group. destruct (Re.lit "1" (Re.chars scale)) as [s1|]; [|discriminate].
  cbn [mbind option_bind].
  destruct (snd (Re.span Re.is_space s1)) as [|c s2]; [discriminate|].
  destruct (Ascii.eqb c ":" || Ascii.eqb c "/"); [|discriminate].
  cbn [mbind option_bind]. unfold Re.digits1.
  pose proof (span_fst_all Re.is_digit (snd (Re.span Re.is_space s2))) as Hall.
  destruct (Re.span Re.is_digit (snd (Re.span Re.is_space s2))) as [[|d r] rest];
    [discriminate|].
  cbn [mbind option_bind fst] in *. intros [= <-]. exact Hall.
Qed.

Lemma int_of_digits_from (ds : list ascii) (acc : Z) :
  forallb Re.is_digit ds = true -> (0 <= acc)%Z ->
  (0 <= fold_left (fun a c => 10 * a + Re.digit_value c) ds acc
   <= acc * 10 ^ Z.of_nat (length ds) + (10 ^ Z.of_nat (length ds) - 1))%Z.
Proof.
  revert acc. induction ds as [|d ds IH]; intros acc Hall Hacc.
  - cbn [fold_left length]. change (10 ^ Z.of_nat 0)%Z with 1%Z. lia.
  - cbn [forallb] in Hall. apply andb_prop in Hall as [Hd Hall].
    assert (Hv : (0 <= Re.digit_value d <= 9)%Z).
    { unfold Re.digit_value, Re.is_digit in *. apply andb_prop in Hd as [Hlo Hhi].
      apply Nat.leb_le in Hlo. apply Nat.leb_le in Hhi. lia. }
    cbn [fold_left]. specialize (IH (10 * acc + Re.digit_value d)%Z Hall ltac:(lia)).
    change (length (d :: ds)) with (S (length ds)).
    rewrite Nat2Z.inj_succ, Z.pow_succ_r by lia.
    assert (Hp : (0 < 10 ^ Z.of_nat (length ds))%Z) by (apply Z.pow_pos_nonneg; lia).
    nia.
Qed.

Lemma int_of_digits_bound (ds : list ascii) :
  forallb Re.is_digit ds = true ->
  (0 <= Re.int_of_digits ds < 10 ^ Z.of_nat (length ds))%Z.
Proof.
  intros Hall. pose proof (int_of_digits_from ds 0 Hall ltac:(lia)) as Hb.
  unfold Re.int_of_digits. lia.
Qed.

Lemma short_scale_in_range (scale : string) :
  short_scale scale = true ->
  Py.float_of_int (parse_scale scale) = Py.Return (inject_Z (parse_scale scale)).
Proof.
  intros Hshort.
  assert (Hb : (0 <= parse_scale scale < 10 ^ 308)%Z).
  { unfold parse_scale, Re.scale_match, short_scale in *.
    destruct (Re.scale_group scale) as [ds|] eqn:Hg; cbn [mbind option_bind];
      [|split; [lia | reflexivity]].
    apply Nat.leb_le in Hshort.
    pose proof (int_of_digits_bound ds (scale_group_is_digits scale ds Hg)) as Hd.
    split; [lia|]. apply Z.lt_le_trans with (1 := proj2 Hd).
    apply Z.pow_le_mono_r; lia. }
  unfold Py.float_of_int.
  destruct (Qle_bool Py.float_overflow (Qabs (inject_Z (parse_scale scale)))) eqn:Hle;
    [|reflexivity].
  exfalso. apply Qle_bool_iff in Hle.
  rewrite Qabs_pos in Hle by (change 0 with (inject_Z 0); rewrite <- Zle_Qle; lia).
  unfold Py.float_overflow in Hle. rewrite <- Zle_Qle in Hle.
  assert (Hlt : (10 ^ 308 < 2 ^ 1024 - 2 ^ 970)%Z) by (vm_compute; reflexivity).
  lia.
Qed.

Lemma convert_returns (length_px : Q) (scale : string) (page_dpi : Q) :
  Qeq_bool page_dpi 0 = false -> short_scale scale = true ->
  convert_to_meters length_px scale page_dpi
  = Py.Return (length_px * 25.4 / page_dpi * inject_Z (parse_scale scale) / 1000).
Proof.
  intros Hdpi Hshort. unfold convert_to_meters.
  rewrite (div_returns _ _ Hdpi), (short_scale_in_range scale Hshort). reflexivity.
Qed.




End ConvertToMeters.



Definition drywall_symbol : plankopf_parser.LegendSymbol :=
  plankopf_parser.mkLegendSymbol "sym_1" "Trockenbaukonstruktion"
    "trockenbaukonstruktion" (plankopf_parser.mkBoundingBox 0 0 20 10)
    hatching_45_red (Some "drywall"%string) 1.0%Q.


(** ** Region length *)

Section FoldFacts.
Context {S A : Type}.

Lemma fold_left_invariant (P : S -> Prop) (f : S -> A -> S) (l : list A) (s : S) :
  P s -> (forall s x, P s -> P (f s x)) -> P (fold_left f l s).
Proof.
  intros Hs Hstep. revert s Hs.
  induction l as [|x l IH]; intros s Hs; cbn [fold_left]; auto.
Qed.

End FoldFacts.

Section Extent.
Local Open Scope Q_scope.

Lemma max_list_upper (c : Q) (cs : list Q) :
  c <= Py.max_list c cs
  /\ (forall x, In x cs -> x <= Py.max_list c cs)
  /\ In (Py.max_list c cs) (c :: cs).
Proof.
  unfold Py.max_list. revert c.
  induction cs as [|d cs IH]; intros c; cbn [fold_left].
  - repeat split; [lra | intros x [] | left; reflexivity].
  - destruct (IH (Py.max c d)) as (Hge & Hall & Hin).
    destruct (max_cases c d) as [[Hlt Hm]|[Hle Hm]]; rewrite Hm in *.
    + repeat split.
      * lra.
      * intros x [<-|Hx]; [exact Hge | apply Hall, Hx].
      * right. exact Hin.
    + repeat split.
      * exact Hge.
      * intros x [<-|Hx]; [lra | apply Hall, Hx].
      * destruct Hin as [Hin|Hin]; [left; exact Hin | right; right; exact Hin].
Qed.

Lemma min_list_lower (c : Q) (cs : list Q) :
  Py.min_list c cs <= c
  /\ (forall x, In x cs -> Py.min_list c cs <= x)
  /\ In (Py.min_list c cs) (c :: cs).
Proof.
  unfold Py.min_list. revert c.
  induction cs as [|d cs IH]; intros c; cbn [fold_left].
  - repeat split; [lra | intros x [] | left; reflexivity].
  - destruct (IH (Py.min c d)) as (Hge & Hall & Hin).
    destruct (min_cases c d) as [[Hlt Hm]|[Hle Hm]]; rewrite Hm in *.
    + repeat split.
      * lra.
      * intros x [<-|Hx]; [exact Hge | apply Hall, Hx].
      * right. exact Hin.
    + repeat split.
      * exact Hge.
      * intros x [<-|Hx]; [lra | apply Hall, Hx].
      * destruct Hin as [Hin|Hin]; [left; exact Hin | right; right; exact Hin].
Qed.

(** [s] is the extent of the coordinates [coords]: the largest difference
    between two of them. *)
Definition is_extent (coords : list Q) (s : Q) : Prop :=
  (forall a b, In a coords -> In b coords -> a - b <= s)
  /\ (exists a b, In a coords /\ In b coords /\ s = a - b).

Lemma span_of_extent (coords : list Q) :
  coords <> [] -> is_extent coords (material_pattern_detector.span_of coords).
Proof.
  destruct coords as [|c cs]; [congruence|]. intros _.
  unfold material_pattern_detector.span_of.
  destruct (max_list_upper c cs) as (Hc & Hall & Hin).
  destruct (min_list_lower c cs) as (Hc' & Hall' & Hin').
  split.
  - intros a b Ha Hb.
    assert (a <= Py.max_list c cs) by (destruct Ha as [<-|Ha]; auto).
    assert (Py.min_list c cs <= b) by (destruct Hb as [<-|Hb]; auto).
    lra.
  - exists (Py.max_list c cs), (Py.min_list c cs). auto.
Qed.

End Extent.

Section RegionLength.
Import plankopf_parser material_pattern_detector.
Local Open Scope Q_scope.
Context `{MathSqrt}.

(** Coordinates are collected in pairs, and a length is only ever added
    together with coordinates. *)
Definition length_state_ok (st : LengthState) : Prop :=
  length (x_coords st) = length (y_coords st)
  /\ (x_coords st = [] -> total_length st = 0.0).

Lemma region_length_step_ok (st : LengthState) (it : Item) :
  length_state_ok st -> length_state_ok (region_length_step st it).
Proof.
  intros [Hlen Hzero]. unfold region_length_step, add_segment.
  repeat match goal with
  | |- context [if ?b then _ else _] => destruct b
  | |- context [match ?x with _ => _ end] => destruct x
  end;
  split; cbn [x_coords y_coords total_length]; auto;
  rewrite ?length_app; cbn [length]; try lia;
  intros Hnil; apply app_eq_nil in Hnil as [_ Hnil]; discriminate.
Qed.

Lemma region_length_loop_ok (its : list Item) :
  length_state_ok (region_length_loop its).
Proof.
  unfold region_length_loop. apply fold_left_invariant.
  - split; [reflexivity | reflexivity].
  - intros st it. apply region_length_step_ok.
Qed.

(** A drawing given as straight segments: one item [("l", p1, p2)] for
    each. *)
Definition segment_item (l : Line) : Item :=
  mkItem "l" [VPoint (lx1 l) (ly1 l); VPoint (lx2 l) (ly2 l)].

Definition segment_length (l : Line) : Q :=
  math_sqrt ((lx2 l - lx1 l) * (lx2 l - lx1 l) + (ly2 l - ly1 l) * (ly2 l - ly1 l)).

Lemma segments_loop (segs : list Line) (st : LengthState) :
  let st' := fold_left region_length_step (map segment_item segs) st in
  x_coords st' = x_coords st ++ flat_map (fun l => [lx1 l; lx2 l]) segs
  /\ y_coords st' = y_coords st ++ flat_map (fun l => [ly1 l; ly2 l]) segs
  /\ total_length st' = fold_left Qplus (map segment_length segs) (total_length st).
Proof.
  revert st. induction segs as [|l segs IH]; intros st; cbn [map fold_left flat_map].
  - rewrite !app_nil_r. auto.
  - destruct (IH (region_length_step st (segment_item l))) as (Hx & Hy & Ht).
    cbn zeta in *. rewrite Hx, Hy, Ht.
    cbn [region_length_step segment_item item_len args cmd length Nat.ltb Nat.leb
         String.eqb Ascii.eqb Bool.eqb arg nth Nat.sub add_segment
         x_coords y_coords total_length].
    rewrite <- !app_assoc. auto.
Qed.

(** C5, as amended.  The region length is the longer bounding-box span,
    the maximum of the x-extent and the y-extent of all the coordinates
    collected from the items, whenever a coordinate was collected: for an
    open polyline given by its segments as well as for closed or
    rectangle-like shapes.  Only when no coordinate was collected is the
    summed length used, halved, and it is zero then. *)
Theorem calculate_region_length_is_span :
  (forall drawing : Drawing,
      let st := region_length_loop (items drawing) in
      (x_coords st <> [] ->
       y_coords st <> []
       /\ calculate_region_length drawing
          = Py.max (span_of (x_coords st)) (span_of (y_coords st))
       /\ is_extent (x_coords st) (span_of (x_coords st))
       /\ is_extent (y_coords st) (span_of (y_coords st)))
      /\ (x_coords st = [] -> calculate_region_length drawing == 0))
  /\ (forall (segs : list Line) c f r,
        segs <> [] ->
        calculate_region_length (mkDrawing (map segment_item segs) c f r)
        = Py.max (span_of (flat_map (fun l => [lx1 l; lx2 l]) segs))
                 (span_of (flat_map (fun l => [ly1 l; ly2 l]) segs))).
Proof.
  assert (Hgen : forall drawing : Drawing,
      let st := region_length_loop (items drawing) in
      (x_coords st <> [] ->
       y_coords st <> []
       /\ calculate_region_length drawing
          = Py.max (span_of (x_coords st)) (span_of (y_coords st))
       /\ is_extent (x_coords st) (span_of (x_coords st))
       /\ is_extent (y_coords st) (span_of (y_coords st)))
      /\ (x_coords st = [] -> calculate_region_length drawing == 0)).
  { intros drawing st.
    destruct (region_length_loop_ok (items drawing)) as [Hlen Hzero].
    fold st in Hlen, Hzero. unfold calculate_region_length. fold st. split.
    - intros Hx.
      assert (Hy : y_coords st <> []).
      { intros Hy. rewrite Hy in Hlen. destruct (x_coords st); [congruence | discriminate]. }
      split; [exact Hy|]. split.
      + destruct (x_coords st); [congruence|]. destruct (y_coords st); [congruence|].
        reflexivity.
      + split; apply span_of_extent; assumption.
    - intros Hx. rewrite Hx, (Hzero Hx). reflexivity. }
  split; [exact Hgen|].
  intros segs c f r Hne.
  destruct (Hgen (mkDrawing (map segment_item segs) c f r)) as [Hspan _].
  cbn [items] in Hspan. unfold region_length_loop in Hspan.
  destruct (segments_loop segs (mkLengthState 0.0 [] [] VNone)) as (Hx & Hy & _).
  cbn zeta in Hx, Hy. cbn [x_coords y_coords app] in Hx, Hy.
  rewrite Hx, Hy in Hspan. apply Hspan.
  destruct segs as [|l segs]; [congruence | discriminate].
Qed.

End RegionLength.

(** An open polyline in the shape of an L: two legs of length 10. *)
Definition L_polyline : list plankopf_parser.Line :=
  [plankopf_parser.mkLine 0 0 10 0; plankopf_parser.mkLine 10 0 10 10].

Definition L_drawing : plankopf_parser.Drawing :=
  plankopf_parser.mkDrawing (map segment_item L_polyline) None None None.

Lemma calculate_region_length_is_span_witness :
  @material_pattern_detector.calculate_region_length QMath L_drawing
  = Py.max 10 10.
Proof.
  apply (proj2 (@calculate_region_length_is_span QMath) L_polyline None None None).
  discriminate.
Defined.

(** C5, counterexample.  The segments of the open L-shaped polyline sum to
    20, and the region length computed for it is 10, its bounding-box
    span. *)
Lemma region_length_of_open_polyline :
  (Py.sum (map (@segment_length QMath) L_polyline) == 20)%Q
  /\ (@material_pattern_detector.calculate_region_length QMath L_drawing == 10)%Q
  /\ ~ (@material_pattern_detector.calculate_region_length QMath L_drawing
        == Py.sum (map (@segment_length QMath) L_polyline))%Q.
Proof.
  split; [reflexivity|]. split; [reflexivity|].
  intros Heq. vm_compute in Heq. discriminate Heq.
Qed.

(** ** Merging adjacent regions *)

Section SortedFacts.
Context {A : Type} (before : A -> A -> bool).

Lemma insert_sorted_perm (x : A) (l : list A) :
  Permutation (Py.insert_sorted before x l) (x :: l).
Proof.
  induction l as [|y l IH]; cbn [Py.insert_sorted]; [reflexivity|].
  destruct (before y x); [|reflexivity].
  rewrite IH. apply perm_swap.
Qed.

Lemma sorted_perm (l : list A) : Permutation (Py.sorted before l) l.
Proof.
  induction l as [|x l IH]; cbn [Py.sorted]; [reflexivity|].
  rewrite insert_sorted_perm. constructor. exact IH.
Qed.

Lemma sorted_short (l : list A) : (length l <= 1)%nat -> Py.sorted before l = l.
Proof.
  destruct l as [|x [|y l]]; cbn [length]; intros Hl; try reflexivity. lia.
Qed.

End SortedFacts.

Section MergeGroups.
Import plankopf_parser material_pattern_detector.
Local Open Scope Q_scope.

(** A run of regions that are merged into one: its first region and the
    regions merged into it, in order. *)
Definition Group : Type := (DetectedRegion * list DetectedRegion)%type.

Definition members (g : Group) : list DetectedRegion := fst g :: snd g.

Definition merged_group (g : Group) : DetectedRegion :=
  fold_left merge_two (snd g) (fst g).

(** The runs that the merge loop forms. *)
Definition group_step (merge_distance : Q) (st : list Group * Group)
    (region : DetectedRegion) : list Group * Group :=
  let '(closed, g) := st in
  if adjacent merge_distance (merged_group g) region
  then (closed, (fst g, snd g ++ [region]))
  else (closed ++ [g], (region, [])).

Definition groups_of (merge_distance : Q) (sorted_regions : list DetectedRegion)
  : list Group :=
  match sorted_regions with
  | [] => []
  | first :: rest =>
      let st := fold_left (group_step merge_distance) rest ([], (first, [])) in
      fst st ++ [snd st]
  end.

(** The gap between two boxes on each axis, whichever side the second box
    lies on. *)
Definition box_gap_x (a b : BoundingBox) : Q :=
  Py.max (Py.max 0 (x0 b - x1 a)) (x0 a - x1 b).

Definition box_gap_y (a b : BoundingBox) : Q :=
  Py.max (Py.max 0 (y0 b - y1 a)) (y0 a - y1 b).

Definition near (merge_distance : Q) (a b : BoundingBox) : Prop :=
  box_gap_x a b <= merge_distance /\ box_gap_y a b <= merge_distance.

(** Between two runs that follow each other, the first region of the
    second run is not near the box of the first run. *)
Fixpoint apart (merge_distance : Q) (gs : list Group) : Prop :=
  match gs with
  | g :: ((g' :: _) as gs') =>
      ~ near merge_distance (bbox (merged_group g)) (bbox (fst g'))
      /\ apart merge_distance gs'
  | _ => True
  end.

Lemma near_adjacent (md : Q) (current region : DetectedRegion) :
  near md (bbox current) (bbox region) -> adjacent md current region = true.
Proof.
  unfold near, adjacent, box_gap_x, box_gap_y, x_gap, y_gap. intros [Hx Hy].
  apply andb_true_intro. split; apply Qle_bool_iff.
  - destruct (max_cases (Py.max 0 (x0 (bbox region) - x1 (bbox current)))
                        (x0 (bbox current) - x1 (bbox region))) as [[? E]|[? E]];
      rewrite E in Hx; lra.
  - destruct (max_cases (Py.max 0 (y0 (bbox region) - y1 (bbox current)))
                        (y0 (bbox current) - y1 (bbox region))) as [[? E]|[? E]];
      rewrite E in Hy; lra.
Qed.

Lemma merged_group_snoc (f : DetectedRegion) (l : list DetectedRegion) (r : DetectedRegion) :
  merged_group (f, l ++ [r]) = merge_two (merged_group (f, l)) r.
Proof. unfold merged_group. cbn [fst snd]. apply fold_left_app. Qed.

Lemma apart_snoc (md : Q) (gs : list Group) (g g' : Group) :
  apart md (gs ++ [g]) ->
  ~ near md (bbox (merged_group g)) (bbox (fst g')) ->
  apart md ((gs ++ [g]) ++ [g']).
Proof.
  induction gs as [|h gs IH]; cbn [app]; intros Hap Hnn.
  - change (~ near md (bbox (merged_group g)) (bbox (fst g')) /\ True). auto.
  - destruct gs as [|h' gs]; cbn [app] in *.
    + destruct Hap as [H1 _].
      change (~ near md (bbox (merged_group h)) (bbox (fst g))
              /\ ~ near md (bbox (merged_group g)) (bbox (fst g')) /\ True).
      auto.
    + destruct Hap as [H1 H2]. split; [exact H1 | apply IH; assumption].
Qed.

Lemma apart_last (md : Q) (gs : list Group) (g g2 : Group) :
  apart md (gs ++ [g]) -> fst g2 = fst g -> apart md (gs ++ [g2]).
Proof.
  induction gs as [|h gs IH]; cbn [app]; intros Hap Hf.
  - exact I.
  - destruct gs as [|h' gs]; cbn [app] in *.
    + destruct Hap as [H1 _].
      change (~ near md (bbox (merged_group h)) (bbox (fst g2)) /\ True).
      rewrite Hf. auto.
    + destruct Hap as [H1 H2]. split; [exact H1 | apply IH; assumption].
Qed.

Lemma group_loop (md : Q) (rest : list DetectedRegion) (closed : list Group) (g : Group) :
  apart md (closed ++ [g]) ->
  let st := fold_left (group_step md) rest (closed, g) in
  fold_left (merge_step md) rest (map merged_group closed, merged_group g)
  = (map merged_group (fst st), merged_group (snd st))
  /\ flat_map members (fst st ++ [snd st]) = flat_map members (closed ++ [g]) ++ rest
  /\ apart md (fst st ++ [snd st]).
Proof.
  revert closed g. induction rest as [|r rest IH]; intros closed g Hap; cbn [fold_left].
  - cbn [fst snd]. rewrite app_nil_r. auto.
  - change (group_step md (closed, g) r)
      with (if adjacent md (merged_group g) r
            then (closed, (fst g, snd g ++ [r])) else (closed ++ [g], (r, []))).
    change (merge_step md (map merged_group closed, merged_group g) r)
      with (if adjacent md (merged_group g) r
            then (map merged_group closed, merge_two (merged_group g) r)
            else (map merged_group closed ++ [merged_group g], r)).
    destruct (adjacent md (merged_group g) r) eqn:Hadj.
    + destruct g as [f l]. cbn [fst snd].
      assert (Hpre : apart md (closed ++ [(f, l ++ [r])])).
      { apply (apart_last md closed (f, l)); [exact Hap | reflexivity]. }
      destruct (IH closed (f, l ++ [r]) Hpre) as (Hm & Hf & Ha).
      rewrite <- merged_group_snoc.
      split; [exact Hm|]. split; [|exact Ha].
      etransitivity; [exact Hf|]. rewrite !flat_map_app. cbn [flat_map].
      unfold members. cbn [fst snd]. rewrite ?app_nil_r.
      repeat (rewrite <- app_assoc; cbn [app]). reflexivity.
    + assert (Hpre : apart md ((closed ++ [g]) ++ [(r, [])])).
      { apply apart_snoc; [exact Hap|]. cbn [fst].
        intros Hn. apply near_adjacent in Hn. congruence. }
      destruct (IH (closed ++ [g]) (r, []) Hpre) as (Hm & Hf & Ha).
      rewrite map_app in Hm. cbn [map] in Hm.
      split; [exact Hm|]. split; [|exact Ha].
      etransitivity; [exact Hf|]. rewrite !flat_map_app. cbn [flat_map].
      unfold members. cbn [fst snd]. rewrite ?app_nil_r.
      repeat (rewrite <- app_assoc; cbn [app]). reflexivity.
Qed.

Lemma merge_is_groups (regions : list DetectedRegion) (md : Q) :
  let gs := groups_of md (Py.sorted position_before regions) in
  merge_adjacent_regions regions md = map merged_group gs
  /\ flat_map members gs = Py.sorted position_before regions
  /\ apart md gs.
Proof.
  cbv zeta. unfold merge_adjacent_regions.
  destruct (length regions <=? 1)%nat eqn:Hlen.
  - apply Nat.leb_le in Hlen. rewrite (sorted_short _ _ Hlen).
    destruct regions as [|r [|r' regions]]; cbn [length] in Hlen; try lia.
    + cbn. auto.
    + cbn. auto.
  - destruct (Py.sorted position_before regions) as [|first rest]; [cbn; auto|].
    unfold groups_of.
    destruct (group_loop md rest [] (first, []) I) as (Hm & Hf & Ha).
    cbn [map] in Hm. change (merged_group (first, [])) with first in Hm.
    rewrite Hm. rewrite map_app. cbn [map]. auto.
Qed.

(** The box of a merged run covers the box of each of its members. *)
Definition covers (a b : BoundingBox) : Prop :=
  x0 a <= x0 b /\ y0 a <= y0 b /\ x1 b <= x1 a /\ y1 b <= y1 a.

Lemma union_covers (a b c : BoundingBox) :
  covers a c \/ covers b c -> covers (union_bbox a b) c.
Proof.
  unfold covers, union_bbox. cbn [x0 y0 x1 y1].
  destruct (min_cases (x0 a) (x0 b)) as [[? ->]|[? ->]];
  destruct (min_cases (y0 a) (y0 b)) as [[? ->]|[? ->]];
  destruct (max_cases (x1 a) (x1 b)) as [[? ->]|[? ->]];
  destruct (max_cases (y1 a) (y1 b)) as [[? ->]|[? ->]];
  intros [(?&?&?&?)|(?&?&?&?)]; repeat split; lra.
Qed.

Lemma covers_refl (a : BoundingBox) : covers a a.
Proof. unfold covers. repeat split; lra. Qed.

Lemma merged_group_fields (f : DetectedRegion) (l : list DetectedRegion) :
  let m := merged_group (f, l) in
  region_id m = region_id f
  /\ pattern_info m = pattern_info f
  /\ bbox m = fold_left union_bbox (map bbox l) (bbox f)
  /\ length_px m = fold_left Qplus (map length_px l) (length_px f)
  /\ confidence m
     = fold_left (fun c c' => (c + c') / 2) (map confidence l) (confidence f)
  /\ (forall r, In r (f :: l) -> covers (bbox m) (bbox r)).
Proof.
  cbv zeta. revert f. induction l as [|r l IH]; intros f.
  - unfold merged_group. cbn [fst snd map fold_left].
    do 5 (split; [reflexivity|]).
    intros r' [<-|[]]. apply covers_refl.
  - change (merged_group (f, r :: l)) with (merged_group (merge_two f r, l)).
    destruct (IH (merge_two f r)) as (H1 & H2 & H3 & H4 & H5 & H6).
    cbn [map fold_left].
    split; [rewrite H1; reflexivity|]. split; [rewrite H2; reflexivity|].
    split; [rewrite H3; reflexivity|]. split; [rewrite H4; reflexivity|].
    split; [rewrite H5; reflexivity|].
    intros r' Hin.
    assert (Hc : covers (bbox (merge_two f r)) (bbox r')
                 \/ In r' (merge_two f r :: l)).
    { destruct Hin as [<-|[<-|Hin]].
      - left. apply union_covers. left. apply covers_refl.
      - left. apply union_covers. right. apply covers_refl.
      - right. right. exact Hin. }
    destruct Hc as [Hc|Hc]; [|apply H6, Hc].
    specialize (H6 (merge_two f r) (or_introl eq_refl)).
    unfold covers in *. lra.
Qed.


End MergeGroups.

(** Three wall fragments in a row, 2 units apart, with confidences 1.0,
    1.0 and 0.4. *)
Definition fragment (x : Q) (conf : Q) : material_pattern_detector.DetectedRegion :=
  material_pattern_detector.mkDetectedRegion "region"
    (plankopf_parser.mkBoundingBox x 0 (x + 10) 2) hatching_45_red None conf 10 None 2.

Definition three_fragments : list material_pattern_detector.DetectedRegion :=
  [fragment 0 1.0%Q; fragment 12 1.0%Q; fragment 24 0.4%Q].



(** ** Association of labels with geometries *)

Section Association.
Import door_label_detection door_geometry_extraction.
Local Open Scope Q_scope.
Context `{MathSqrt} (uuid4_hex8 : nat -> string).

(** The three kinds of record. *)
Definition is_match (d : DoorExtraction) : Prop :=
  extraction_method d = "label_geometry_match"%string
  /\ label d <> None /\ geometry d <> None.

Definition is_geometry_only (d : DoorExtraction) : Prop :=
  extraction_method d = "geometry_only"%string
  /\ label d = None /\ geometry d <> None.

Definition is_label_only (d : DoorExtraction) : Prop :=
  extraction_method d = "label_only"%string
  /\ label d <> None /\ geometry d = None.

Definition well_formed (d : DoorExtraction) : Prop :=
  is_match d \/ is_geometry_only d \/ is_label_only d.

Lemma match_step_doors (gs : list DoorGeometry) (md : Q) (st : MatchState)
    (il : nat * DoorLabel) :
  Forall is_match (doors st) ->
  Forall is_match (doors (match_step uuid4_hex8 gs md st il)).
Proof.
  intros Hst. unfold match_step. destruct il as [i l].
  destruct (find_nearest _ _ _ _) as [[g d]|]; [|exact Hst].
  cbn [doors]. apply Forall_app. split; [exact Hst|].
  constructor; [|constructor].
  unfold is_match, new_extraction. cbn. repeat split; discriminate.
Qed.

Lemma match_loop_doors (gs : list DoorGeometry) (md : Q)
    (ils : list (nat * DoorLabel)) (st : MatchState) :
  Forall is_match (doors st) ->
  Forall is_match (doors (fold_left (match_step uuid4_hex8 gs md) ils st)).
Proof.
  intros Hst. apply fold_left_invariant; [exact Hst|].
  intros s x. apply match_step_doors.
Qed.

Lemma geometry_only_loop_doors (matched : gset string) (gs : list DoorGeometry)
    (ds : list DoorExtraction) :
  exists extra,
    fold_left (geometry_only_step uuid4_hex8 matched) gs ds = ds ++ extra
    /\ Forall is_geometry_only extra.
Proof.
  revert ds. induction gs as [|g gs IH]; intros ds; cbn [fold_left].
  - exists []. rewrite app_nil_r. split; [reflexivity | constructor].
  - unfold geometry_only_step at 2. destruct (bool_decide _).
    + apply IH.
    + destruct (IH (ds ++ [new_extraction (fresh_id uuid4_hex8 ds) (g_page_number g)
                             None (Some g) "geometry_only" (g_confidence g * 0.7)
                             ["No label found near this door geometry"%string]]))
        as (extra & Hf & Hall).
      eexists. rewrite Hf, <- app_assoc. split; [reflexivity|].
      constructor; [|exact Hall].
      unfold is_geometry_only, new_extraction. cbn. repeat split. discriminate.
Qed.

Lemma label_only_step_doors (matched : gset nat)
    (st : list DoorExtraction * list DoorLabel) (i : nat) :
  exists extra,
    fst (label_only_step uuid4_hex8 matched st i) = fst st ++ extra
    /\ Forall is_label_only extra.
Proof.
  destruct st as [ds ls]. unfold label_only_step.
  destruct (ls !! i) as [l|]; [|exists []; rewrite app_nil_r; split; [reflexivity|constructor]].
  destruct (bool_decide _); [exists []; rewrite app_nil_r; split; [reflexivity|constructor]|].
  destruct (_ || _); [|exists []; rewrite app_nil_r; split; [reflexivity|constructor]].
  cbn [fst]. eexists. split; [reflexivity|].
  constructor; [|constructor].
  unfold is_label_only, new_extraction. cbn. repeat split. discriminate.
Qed.

Lemma label_only_loop_doors (matched : gset nat) (idx : list nat)
    (st : list DoorExtraction * list DoorLabel) :
  exists extra,
    fst (fold_left (label_only_step uuid4_hex8 matched) idx st) = fst st ++ extra
    /\ Forall is_label_only extra.
Proof.
  revert st. induction idx as [|i idx IH]; intros st; cbn [fold_left].
  - exists []. rewrite app_nil_r. split; [reflexivity | constructor].
  - destruct (IH (label_only_step uuid4_hex8 matched st i)) as (extra & Hf & Hall).
    destruct (label_only_step_doors matched st i) as (extra0 & Hf0 & Hall0).
    exists (extra0 ++ extra). rewrite Hf, Hf0, <- app_assoc.
    split; [reflexivity | apply Forall_app; split; assumption].
Qed.

(** The doors of [associate_labels_with_geometries] come in three blocks:
    the matches, then the geometries without label, then the labels
    without geometry. *)
Lemma associate_blocks (labels : list DoorLabel) (geometries : list DoorGeometry)
    (md : Q) :
  exists matches geometry_only label_only,
    fst (associate_labels_with_geometries uuid4_hex8 labels geometries md)
    = matches ++ geometry_only ++ label_only
    /\ Forall is_match matches
    /\ Forall is_geometry_only geometry_only
    /\ Forall is_label_only label_only.
Proof.
  unfold associate_labels_with_geometries.
  set (gs := Py.sorted _ geometries).
  set (st := fold_left (match_step uuid4_hex8 gs md) _ _).
  destruct (geometry_only_loop_doors (matched_geometry_ids st) gs (doors st))
    as (geo & Hgeo & Hgeo_all).
  destruct (label_only_loop_doors (matched_label_indices st) (seq 0 (length labels))
              (fold_left (geometry_only_step uuid4_hex8 (matched_geometry_ids st)) gs
                         (doors st), labels))
    as (lab & Hlab & Hlab_all).
  exists (doors st), geo, lab. cbn [fst] in Hlab. rewrite Hlab, Hgeo, <- app_assoc.
  split; [reflexivity|]. split; [|split; assumption].
  apply match_loop_doors. constructor.
Qed.

End Association.

(** ** Selection of the final doors of a page *)

Section Dict.
Import door_geometry_extraction.







End Dict.

Section FinalDoors.
Import door_geometry_extraction.
Local Open Scope Q_scope.

(** A record without door number: [door.door_number] is false. *)
Definition numberless (d : DoorExtraction) : bool := negb (str_truthy (door_number d)).


(** The identifiers of the records without number are pairwise distinct,
    and none of them reads as a door number with suffix. *)
Definition distinct_ids (l : list DoorExtraction) : Prop :=
  NoDup (map extraction_id (List.filter numberless l)).

Definition ids_are_not_numbers (l : list DoorExtraction) : Prop :=
  forall d, In d l -> numberless d = true ->
            Re.door_number_with_suffix (extraction_id d) = false.











(** *** The instance suffix of a door number *)

Definition digit (c : ascii) : Prop := (48 <= nat_of_ascii c <= 57)%nat.

(** The door number begins with a room code and an instance suffix: [B.],
    two digits, [.], one or more digits, [.], three digits, [-] and one or
    more digits; what follows is free. *)
Definition begins_with_instance (n : string) : Prop :=
  exists (a b : ascii) (storey : list ascii) (r1 r2 r3 : ascii)
         (inst rest : list ascii),
    list_ascii_of_string n
    = "B"%char :: "."%char :: a :: b :: "."%char
        :: storey ++ "."%char :: r1 :: r2 :: r3 :: "-"%char :: inst ++ rest
    /\ digit a /\ digit b /\ storey <> [] /\ Forall digit storey
    /\ digit r1 /\ digit r2 /\ digit r3 /\ inst <> [] /\ Forall digit inst.


Lemma is_digit_digit (c : ascii) : Re.is_digit c = true <-> digit c.
Proof.
  unfold Re.is_digit, digit. rewrite andb_true_iff, !Nat.leb_le. tauto.
Qed.

Lemma all_digits (ds : list ascii) :
  forallb Re.is_digit ds = true <-> Forall digit ds.
Proof.
  induction ds as [|d ds IH]; cbn [forallb].
  - split; [constructor | reflexivity].
  - rewrite andb_true_iff, Forall_cons, IH, is_digit_digit. tauto.
Qed.

Lemma lit_inv (c : ascii) (s s' : list ascii) :
  Re.lit c s = Some s' -> s = c :: s'.
Proof.
  destruct s as [|d s]; cbn [Re.lit]; [discriminate|].
  destruct (Ascii.eqb_spec c d) as [->|]; [|discriminate]. congruence.
Qed.

Lemma lit_same (c : ascii) (s : list ascii) : Re.lit c (c :: s) = Some s.
Proof. cbn [Re.lit]. rewrite Ascii.eqb_refl. reflexivity. Qed.

Lemma span_split (p : ascii -> bool) (s : list ascii) :
  s = fst (Re.span p s) ++ snd (Re.span p s).
Proof.
  induction s as [|c s IH]; [reflexivity|]. cbn [Re.span].
  destruct (p c); [|reflexivity].
  destruct (Re.span p s) as [a b]. cbn [fst snd app] in *. congruence.
Qed.

Lemma span_more (p : ascii -> bool) (a b : list ascii) :
  forallb p a = true ->
  Re.span p (a ++ b) = (a ++ fst (Re.span p b), snd (Re.span p b)).
Proof.
  induction a as [|c a IH]; cbn [forallb app]; intros Hall.
  - destruct (Re.span p b). reflexivity.
  - apply andb_prop in Hall as [Hc Ha]. cbn [Re.span]. rewrite Hc, (IH Ha). reflexivity.
Qed.

Lemma digits1_inv (s ds rest : list ascii) :
  Re.digits1 s = Some (ds, rest) ->
  s = ds ++ rest /\ ds <> [] /\ Forall digit ds.
Proof.
  unfold Re.digits1. pose proof (span_split Re.is_digit s) as Hs.
  pose proof (span_fst_all Re.is_digit s) as Hall.
  destruct (Re.span Re.is_digit s) as [[|d a] b]; [discriminate|].
  intros [= <- <-]. cbn [fst snd] in *.
  split; [exact Hs|]. split; [discriminate | apply all_digits, Hall].
Qed.

Lemma digits_n_inv (k : nat) (s s' : list ascii) :
  Re.digits_n k s = Some s' ->
  exists ds, s = ds ++ s' /\ length ds = k /\ Forall digit ds.
Proof.
  revert s. induction k as [|k IH]; intros s; cbn [Re.digits_n].
  - intros [= <-]. exists []. repeat split. constructor.
  - destruct s as [|d s]; [discriminate|].
    destruct (Re.is_digit d) eqn:Hd; [|discriminate].
    intros Hk. destruct (IH s Hk) as (ds & -> & Hlen & Hall).
    exists (d :: ds). split; [reflexivity|]. split; [cbn [length]; congruence|].
    constructor; [apply is_digit_digit, Hd | exact Hall].
Qed.

(** The pattern of the final filter, matched at the start of the door
    number, accepts exactly the door numbers that begin with a room code
    and an instance suffix. *)
Lemma door_number_with_suffix_spec (n : string) :
  Re.door_number_with_suffix n = true <-> begins_with_instance n.
Proof.
  unfold Re.door_number_with_suffix, Re.room_code, Re.chars. split.
  - destruct (Re.lit "B" (list_ascii_of_string n)) as [s1|] eqn:E1; [|discriminate].
    cbn [mbind option_bind].
    destruct (Re.lit "." s1) as [s2|] eqn:E2; [|discriminate]. cbn [mbind option_bind].
    destruct (Re.digits_n 2 s2) as [s3|] eqn:E3; [|discriminate]. cbn [mbind option_bind].
    destruct (Re.lit "." s3) as [s4|] eqn:E4; [|discriminate]. cbn [mbind option_bind].
    destruct (Re.digits1 s4) as [[storey s5]|] eqn:E5; [|discriminate].
    cbn [mbind option_bind snd].
    destruct (Re.lit "." s5) as [s6|] eqn:E6; [|discriminate]. cbn [mbind option_bind].
    destruct (Re.digits_n 3 s6) as [s7|] eqn:E7; [|discriminate]. cbn [mbind option_bind].
    destruct (Re.lit "-" s7) as [s8|] eqn:E8; [|discriminate]. cbn [mbind option_bind].
    destruct (Re.digits1 s8) as [[inst rest]|] eqn:E9; [|discriminate]. intros _.
    apply lit_inv in E1, E2, E4, E6, E8.
    apply digits_n_inv in E3 as (d2 & -> & Hl2 & Hd2).
    apply digits_n_inv in E7 as (d3 & -> & Hl3 & Hd3).
    apply digits1_inv in E5 as (-> & Hne5 & Hd5).
    apply digits1_inv in E9 as (-> & Hne9 & Hd9).
    destruct d2 as [|a [|b [|]]]; try discriminate Hl2.
    destruct d3 as [|r1 [|r2 [|r3 [|]]]]; try discriminate Hl3.
    subst. exists a, b, storey, r1, r2, r3, inst, rest.
    apply Forall_cons in Hd2 as [Ha Hd2]. apply Forall_cons in Hd2 as [Hb _].
    apply Forall_cons in Hd3 as [H1 Hd3]. apply Forall_cons in Hd3 as [H2 Hd3].
    apply Forall_cons in Hd3 as [H3 _].
    split; [exact E1|]. repeat (split; [assumption|]). assumption.
  - intros (a & b & storey & r1 & r2 & r3 & inst & rest & -> & Ha & Hb & Hne & Hst
            & H1 & H2 & H3 & Hni & Hin).
    apply is_digit_digit in Ha, Hb, H1, H2, H3.
    apply all_digits in Hst, Hin.
    rewrite lit_same. cbn [mbind option_bind]. rewrite lit_same.
    cbn [mbind option_bind Re.digits_n]. rewrite Ha, Hb. cbn [mbind option_bind].
    rewrite lit_same. cbn [mbind option_bind].
    assert (Hs1 : Re.digits1 (storey ++ "."%char :: r1 :: r2 :: r3 :: "-"%char :: inst ++ rest)
                  = Some (storey, "."%char :: r1 :: r2 :: r3 :: "-"%char :: inst ++ rest)).
    { unfold Re.digits1. rewrite (span_all Re.is_digit storey _ Hst); [|reflexivity].
      destruct storey; [congruence | reflexivity]. }
    rewrite Hs1. cbn [mbind option_bind snd]. rewrite lit_same.
    cbn [mbind option_bind Re.digits_n]. rewrite H1, H2, H3. cbn [mbind option_bind].
    rewrite lit_same. cbn [mbind option_bind].
    unfold Re.digits1. rewrite (span_more _ _ _ Hin).
    destruct inst; [congruence | reflexivity].
Qed.


(** No identifier of a record without door number reads as a door number
    with an instance suffix. *)
Definition ids_are_no_door_numbers (l : list DoorExtraction) : Prop :=
  forall d, In d l -> numberless d = true -> ~ begins_with_instance (extraction_id d).





End FinalDoors.

(** Two records for the door B.00.1.003-1, found with confidences 0.6 and
    0.8. *)
Definition door_06 : door_geometry_extraction.DoorExtraction :=
  door_geometry_extraction.mkDoorExtraction "door_0000000a" 1 None None None None None
    (Some "B.00.1.003-1"%string) None None 0.6%Q "label_only" None [] [].






(** ** Every record has a label or a geometry *)

Section LabelOrGeometry.
Import door_label_detection door_geometry_extraction.
Local Open Scope Q_scope.
Context `{MathSqrt} (uuid4_hex8 : nat -> string).

Lemma extract_door_attributes_keeps (d : DoorExtraction) (sc : option ScaleContext) :
  label (extract_door_attributes d sc) = label d
  /\ geometry (extract_door_attributes d sc) = geometry d
  /\ extraction_method (extract_door_attributes d sc) = extraction_method d
  /\ extraction_id (extract_door_attributes d sc) = extraction_id d
  /\ d_confidence (extract_door_attributes d sc) = d_confidence d.
Proof.
  unfold extract_door_attributes.
  destruct (match _ with Some l => _ | None => _ end) as [[w h] a].
  repeat split; reflexivity.
Qed.

Lemma dict_set_values (k : string) (x v : DoorExtraction) (D : Dict) :
  In v (dict_values (dict_set k x D)) -> v = x \/ In v (dict_values D).
Proof.
  unfold dict_values.
  induction D as [|[k0 v0] D IH]; cbn [dict_set map snd].
  - intros [<-|[]]. left. reflexivity.
  - destruct (String.eqb k k0); cbn [map snd].
    + intros [<-|Hin]; [left; reflexivity | right; right; exact Hin].
    + intros [<-|Hin]; [right; left; reflexivity|].
      destruct (IH Hin) as [->|Hin']; [left; reflexivity | right; right; exact Hin'].
Qed.

Lemma unique_loop_values (l : list DoorExtraction) (D : Dict) (v : DoorExtraction) :
  In v (dict_values (fold_left unique_step l D)) ->
  In v (dict_values D) \/ In v l.
Proof.
  revert D. induction l as [|d l IH]; intros D; cbn [fold_left]; [auto|].
  intros Hin. destruct (IH _ Hin) as [Hd|Hl]; [|right; right; exact Hl].
  assert (Hstep : v = d \/ In v (dict_values D)).
  { revert Hd. unfold unique_step.
    repeat match goal with
    | |- context [if ?b then _ else _] => destruct b
    | |- context [match ?x with _ => _ end] => destruct x
    end; intros Hx;
      first [apply dict_set_values in Hx; exact Hx | right; exact Hx]. }
  destruct Hstep as [->|Hd']; [right; left; reflexivity | left; exact Hd'].
Qed.

Lemma final_doors_subset (min_confidence : Q) (l : list DoorExtraction) (v : DoorExtraction) :
  In v (final_doors min_confidence l) -> In v l.
Proof.
  unfold final_doors. intros Hin.
  apply unique_loop_values in Hin as [[]|Hin].
  apply filter_In in Hin. tauto.
Qed.

(** C9.  Every record that the associator produces is a match carrying a
    label and a geometry, a geometry-only record carrying a geometry, or a
    label-only record carrying a label; so are the final doors of a page.
    No record lacks both its label and its geometry. *)
Theorem records_have_label_or_geometry (labels : list DoorLabel)
    (geometries : list DoorGeometry) (max_distance_px : Q) :
  (forall d,
      In d (fst (associate_labels_with_geometries uuid4_hex8 labels geometries
                                                  max_distance_px)) ->
      well_formed d /\ ~ (label d = None /\ geometry d = None))
  /\ (forall scale_context min_confidence d,
        In d (_extract_doors_from_page uuid4_hex8 labels geometries scale_context
                                       max_distance_px min_confidence) ->
        well_formed d /\ ~ (label d = None /\ geometry d = None)).
Proof.
  assert (Hwf : forall d, well_formed d -> ~ (label d = None /\ geometry d = None)).
  { intros d [(_ & Hl & _)|[(_ & _ & Hg)|(_ & Hl & _)]] [Hl' Hg']; contradiction. }
  assert (Hassoc : forall d,
      In d (fst (associate_labels_with_geometries uuid4_hex8 labels geometries
                                                  max_distance_px)) ->
      well_formed d).
  { intros d Hin.
    destruct (associate_blocks uuid4_hex8 labels geometries max_distance_px)
      as (ms & gs & ls & Heq & Hm & Hg & Hl).
    rewrite Heq in Hin. rewrite Forall_forall in Hm, Hg, Hl.
    apply in_app_or in Hin as [Hin|Hin]; [left; apply Hm, list_elem_of_In, Hin|].
    apply in_app_or in Hin as [Hin|Hin].
    - right. left. apply Hg, list_elem_of_In, Hin.
    - right. right. apply Hl, list_elem_of_In, Hin. }
  split.
  - intros d Hin. split; [|apply Hwf]; apply Hassoc, Hin.
  - intros sc min_confidence d Hin. unfold _extract_doors_from_page in Hin.
    apply final_doors_subset in Hin.
    apply in_map_iff in Hin as (d0 & <- & Hin).
    destruct (extract_door_attributes_keeps d0 sc) as (Hl & Hg & Hm & _).
    assert (Hd : well_formed (extract_door_attributes d0 sc)).
    { unfold well_formed, is_match, is_geometry_only, is_label_only.
      rewrite Hl, Hg, Hm. apply Hassoc, Hin. }
    split; [exact Hd | apply Hwf, Hd].
Qed.

End LabelOrGeometry.

(** ** The nearest unclaimed geometry *)

Section Nearest.
Import door_label_detection door_geometry_extraction.
Local Open Scope Q_scope.
Context `{MathSqrt} (uuid4_hex8 : nat -> string).






(** What a geometry-only record shows of the geometry it was made for. *)
Definition unlabelled (g : DoorGeometry) (d : DoorExtraction) : Prop :=
  extraction_method d = "geometry_only"%string
  /\ label d = None /\ geometry d = Some g
  /\ d_confidence d = g_confidence g * 0.7
  /\ warnings d = ["No label found near this door geometry"%string].

Lemma geometry_only_loop_spec (claimed : gset string) (gs : list DoorGeometry)
    (ds : list DoorExtraction) :
  exists extra,
    fold_left (geometry_only_step uuid4_hex8 claimed) gs ds = ds ++ extra
    /\ Forall2 unlabelled
         (List.filter (fun g => negb (bool_decide (geometry_id g ∈ claimed))) gs)
         extra.
Proof.
  revert ds. induction gs as [|g gs IH]; intros ds; cbn [fold_left List.filter].
  - exists []. rewrite app_nil_r. split; [reflexivity | constructor].
  - unfold geometry_only_step at 2. destruct (bool_decide _); cbn [negb].
    + apply IH.
    + destruct (IH (ds ++ [new_extraction (fresh_id uuid4_hex8 ds) (g_page_number g)
                             None (Some g) "geometry_only" (g_confidence g * 0.7)
                             ["No label found near this door geometry"%string]]))
        as (extra & Hf & Hall).
      eexists. rewrite Hf, <- app_assoc. split; [reflexivity|].
      constructor; [|exact Hall].
      unfold unlabelled, new_extraction. cbn. repeat split.
Qed.

(** The record of a match between [l] and [g]. *)
Definition matches (l : DoorLabel) (g : DoorGeometry) (d : DoorExtraction) : Prop :=
  extraction_method d = "label_geometry_match"%string
  /\ label d = Some l /\ geometry d = Some g
  /\ d_confidence d = Py.min (confidence l) (g_confidence g)
  /\ d_confidence d <= confidence l /\ d_confidence d <= g_confidence g.




Definition geometry_115_105 : DoorGeometry :=
  mkDoorGeometry "door_001" 1 (115, 105) 50 None 0 "arc" (0, 0, 0, 0) 0.85
                 "vector" None None None None.



End Nearest.

(** An identifier supply for the examples: the number of the call. *)
Definition counting_uuid (n : nat) : string := pretty n.


(** ** Backfill of the fire rating of a label-only record *)

Section Backfill.
Import door_label_detection door_geometry_extraction.
Local Open Scope Q_scope.
Context `{MathSqrt} (uuid4_hex8 : nat -> string).

(** A label that carries a genuine door identifier. *)
Definition genuine (l : DoorLabel) : bool :=
  String.eqb (pattern_type l) "room_door" || Re.door_number_pattern (label_text l).

(** The label object after the backfill, searched in the list [ls]. *)
Definition backfilled (l : DoorLabel) (ls : list DoorLabel) : DoorLabel :=
  if str_truthy (find_fire_rating l ls) && negb (str_truthy (fire_rating l))
  then set_fire_rating l (find_fire_rating l ls)
  else l.


Lemma set_fire_rating_twice (l : DoorLabel) (a b : option string) :
  set_fire_rating (set_fire_rating l a) b = set_fire_rating l b.
Proof. reflexivity. Qed.


Lemma label_only_step_cases (matched : gset nat) (ds : list DoorExtraction)
    (ls : list DoorLabel) (i : nat) :
  label_only_step uuid4_hex8 matched (ds, ls) i = (ds, ls)
  \/ exists l d,
      ls !! i = Some l /\ (i ∉ matched) /\ genuine l = true
      /\ label_only_step uuid4_hex8 matched (ds, ls) i
         = (ds ++ [d], <[i := backfilled l ls]> ls)
      /\ label d = Some (backfilled l ls)
      /\ is_label_only d
      /\ d_confidence d = confidence l * 0.8.
Proof.
  unfold label_only_step.
  destruct (ls !! i) as [l|] eqn:Hl; [|left; reflexivity].
  destruct (bool_decide_reflect (i ∈ matched)) as [Hin|Hnotin]; [left; reflexivity|].
  fold (genuine l). destruct (genuine l) eqn:Hg; [|left; reflexivity].
  right. fold (backfilled l ls). eexists l, _.
  split; [reflexivity|]. split; [exact Hnotin|]. split; [exact Hg|].
  split; [reflexivity|]. unfold new_extraction, is_label_only. cbn.
  split; [reflexivity|]. split; [repeat split; discriminate|].
  unfold backfilled. destruct (_ && _); reflexivity.
Qed.







End Backfill.

(** A door label without fire rating, and two fire rating labels near it:
    the first of the list 60px away, the second 10px away. *)
Definition room_label : door_label_detection.DoorLabel :=
  door_label_detection.mkDoorLabel "B.00.1.003-1" "B.00.1.003-1" 1
    (100, 100, 120, 110)%Q 0.8%Q "room_door" None None None None.

Definition rating_far : door_label_detection.DoorLabel :=
  door_label_detection.mkDoorLabel "T90" "T90" 1
    (160, 100, 180, 110)%Q 0.9%Q "fire_rating" None None None (Some "T90"%string).

Definition rating_near : door_label_detection.DoorLabel :=
  door_label_detection.mkDoorLabel "T30" "T30" 1
    (110, 100, 130, 110)%Q 0.9%Q "fire_rating" None None None (Some "T30"%string).

Definition three_labels : list door_label_detection.DoorLabel :=
  [room_label; rating_far; rating_near].



(** ** The identifiers of the records of a page *)

Section PageIds.
Import door_label_detection door_geometry_extraction.
Local Open Scope Q_scope.
Context `{MathSqrt} (uuid4_hex8 : nat -> string).

(** The record at position [n] was given the [n]-th identifier drawn. *)
Definition ids_by_position (ds : list DoorExtraction) : Prop :=
  forall n d, ds !! n = Some d -> extraction_id d = ("door_" ++ uuid4_hex8 n)%string.

Lemma ids_by_position_snoc (ds : list DoorExtraction) (d : DoorExtraction) :
  ids_by_position ds -> extraction_id d = fresh_id uuid4_hex8 ds ->
  ids_by_position (ds ++ [d]).
Proof.
  intros Hds Hd n d' Hn. apply lookup_app_Some in Hn as [Hn|[Hle Hn]].
  - apply Hds, Hn.
  - destruct (n - length ds)%nat as [|k] eqn:Hk; [|discriminate].
    injection Hn as <-. rewrite Hd. unfold fresh_id.
    replace n with (length ds) by lia. reflexivity.
Qed.

Lemma associate_ids (labels : list DoorLabel) (geometries : list DoorGeometry) (md : Q) :
  ids_by_position (fst (associate_labels_with_geometries uuid4_hex8 labels geometries md)).
Proof.
  unfold associate_labels_with_geometries.
  set (gs := Py.sorted _ geometries).
  apply (fold_left_invariant (fun st => ids_by_position (fst st))).
  - cbn [fst].
    apply (fold_left_invariant ids_by_position).
    + apply (fold_left_invariant (fun st => ids_by_position (doors st))).
      * intros n d Hn. discriminate.
      * intros st [i l] Hst. unfold match_step.
        destruct (find_nearest _ _ _ _) as [[g d]|]; [|exact Hst].
        cbn [doors]. apply ids_by_position_snoc; [exact Hst | reflexivity].
    + intros ds g Hds. unfold geometry_only_step.
      destruct (bool_decide _); [exact Hds|].
      apply ids_by_position_snoc; [exact Hds | reflexivity].
  - intros [ds ls] i Hds. cbn [fst] in Hds.
    destruct (label_only_step_cases uuid4_hex8 (matched_label_indices
                (fold_left (match_step uuid4_hex8 gs md) (imap (fun i l => (i, l)) labels)
                           (mkMatchState [] ∅ ∅))) ds ls i)
      as [->|(l & d & _ & _ & _ & Hstep & _)]; [exact Hds|].
    unfold label_only_step in Hstep |- *.
    destruct (ls !! i) as [l0|]; [|exact Hds].
    destruct (bool_decide _); [exact Hds|].
    destruct (_ || _); [|exact Hds].
    cbn [fst]. apply ids_by_position_snoc; [exact Hds | reflexivity].
Qed.

Lemma NoDup_map_filter {A B : Type} (f : A -> B) (p : A -> bool) (l : list A) :
  NoDup (map f l) -> NoDup (map f (List.filter p l)).
Proof.
  induction l as [|x l IH]; cbn [List.filter map]; [auto|].
  intros Hnd. apply NoDup_cons in Hnd as [Hnotin Hnd].
  destruct (p x); cbn [map]; [|apply IH, Hnd].
  apply NoDup_cons. split; [|apply IH, Hnd].
  intros Hin. apply Hnotin.
  apply list_elem_of_In in Hin. apply list_elem_of_In.
  apply in_map_iff in Hin as (y & <- & Hy). apply in_map.
  apply filter_In in Hy. tauto.
Qed.

(** With an identifier supply that never repeats, the records that the
    final selection of a page receives have pairwise distinct identifiers,
    none of which reads as a door number. *)
Lemma page_records_ids (labels : list DoorLabel) (geometries : list DoorGeometry)
    (scale_context : option ScaleContext) (md : Q) :
  (forall i j, uuid4_hex8 i = uuid4_hex8 j -> i = j) ->
  let ds := map (fun door => extract_door_attributes door scale_context)
                (fst (associate_labels_with_geometries uuid4_hex8 labels geometries md)) in
  distinct_ids ds /\ ids_are_no_door_numbers ds.
Proof.
  intros Hinj ds.
  assert (Hids : distinct_ids ds /\ ids_are_not_numbers ds);
    [|split; [apply Hids|];
      intros d Hin Hn Hb; apply door_number_with_suffix_spec in Hb;
      rewrite (proj2 Hids d Hin Hn) in Hb; discriminate].
  assert (Hpos : ids_by_position ds).
  { intros n d Hn. subst ds. rewrite list_lookup_fmap in Hn.
    destruct (fst _ !! n) as [d0|] eqn:Hd0; [|discriminate].
    injection Hn as <-.
    destruct (extract_door_attributes_keeps d0 scale_context) as (_ & _ & _ & -> & _).
    apply (associate_ids labels geometries md), Hd0. }
  split.
  - apply NoDup_map_filter. apply NoDup_alt. intros i j x Hi Hj.
    rewrite list_lookup_fmap in Hi, Hj.
    destruct (ds !! i) as [di|] eqn:Hdi; [|discriminate].
    destruct (ds !! j) as [dj|] eqn:Hdj; [|discriminate].
    injection Hi as Hi. injection Hj as Hj.
    rewrite (Hpos i di Hdi) in Hi. rewrite (Hpos j dj Hdj) in Hj.
    apply Hinj. rewrite <- Hj in Hi.
    cbv beta iota delta [String.append] in Hi. fold String.append in Hi.
    congruence.
  - intros d Hin _. apply list_elem_of_In, list_elem_of_lookup in Hin as [n Hn].
    rewrite (Hpos n d Hn). reflexivity.
Qed.

End PageIds.

(** ** Pattern analysis *)

Section PatternTypes.
Import plankopf_parser material_pattern_detector.

(** The pattern types an analysis can return. *)
Definition analysed_type (t : PatternType) : Prop :=
  t = NONE \/ t = SOLID_FILL \/ t = HATCHING \/ t = CROSSHATCH.

Lemma merged_pattern_info (regions : list DetectedRegion) (md : Q) (r : DetectedRegion) :
  In r (merge_adjacent_regions regions md) ->
  exists r0, In r0 regions /\ pattern_info r = pattern_info r0.
Proof.
  intros Hin. destruct (merge_is_groups regions md) as (Hm & Hf & _).
  rewrite Hm in Hin. apply in_map_iff in Hin as ([f l] & <- & Hg).
  exists f. split.
  - apply (Permutation_in f (sorted_perm position_before regions)).
    rewrite <- Hf. apply in_flat_map. exists (f, l). split; [exact Hg | left; reflexivity].
  - apply (merged_group_fields f l).
Qed.

(** C10.  Both pattern analyses, the legend learner's [analyze_pattern] and
    the matching engine's [analyze_drawing_pattern], return for every
    drawing, whatever the functions of [math] compute, a pattern of type
    none, solid_fill, hatching or crosshatch: never dots, never stipple.
    Merging keeps the pattern of a region it was given, so no merged
    region carries another pattern type either. *)
Theorem analysed_pattern_types :
  (forall (sqrt_impl : MathSqrt) (trig_impl : MathTrig) (drawing : Drawing),
      let t1 := pattern_type (analyze_pattern drawing) in
      let t2 := pattern_type (analyze_drawing_pattern drawing) in
      (analysed_type t1 /\ t1 <> DOT_PATTERN /\ t1 <> STIPPLE)
      /\ (analysed_type t2 /\ t2 <> DOT_PATTERN /\ t2 <> STIPPLE))
  /\ (forall (regions : list DetectedRegion) (merge_distance : Q) (r : DetectedRegion),
        In r (merge_adjacent_regions regions merge_distance) ->
        exists r0, In r0 regions /\ pattern_info r = pattern_info r0).
Proof.
  split; [|exact merged_pattern_info].
  intros sqrt_impl trig_impl drawing. cbv zeta.
  unfold analyze_pattern, analyze_drawing_pattern, analysed_type. split.
  - destruct (_ <? 2)%nat; [destruct (color_truthy _)|];
      [| |destruct (line_angles _); [|destruct (_cluster_angles _ _) as [|? [|? [|? ?]]]]];
      cbn [pattern_type]; (split; [tauto | split; discriminate]).
  - destruct (_ <? 2)%nat; [destruct (color_truthy _)|];
      [| |destruct (drawing_angles _); [|destruct (_cluster_values _ _) as [|? [|? [|? ?]]]]];
      cbn [pattern_type]; (split; [tauto | split; discriminate]).
Qed.

End PatternTypes.

Lemma analysed_pattern_types_witness :
  exists r0, In r0 three_fragments
             /\ material_pattern_detector.pattern_info
                  (material_pattern_detector.merge_two
                     (material_pattern_detector.merge_two (fragment 0 1.0%Q)
                                                          (fragment 12 1.0%Q))
                     (fragment 24 0.4%Q))
                = material_pattern_detector.pattern_info r0.
Proof.
  apply (proj2 analysed_pattern_types three_fragments 5.0%Q).
  left. reflexivity.
Defined.

(** The label_only record made for [room_label] among [three_labels]. *)
Definition room_record : door_geometry_extraction.DoorExtraction :=
  door_geometry_extraction.new_extraction "door_0" 1
    (Some (door_label_detection.set_fire_rating room_label (Some "T90"%string)))
    None "label_only" (0.8 * 0.8)%Q
    ["Door label found but no geometry detected nearby"%string].

Lemma records_have_label_or_geometry_witness :
  well_formed room_record
  /\ ~ (door_geometry_extraction.label room_record = None
        /\ door_geometry_extraction.geometry room_record = None).
Proof.
  apply (proj1 (@records_have_label_or_geometry QMath counting_uuid three_labels [] 150)).
  vm_compute. left. reflexivity.
Defined.

(** Two regions that are 90 units apart on the x axis are merged as well:
    the gap is only measured from the running region to a region on its
    right or below it. *)
Example distant_regions_are_merged :
  let a := material_pattern_detector.mkDetectedRegion "a"
             (plankopf_parser.mkBoundingBox 100 0 110 10) hatching_45_red None 1.0%Q 10 None 10 in
  let b := material_pattern_detector.mkDetectedRegion "b"
             (plankopf_parser.mkBoundingBox 0 5 10 15) hatching_45_red None 1.0%Q 10 None 10 in
  (box_gap_x (material_pattern_detector.bbox a) (material_pattern_detector.bbox b) == 90)%Q
  /\ material_pattern_detector.merge_adjacent_regions [a; b] 5.0%Q
     = [material_pattern_detector.merge_two a b].
Proof. split; reflexivity. Qed.

(** ** Colour and angle distances *)

Section Distances.
Import plankopf_parser material_pattern_detector.
Local Open Scope Q_scope.
Context `{MathSqrt}.

Lemma Qsquare_minus_swap (a b : Q) : (a - b) * (a - b) = (b - a) * (b - a).
Proof.
  destruct a as [an ad], b as [bn bd].
  unfold Qminus, Qplus, Qopp, Qmult. cbn [Qnum Qden]. f_equal.
  - ring.
  - rewrite (Pos.mul_comm ad bd). reflexivity.
Qed.

Lemma Qabs_minus_swap (a b : Q) : Qabs (a - b) = Qabs (b - a).
Proof.
  destruct a as [an ad], b as [bn bd].
  unfold Qminus, Qplus, Qopp, Qabs. cbn [Qnum Qden]. f_equal.
  - lia.
  - apply Pos.mul_comm.
Qed.

(** The colour distance does not depend on the order of the two colours.
    With a square root that is zero at zero, a colour of three components
    or more is at distance zero from itself.  A missing colour is at
    distance zero from a missing colour and at 1.0 from any colour; a
    colour with fewer than three components is at 0.5 from any colour. *)
Theorem color_distance_symmetric :
  (forall c1 c2 : option Color, color_distance c1 c2 = color_distance c2 c1)
  /\ ((forall x, x == 0 -> math_sqrt x == 0) ->
      forall c : Color, (3 <= length c)%nat -> color_distance (Some c) (Some c) == 0)
  /\ color_distance None None == 0
  /\ (forall c : Color, color_distance None (Some c) == 1)
  /\ (forall c1 c2 : Color, (length c1 < 3)%nat ->
                            color_distance (Some c1) (Some c2) == 0.5).
Proof.
  split; [|split; [|split; [|split]]].
  - intros [c1|] [c2|]; try reflexivity. unfold color_distance.
    rewrite (orb_comm (length c2 <? 3)%nat).
    destruct (_ || _); [reflexivity|].
    rewrite (Qsquare_minus_swap (nth 0 c1 0)), (Qsquare_minus_swap (nth 1 c1 0)),
            (Qsquare_minus_swap (nth 2 c1 0)). reflexivity.
  - intros H0 c Hlen. unfold color_distance.
    apply Nat.ltb_ge in Hlen. rewrite Hlen. cbn [orb].
    apply H0. ring.
  - reflexivity.
  - intros c. reflexivity.
  - intros c1 c2 Hlen. unfold color_distance.
    apply Nat.ltb_lt in Hlen. rewrite Hlen. reflexivity.
Qed.

Lemma min_proper (a b a' b' : Q) : a == a' -> b == b' -> Py.min a b == Py.min a' b'.
Proof.
  intros Ha Hb.
  destruct (min_cases a b) as [[? ->]|[? ->]], (min_cases a' b') as [[? ->]|[? ->]]; lra.
Qed.

Lemma Qfloor_succ (x : Q) : Qfloor (x + 1) = (Qfloor x + 1)%Z.
Proof.
  pose proof (Qfloor_le x) as Hlo. pose proof (Qlt_floor x) as Hhi.
  pose proof (Qfloor_le (x + 1)) as Hlo'. pose proof (Qlt_floor (x + 1)) as Hhi'.
  rewrite inject_Z_plus in Hhi, Hhi'. change (inject_Z 1) with 1 in Hhi, Hhi'.
  assert (H1 : inject_Z (Qfloor x) < inject_Z (Qfloor (x + 1))) by lra.
  assert (H2 : inject_Z (Qfloor (x + 1)) < inject_Z (Qfloor x) + 1 + 1) by lra.
  rewrite <- Zlt_Qlt in H1.
  change (inject_Z (Qfloor x) + 1 + 1) with (inject_Z (Qfloor x) + inject_Z 1 + inject_Z 1) in H2.
  rewrite <- !inject_Z_plus in H2. rewrite <- Zlt_Qlt in H2. lia.
Qed.

Lemma mod_period (a m : Q) : 0 < m -> Py.mod_ (a + m) m == Py.mod_ a m.
Proof.
  intros Hm. unfold Py.mod_.
  assert (Hdiv : (a + m) / m == a / m + 1) by (field; lra).
  rewrite Hdiv, Qfloor_succ, inject_Z_plus. change (inject_Z 1) with 1. ring.
Qed.

(** The angle distance does not depend on the order of the two angles,
    lies between 0 and 90 degrees, and does not change when an angle is
    turned by 180 degrees; between 170 and 10 degrees it is 20. *)
Theorem angle_distance_undirected :
  (forall a1 a2 : option Q, angle_distance a1 a2 = angle_distance a2 a1)
  /\ (forall a1 a2 : option Q,
        0 <= angle_distance a1 a2 /\ angle_distance a1 a2 <= 90)
  /\ (forall a b : Q,
        angle_distance (Some (a + 180)) (Some b) == angle_distance (Some a) (Some b))
  /\ angle_distance (Some 170) (Some 10) == 20.
Proof.
  split; [|split; [|split]].
  - intros [a1|] [a2|]; try reflexivity. unfold angle_distance.
    rewrite (Qabs_minus_swap (Py.mod_ a1 180)). reflexivity.
  - intros a1 a2. split; [apply angle_distance_nonneg|].
    unfold angle_distance.
    destruct a1 as [a1|], a2 as [a2|]; try (apply Qle_bool_iff; reflexivity).
    pose proof (Qabs_nonneg (Py.mod_ a1 180 - Py.mod_ a2 180)) as Hd.
    destruct (min_cases (Qabs (Py.mod_ a1 180 - Py.mod_ a2 180))
                        (180 - Qabs (Py.mod_ a1 180 - Py.mod_ a2 180)))
      as [[? ->]|[? ->]]; lra.
  - intros a b. unfold angle_distance.
    assert (H180 : 0 < 180) by reflexivity.
    pose proof (mod_period a 180 H180) as Hp.
    apply min_proper; rewrite Hp; reflexivity.
  - reflexivity.
Qed.

End Distances.

Lemma Qsqrt_zero (x : Q) : (x == 0 -> Qsqrt x == 0)%Q.
Proof.
  unfold Qeq, Qsqrt. cbn [Qnum Qden]. intros Hx.
  assert (Qnum x = 0%Z) by lia.
  rewrite H. reflexivity.
Qed.

Lemma color_distance_symmetric_witness :
  (@material_pattern_detector.color_distance QMath (Some [1; 0; 0]) (Some [1; 0; 0])
   == 0)%Q.
Proof.
  apply (proj1 (proj2 (@color_distance_symmetric QMath)) Qsqrt_zero).
  cbn [length]. lia.
Defined.

(** ** Confidence of a pattern match *)

Section MatchConfidence.
Import plankopf_parser material_pattern_detector.
Local Open Scope Q_scope.
Context `{MathSqrt}.

(** The confidence that [patterns_match] returns is zero, for a rejection,
    or lies between 0.1225 and 1; a match that is accepted has a
    confidence of at least 0.35, and a rejection is never accepted. *)
Theorem patterns_match_confidence_range (p1 p2 : PatternInfo)
    (color_tolerance angle_tolerance spacing_tolerance : Q) :
  let r := patterns_match p1 p2 color_tolerance angle_tolerance spacing_tolerance in
  (r = (false, 0.0) \/ (0.1225 <= snd r /\ snd r <= 1))
  /\ (fst r = true -> 0.35 <= snd r).
Proof.
  cbv zeta. unfold patterns_match.
  destruct (_ && _); [split; [left; reflexivity | discriminate]|].
  destruct (Py.Qgtb (color_distance (stroke_color p1) (stroke_color p2)) color_tolerance);
    [destruct (Py.Qgtb _ (color_tolerance * 2));
       [split; [left; reflexivity | discriminate]|]|];
  destruct (Py.Qgtb (color_distance (fill_color p1) (fill_color p2)) color_tolerance);
  (destruct (hatched (pattern_type p1));
   [destruct (Py.Qgtb (angle_distance (hatching_angle p1) (hatching_angle p2))
                      angle_tolerance);
      [destruct (Py.Qgtb _ (angle_tolerance * 2));
         [split; [left; reflexivity | discriminate]|]|]|]);
  (destruct (both_spacings _ _) as [[s1 s2]|];
   [destruct (Py.Qgtb (Qabs (s1 - s2) / Py.max s1 s2) spacing_tolerance)|]);
  cbn [fst snd];
  (split; [right; split; apply Qle_bool_iff; reflexivity
          | first [discriminate | intros _; apply Qle_bool_iff; reflexivity]]).
Qed.

Lemma missing_angle_rejects (p1 p2 : PatternInfo)
    (color_tolerance angle_tolerance spacing_tolerance : Q) :
  hatched (pattern_type p1) = true ->
  hatching_angle p1 = None \/ hatching_angle p2 = None ->
  angle_tolerance * 2 < 45 ->
  patterns_match p1 p2 color_tolerance angle_tolerance spacing_tolerance
  = (false, 0.0).
Proof.
  intros Hh Hnone Htol. unfold patterns_match. rewrite Hh.
  assert (Had : angle_distance (hatching_angle p1) (hatching_angle p2) = 45.0).
  { unfold angle_distance. destruct Hnone as [-> | ->]; [reflexivity|].
    destruct (hatching_angle p1); reflexivity. }
  rewrite Had.
  assert (H1 : Py.Qgtb 45.0 angle_tolerance = true).
  { apply Qgtb_gt. assert (45.0 == 45) by reflexivity. lra. }
  assert (H2 : Py.Qgtb 45.0 (angle_tolerance * 2) = true).
  { apply Qgtb_gt. assert (45.0 == 45) by reflexivity. lra. }
  rewrite H1, H2.
  destruct (_ && _); [reflexivity|].
  destruct (Py.Qgtb _ color_tolerance); [destruct (Py.Qgtb _ (color_tolerance * 2))|];
    reflexivity.
Qed.

(** A hatching or crosshatch pattern is rejected against any pattern when
    one of the two has no hatching angle and twice the angle tolerance is
    below 45 degrees, as with the default tolerance of 15: the distance to
    a missing angle counts as 45. *)
Theorem hatching_without_angle_is_rejected (p1 p2 : PatternInfo)
    (color_tolerance angle_tolerance spacing_tolerance : Q) :
  hatched (pattern_type p1) = true ->
  hatching_angle p1 = None \/ hatching_angle p2 = None ->
  angle_tolerance * 2 < 45 ->
  patterns_match p1 p2 color_tolerance angle_tolerance spacing_tolerance
  = (false, 0.0).
Proof. apply missing_angle_rejects. Qed.

End MatchConfidence.

(** A hatching pattern of several directions, for which the analysis
    reports no angle. *)
Definition hatching_no_angle : plankopf_parser.PatternInfo :=
  plankopf_parser.mkPatternInfo plankopf_parser.HATCHING (Some [1; 0; 0]%Q) None
                                None None 6%nat None.

Lemma hatching_without_angle_is_rejected_witness :
  @material_pattern_detector.patterns_match QMath hatching_no_angle hatching_no_angle
    0.2%Q 15.0%Q 0.3%Q = (false, 0.0%Q).
Proof.
  apply (@hatching_without_angle_is_rejected QMath).
  - reflexivity.
  - left. reflexivity.
  - reflexivity.
Defined.

Lemma patterns_match_confidence_range_witness :
  (0.35 <= snd (@material_pattern_detector.patterns_match QMath
                  hatching_45_red hatching_45_red 0.2 15.0 0.3))%Q.
Proof.
  apply (proj2 (@patterns_match_confidence_range QMath hatching_45_red hatching_45_red
                  0.2%Q 15.0%Q 0.3%Q)).
  reflexivity.
Defined.

(** ** Clustering of values *)

Section Clusters.
Import plankopf_parser material_pattern_detector.
Local Open Scope Q_scope.

(** The runs that the clustering loop forms: the state is the pair of the
    closed runs and the current run. *)
Definition run_step (tolerance : Q) (st : list (list Q) * list Q) (v : Q)
  : list (list Q) * list Q :=
  if Qle_bool (v - List.last (snd st) 0) tolerance
  then (fst st, snd st ++ [v])
  else (fst st ++ [snd st], [v]).

Definition runs_of (tolerance : Q) (sorted_values : list Q) : list (list Q) :=
  match sorted_values with
  | [] => []
  | v0 :: rest =>
      let st := fold_left (run_step tolerance) rest ([], [v0]) in
      fst st ++ [snd st]
  end.

Lemma run_loop (tol : Q) (rest : list Q) (closed : list (list Q)) (cur : list Q) :
  cur <> [] -> Forall (fun r => r <> []) closed ->
  let st := fold_left (run_step tol) rest (closed, cur) in
  snd st <> [] /\ Forall (fun r => r <> []) (fst st)
  /\ concat (fst st ++ [snd st]) = concat (closed ++ [cur]) ++ rest
  /\ fold_left (values_step tol) rest (flat_map close_values closed, cur)
     = (flat_map close_values (fst st), snd st)
  /\ fold_left (cluster_step tol) rest (flat_map close_cluster closed, cur)
     = (flat_map close_cluster (fst st), snd st).
Proof.
  revert closed cur. induction rest as [|v rest IH]; intros closed cur Hcur Hclosed;
    cbn [fold_left]; cbv zeta.
  - cbn [fst snd]. rewrite app_nil_r. auto.
  - set (b := Qle_bool (v - List.last cur 0) tol).
    change (run_step tol (closed, cur) v)
      with (if b then (closed, cur ++ [v]) else (closed ++ [cur], [v])).
    change (values_step tol (flat_map close_values closed, cur) v)
      with (if b then (flat_map close_values closed, cur ++ [v])
            else (flat_map close_values closed ++ close_values cur, [v])).
    change (cluster_step tol (flat_map close_cluster closed, cur) v)
      with (if b then (flat_map close_cluster closed, cur ++ [v])
            else (flat_map close_cluster closed ++ close_cluster cur, [v])).
    destruct b.
    + destruct (IH closed (cur ++ [v])) as (H1 & H2 & H3 & H4 & H5);
        [intros Hn; apply app_eq_nil in Hn as [_ Hn]; discriminate | exact Hclosed |].
      split; [exact H1|]. split; [exact H2|]. split; [|split; [exact H4 | exact H5]].
      etransitivity; [exact H3|].
      rewrite !concat_app. cbn [concat]. rewrite !app_nil_r, <- !app_assoc.
      reflexivity.
    + destruct (IH (closed ++ [cur]) [v]) as (H1 & H2 & H3 & H4 & H5);
        [discriminate
        | apply Forall_app; split; [exact Hclosed | constructor; [exact Hcur | constructor]] |].
      rewrite !flat_map_app in H4, H5. cbn [flat_map] in H4, H5.
      rewrite !app_nil_r in H4, H5.
      split; [exact H1|]. split; [exact H2|]. split; [|split; [exact H4 | exact H5]].
      etransitivity; [exact H3|].
      rewrite !concat_app. cbn [concat]. rewrite !app_nil_r, <- !app_assoc.
      reflexivity.
Qed.

Lemma runs_of_spec (tol : Q) (values : list Q) :
  let rs := runs_of tol (Py.sorted Py.Qltb values) in
  Forall (fun r => r <> []) rs
  /\ concat rs = Py.sorted Py.Qltb values
  /\ _cluster_values values tol
     = List.filter (fun c => (2 <=? vcount c)%nat) (flat_map close_values rs)
  /\ _cluster_angles values tol
     = List.filter (fun c => (2 <=? count c)%nat) (flat_map close_cluster rs).
Proof.
  cbv zeta. unfold _cluster_values, _cluster_angles, runs_of.
  destruct (Py.sorted Py.Qltb values) as [|v0 rest]; [repeat split; constructor|].
  destruct (run_loop tol rest [] [v0]) as (H1 & H2 & H3 & H4 & H5);
    [discriminate | constructor |].
  cbv zeta in H1, H2, H3, H4, H5. cbn [flat_map] in H4, H5.
  rewrite H4, H5.
  split; [apply Forall_app; split; [exact H2 | constructor; [exact H1 | constructor]]|].
  split; [exact H3|].
  rewrite !flat_map_app. cbn [flat_map]. rewrite !app_nil_r. split; reflexivity.
Qed.

Lemma sum_from (l : list Q) (a : Q) : fold_left Qplus l a == a + Py.sum l.
Proof.
  unfold Py.sum. revert a. induction l as [|x l IH]; intros a; cbn [fold_left].
  - ring.
  - rewrite (IH (a + x)), (IH (0 + x)). ring.
Qed.

Lemma sum_cons (x : Q) (l : list Q) : Py.sum (x :: l) == x + Py.sum l.
Proof. unfold Py.sum at 1. cbn [fold_left]. rewrite sum_from. ring. Qed.

Lemma sum_perm (l l' : list Q) : Permutation l l' -> Py.sum l == Py.sum l'.
Proof.
  induction 1 as [|x l l' Hp IH|x y l|l l' l'' Hp1 IH1 Hp2 IH2].
  - reflexivity.
  - rewrite !sum_cons, IH. reflexivity.
  - rewrite !sum_cons. ring.
  - rewrite IH1. exact IH2.
Qed.

Lemma mean_perm (l l' : list Q) : Permutation l l' -> mean l == mean l'.
Proof.
  intros Hp. unfold mean.
  rewrite (sum_perm l l' Hp), (Permutation_length Hp). reflexivity.
Qed.

Lemma last_In (l : list Q) (d : Q) : l <> [] -> In (List.last l d) l.
Proof.
  induction l as [|x [|y l] IH]; intros Hne; [congruence | left; reflexivity |].
  right. apply IH. discriminate.
Qed.

(** Values that are pairwise within the tolerance stay in one run. *)
Lemma single_run (tol : Q) (rest cur : list Q) :
  cur <> [] ->
  (forall u v, In u (cur ++ rest) -> In v (cur ++ rest) -> v - u <= tol) ->
  fold_left (run_step tol) rest ([], cur) = ([], cur ++ rest).
Proof.
  revert cur. induction rest as [|v rest IH]; intros cur Hcur Hclose; cbn [fold_left].
  - rewrite app_nil_r. reflexivity.
  - unfold run_step at 2. cbn [fst snd].
    assert (Hle : Qle_bool (v - List.last cur 0) tol = true).
    { apply Qle_bool_iff, Hclose.
      - apply in_or_app. left. apply last_In, Hcur.
      - apply in_or_app. right. left. reflexivity. }
    rewrite Hle.
    replace (cur ++ v :: rest) with ((cur ++ [v]) ++ rest) in *
      by (rewrite <- app_assoc; reflexivity).
    apply IH; [intros Hn; apply app_eq_nil in Hn as [_ Hn]; discriminate | exact Hclose].
Qed.

Lemma close_values_counts (rs : list (list Q)) :
  Forall (fun r => r <> []) rs ->
  map vcount (flat_map close_values rs) = map (@length Q) rs
  /\ map count (flat_map close_cluster rs) = map (@length Q) rs.
Proof.
  induction 1 as [|r rs Hr _ [IH1 IH2]]; [split; reflexivity|].
  destruct r as [|x r]; [congruence|].
  cbn [flat_map close_values close_cluster app map vcount count].
  rewrite IH1, IH2. split; reflexivity.
Qed.

Lemma list_sum_filter {A : Type} (f : A -> nat) (p : A -> bool) (l : list A) :
  (list_sum (map f (List.filter p l)) <= list_sum (map f l))%nat.
Proof.
  induction l as [|x l IH]; simpl; [lia|].
  destruct (p x); simpl; lia.
Qed.

Lemma one_cluster (values : list Q) (tolerance : Q) :
  (2 <= length values)%nat ->
  (forall u v, In u values -> In v values -> v - u <= tolerance) ->
  (exists c, _cluster_values values tolerance = [c]
             /\ vcount c = length values /\ vcenter c == mean values)
  /\ (exists c, _cluster_angles values tolerance = [c]
                /\ count c = length values /\ center c == mean values).
Proof.
  destruct (runs_of_spec tolerance values) as (Hne & Hcat & Hcv & Hca).
  cbv zeta in Hne, Hcat.
  set (rs := runs_of tolerance (Py.sorted Py.Qltb values)) in *.
  intros Hlen Hclose.
    assert (Hperm := sorted_perm Py.Qltb values).
    assert (Hlen' : length (Py.sorted Py.Qltb values) = length values)
      by (apply Permutation_length, Hperm).
    assert (Hrs : rs = [Py.sorted Py.Qltb values]).
    { subst rs. unfold runs_of.
      destruct (Py.sorted Py.Qltb values) as [|v0 rest] eqn:Hs; [cbn in Hlen'; lia|].
      rewrite (single_run tolerance rest [v0]); [reflexivity | discriminate |].
      intros u v Hu Hv'. apply Hclose.
      - apply (Permutation_in u Hperm), Hu.
      - apply (Permutation_in v Hperm), Hv'. }
    rewrite Hcv, Hca, Hrs.
    destruct (Py.sorted Py.Qltb values) as [|v0 rest] eqn:Hs; [cbn in Hlen'; lia|].
    cbn [flat_map close_values close_cluster app List.filter vcount count].
    assert (Hge : (2 <=? length (v0 :: rest))%nat = true) by (apply Nat.leb_le; lia).
    rewrite Hge. split; eexists; (split; [reflexivity|]); cbn [vcount vcenter count center];
      (split; [exact Hlen' | apply mean_perm, Hperm]).
Qed.

(** Both clustering functions, [_cluster_values] and [_cluster_angles]:
    every cluster has at least two members, and the clusters together have
    no more members than there are values, so that fewer than two values
    give no cluster; values that are pairwise within the tolerance of each
    other form one cluster that holds them all, centred on their mean. *)
Theorem clusters_of_values (values : list Q) (tolerance : Q) :
  let cv := _cluster_values values tolerance in
  let ca := _cluster_angles values tolerance in
  (Forall (fun c => (2 <= vcount c)%nat) cv
   /\ (list_sum (map vcount cv) <= length values)%nat)
  /\ (Forall (fun c => (2 <= count c)%nat) ca
      /\ (list_sum (map count ca) <= length values)%nat)
  /\ ((length values < 2)%nat -> cv = [] /\ ca = [])
  /\ ((2 <= length values)%nat ->
      (forall u v, In u values -> In v values -> v - u <= tolerance) ->
      (exists c, cv = [c] /\ vcount c = length values /\ vcenter c == mean values)
      /\ (exists c, ca = [c] /\ count c = length values /\ center c == mean values)).
Proof.
  cbv zeta.
  destruct (runs_of_spec tolerance values) as (Hne & Hcat & Hcv & Hca).
  cbv zeta in Hne, Hcat.
  set (rs := runs_of tolerance (Py.sorted Py.Qltb values)) in *.
  destruct (close_values_counts rs Hne) as [Hcounts Hcounts'].
  assert (Htotal : list_sum (map (@length Q) rs) = length values).
  { rewrite <- length_concat, Hcat. apply Permutation_length, sorted_perm. }
  assert (Hv : Forall (fun c => (2 <= vcount c)%nat) (_cluster_values values tolerance)
               /\ (list_sum (map vcount (_cluster_values values tolerance))
                   <= length values)%nat).
  { rewrite Hcv. split.
    - apply Forall_forall. intros c Hc. apply list_elem_of_In, filter_In in Hc as [_ Hc].
      apply Nat.leb_le, Hc.
    - rewrite <- Htotal, <- Hcounts. apply list_sum_filter. }
  assert (Ha : Forall (fun c => (2 <= count c)%nat) (_cluster_angles values tolerance)
               /\ (list_sum (map count (_cluster_angles values tolerance))
                   <= length values)%nat).
  { rewrite Hca. split.
    - apply Forall_forall. intros c Hc. apply list_elem_of_In, filter_In in Hc as [_ Hc].
      apply Nat.leb_le, Hc.
    - rewrite <- Htotal, <- Hcounts'. apply list_sum_filter. }
  split; [exact Hv|]. split; [exact Ha|]. split.
  - intros Hlen. destruct Hv as [Hv1 Hv2], Ha as [Ha1 Ha2]. split.
    + destruct (_cluster_values values tolerance) as [|c cs]; [reflexivity|].
      apply Forall_cons in Hv1 as [Hc _]. simpl in Hv2. lia.
    + destruct (_cluster_angles values tolerance) as [|c cs]; [reflexivity|].
      apply Forall_cons in Ha1 as [Hc _]. simpl in Ha2. lia.
  - apply one_cluster.
Qed.

End Clusters.

Lemma clusters_of_values_witness :
  exists c,
    material_pattern_detector._cluster_values [45; 44; 46]%Q 15.0%Q = [c]
    /\ material_pattern_detector.vcount c = 3%nat
    /\ (material_pattern_detector.vcenter c == plankopf_parser.mean [45; 44; 46])%Q.
Proof.
  refine (proj1 (proj2 (proj2 (proj2 (clusters_of_values [45; 44; 46]%Q 15.0%Q))) _ _)).
  - cbn [length]. lia.
  - intros u v Hu Hv.
    destruct Hu as [<-|[<-|[<-|[]]]], Hv as [<-|[<-|[<-|[]]]];
      apply Qle_bool_iff; reflexivity.
Defined.

(** ** The lines that the two analyses read from a drawing *)

Section LinesRead.
Import plankopf_parser material_pattern_detector.
Local Open Scope Q_scope.

(** The segments from a point to the start of the next line, then from
    start to start. *)
Fixpoint starts_chain (px py : Q) (rest : list Line) : list Line :=
  match rest with
  | [] => []
  | l :: rest' => mkLine px py (lx1 l) (ly1 l) :: starts_chain (lx1 l) (ly1 l) rest'
  end.

(** The start point of the line is true: it is not the origin. *)
Definition start_truthy (l : Line) : bool := val_truthy (VPoint (lx1 l) (ly1 l)).

Lemma drawing_lines_chain (rest : list Line) (acc : list Line) (px py : Q) :
  fst (fold_left drawing_lines_step (map segment_item rest) (acc, VPoint px py))
  = acc ++ starts_chain px py (List.filter start_truthy rest).
Proof.
  revert acc px py. induction rest as [|l rest IH]; intros acc px py;
    cbn [map fold_left List.filter starts_chain].
  - rewrite app_nil_r. reflexivity.
  - assert (Hstep : drawing_lines_step (acc, VPoint px py) (segment_item l)
                    = if start_truthy l
                      then (acc ++ [mkLine px py (lx1 l) (ly1 l)], VPoint (lx1 l) (ly1 l))
                      else (acc, VPoint px py)).
    { unfold drawing_lines_step, segment_item, arg, item_len, start_truthy.
      cbn [cmd args length Nat.ltb Nat.leb nth Nat.sub is_None negb andb].
      change (String.eqb "l" "m") with false. change (String.eqb "l" "l") with true.
      cbn [andb]. destruct (val_truthy (VPoint (lx1 l) (ly1 l))); reflexivity. }
    rewrite Hstep. destruct (start_truthy l).
    + rewrite IH, <- app_assoc. reflexivity.
    + apply IH.
Qed.

(** For a drawing given as items [("l", p1, p2)], one for each segment:
    the legend learner reads exactly these segments, whereas the matching
    engine reads the first segment only; of the further items it skips
    those that start at the origin, and instead of each other one it reads
    the line from where it stands to the start point of that item.  The
    end points of the further items are never read. *)
Theorem lines_read_from_segments (l1 : Line) (rest : list Line) :
  pattern_lines (map segment_item (l1 :: rest)) = l1 :: rest
  /\ drawing_lines (map segment_item (l1 :: rest))
     = l1 :: starts_chain (lx2 l1) (ly2 l1) (List.filter start_truthy rest).
Proof.
  split.
  - induction (l1 :: rest) as [|l ls IH]; [reflexivity|].
    cbn [map pattern_lines flat_map] in *. unfold pattern_lines in IH. rewrite IH.
    destruct l. reflexivity.
  - unfold drawing_lines. cbn [map fold_left].
    assert (Hfirst : drawing_lines_step ([], VNone) (segment_item l1)
                     = ([l1], VPoint (lx2 l1) (ly2 l1))).
    { destruct l1. reflexivity. }
    rewrite Hfirst, (drawing_lines_chain rest [l1]). reflexivity.
Qed.

End LinesRead.

(** Three horizontal hatch lines, one above the other. *)
Definition three_hatch_lines : list plankopf_parser.Line :=
  [plankopf_parser.mkLine 1 1 11 1; plankopf_parser.mkLine 1 3 11 3;
   plankopf_parser.mkLine 1 5 11 5].

(** The three hatch lines are read as the first one and two connecting
    lines; a line that starts at the origin is not read at all. *)
Example hatch_lines_are_read_as_connectors :
  material_pattern_detector.drawing_lines (map segment_item three_hatch_lines)
  = [plankopf_parser.mkLine 1 1 11 1; plankopf_parser.mkLine 11 1 1 3;
     plankopf_parser.mkLine 1 3 1 5]
  /\ material_pattern_detector.drawing_lines
       (map segment_item [plankopf_parser.mkLine 1 1 11 1; plankopf_parser.mkLine 0 0 5 5])
     = [plankopf_parser.mkLine 1 1 11 1].
Proof. split; reflexivity. Qed.

(** ** Parallel lines are a hatching *)

Section ParallelLines.
Import plankopf_parser material_pattern_detector.
Local Open Scope Q_scope.
Context `{MathSqrt} `{MathTrig}.

Lemma drawing_angles_length (lines : list Line) :
  (length (drawing_angles lines) <= length lines)%nat.
Proof.
  induction lines as [|l lines IH]; [reflexivity|].
  unfold drawing_angles in *. cbn [flat_map]. rewrite length_app.
  destruct (Py.Qltb _ 0.1); cbn [length]; lia.
Qed.

Lemma line_angles_length (lines : list Line) :
  (length (line_angles lines) <= length lines)%nat.
Proof.
  induction lines as [|l lines IH]; [reflexivity|].
  unfold line_angles in *. cbn [flat_map]. rewrite length_app.
  destruct (_ && _); cbn [length]; lia.
Qed.

(** When at least two lines of a drawing have an angle and all the angles
    are within the tolerance of each other (15 degrees for the matching
    engine, 10 for the legend), both analyses report a hatching whose angle
    is the mean of the angles and whose line count is the number of lines
    read; the legend's analysis adds the spacing it estimates at that
    angle, the matching engine's never gives a spacing. *)
Theorem parallel_lines_are_hatching (drawing : Drawing) :
  (let lines := drawing_lines (items drawing) in
   let angles := drawing_angles lines in
   (2 <= length angles)%nat ->
   (forall u v, In u angles -> In v angles -> v - u <= 15.0) ->
   exists a, a == mean angles
     /\ analyze_drawing_pattern drawing
        = mkPatternInfo HATCHING (color drawing) (fill drawing) (Some a) None
                        (length lines) None)
  /\ (let lines := pattern_lines (items drawing) in
      let angles := line_angles lines in
      (2 <= length angles)%nat ->
      (forall u v, In u angles -> In v angles -> v - u <= 10.0) ->
      exists a, a == mean angles
        /\ analyze_pattern drawing
           = mkPatternInfo HATCHING (color drawing) (fill drawing) (Some a)
                           (_estimate_line_spacing lines a) (length lines) None).
Proof.
  split; cbv zeta; intros Hlen Hclose.
  - destruct (proj1 (one_cluster _ _ Hlen Hclose)) as (c & Hc & _ & Hmean).
    exists (vcenter c). split; [exact Hmean|].
    unfold analyze_drawing_pattern.
    pose proof (drawing_angles_length (drawing_lines (items drawing))) as Hle.
    assert (Hlt : (length (drawing_lines (items drawing)) <? 2)%nat = false)
      by (apply Nat.ltb_ge; lia).
    rewrite Hlt.
    destruct (drawing_angles (drawing_lines (items drawing))) as [|a0 rest] eqn:Ha;
      [cbn [length] in Hlen; lia|].
    rewrite Hc. reflexivity.
  - destruct (proj2 (one_cluster _ _ Hlen Hclose)) as (c & Hc & _ & Hmean).
    exists (center c). split; [exact Hmean|].
    unfold analyze_pattern.
    pose proof (line_angles_length (pattern_lines (items drawing))) as Hle.
    assert (Hlt : (length (pattern_lines (items drawing)) <? 2)%nat = false)
      by (apply Nat.ltb_ge; lia).
    rewrite Hlt.
    destruct (line_angles (pattern_lines (items drawing))) as [|a0 rest] eqn:Ha;
      [cbn [length] in Hlen; lia|].
    rewrite Hc. reflexivity.
Qed.

End ParallelLines.

(** Trigonometry that computes, for the examples: a rational approximation
    of [math.atan2] (exact for a zero [dy] and a positive [dx], where the
    angle is 0), degrees and radians with 355/113 for pi, and the Taylor
    polynomials of degree 7 and 6 of sine and cosine. *)
Definition Qpi : Q := 355 # 113.

Definition Qatan_unit (t : Q) : Q := (t / (1 + 0.28 * t * t))%Q.

Definition Qatan2 (y x : Q) : Q :=
  (if Qeq_bool x 0 then
     if Py.Qltb 0 y then Qpi / 2 else if Py.Qltb y 0 then - (Qpi / 2) else 0
   else if Qle_bool (Qabs y) (Qabs x) then
     let a := Qatan_unit (y / x) in
     if Py.Qltb 0 x then a else if Py.Qltb y 0 then a - Qpi else a + Qpi
   else
     let a := Qatan_unit (x / y) in
     if Py.Qltb 0 y then Qpi / 2 - a else - (Qpi / 2) - a)%Q.

Definition Qsin (x : Q) : Q :=
  (x - x ^ 3 / 6 + x ^ 5 / 120 - x ^ 7 / 5040)%Q.

Definition Qcos (x : Q) : Q :=
  (1 - x ^ 2 / 2 + x ^ 4 / 24 - x ^ 6 / 720)%Q.

Definition QTrig : MathTrig := {|
  math_atan2 := Qatan2;
  math_degrees := fun x => (x * 180 / Qpi)%Q;
  math_radians := fun x => (x * Qpi / 180)%Q;
  math_sin := Qsin;
  math_cos := Qcos
|}.

(** Three horizontal strokes drawn from left to right, each after a move
    to its start. *)
Definition three_strokes : plankopf_parser.Drawing :=
  plankopf_parser.mkDrawing
    [plankopf_parser.mkItem "m" [plankopf_parser.VPoint 1 1];
     plankopf_parser.mkItem "l" [plankopf_parser.VPoint 11 1];
     plankopf_parser.mkItem "m" [plankopf_parser.VPoint 1 3];
     plankopf_parser.mkItem "l" [plankopf_parser.VPoint 11 3];
     plankopf_parser.mkItem "m" [plankopf_parser.VPoint 1 5];
     plankopf_parser.mkItem "l" [plankopf_parser.VPoint 11 5]]
    (Some [0; 0; 0]%Q) None None.

Lemma parallel_lines_are_hatching_witness :
  exists a, (a == 0)%Q
    /\ @material_pattern_detector.analyze_drawing_pattern QMath QTrig three_strokes
       = plankopf_parser.mkPatternInfo plankopf_parser.HATCHING (Some [0; 0; 0]%Q) None
           (Some a) None 3%nat None.
Proof.
  destruct (proj1 (@parallel_lines_are_hatching QMath QTrig three_strokes))
    as (a & Ha & Hp).
  - vm_compute. lia.
  - intros u v Hu Hv.
    assert (Hall : forall w,
               In w (@material_pattern_detector.drawing_angles QMath QTrig
                       (material_pattern_detector.drawing_lines
                          (plankopf_parser.items three_strokes))) -> (w == 0)%Q).
    { intros w Hw. vm_compute in Hw. destruct Hw as [<-|[<-|[<-|[]]]]; reflexivity. }
    rewrite (Hall u Hu), (Hall v Hv). apply Qle_bool_iff. reflexivity.
  - exists a. split; [|exact Hp].
    rewrite Ha. reflexivity.
Defined.

(** ** Lines of scattered directions *)

Section ScatteredAngles.
Import plankopf_parser material_pattern_detector.
Local Open Scope Q_scope.

(** Any two of the values, at different places of the list, are more than
    [tol] apart. *)
Definition far_apart (tol : Q) (l : list Q) : Prop :=
  ForallOrdPairs (fun u v => tol < Qabs (u - v)) l.

(** The next value is more than [tol] above. *)
Definition gap_above (tol a b : Q) : Prop := tol < b - a.

Lemma insert_gapped (tol x : Q) (l : list Q) :
  Sorted (gap_above tol) l ->
  Forall (fun y => tol < Qabs (x - y)) l ->
  Sorted (gap_above tol) (Py.insert_sorted Py.Qltb x l)
  /\ (forall a, HdRel (gap_above tol) a l -> gap_above tol a x ->
                HdRel (gap_above tol) a (Py.insert_sorted Py.Qltb x l)).
Proof.
  induction l as [|y l IH]; intros Hs Hall; cbn [Py.insert_sorted].
  - split; [repeat constructor|]. intros a _ Hax. constructor. exact Hax.
  - apply Sorted_inv in Hs as [Hs Hhd]. apply Forall_cons in Hall as [Hxy Hall].
    destruct (IH Hs Hall) as [IH1 IH2].
    destruct (Py.Qltb y x) eqn:Hlt.
    + apply Qltb_lt in Hlt. split.
      * constructor; [exact IH1|]. apply IH2; [exact Hhd|].
        unfold gap_above. rewrite Qabs_pos in Hxy; lra.
      * intros a Ha _. apply HdRel_inv in Ha. constructor. exact Ha.
    + apply Qltb_ge in Hlt. split.
      * constructor; [constructor; assumption|]. constructor.
        unfold gap_above. rewrite Qabs_neg in Hxy; lra.
      * intros a _ Hax. constructor. exact Hax.
Qed.

Lemma sorted_gapped (tol : Q) (l : list Q) :
  far_apart tol l -> Sorted (gap_above tol) (Py.sorted Py.Qltb l).
Proof.
  induction 1 as [|x l Hx _ IH]; cbn [Py.sorted]; [constructor|].
  apply insert_gapped; [exact IH|].
  apply (Permutation_Forall (Permutation_sym (sorted_perm Py.Qltb l))), Hx.
Qed.

Lemma gapped_runs (tol : Q) (rest : list Q) (closed : list (list Q)) (v : Q) :
  Sorted (gap_above tol) (v :: rest) ->
  let st := fold_left (run_step tol) rest (closed, [v]) in
  fst st ++ [snd st] = closed ++ map (fun x => [x]) (v :: rest).
Proof.
  revert closed v. induction rest as [|w rest IH]; intros closed v Hs;
    cbn [fold_left map]; cbv zeta; [reflexivity|].
  apply Sorted_inv in Hs as [Hs Hhd]. apply HdRel_inv in Hhd. unfold gap_above in Hhd.
  assert (Hstep : run_step tol (closed, [v]) w = (closed ++ [[v]], [w])).
  { unfold run_step. cbn [fst snd List.last].
    destruct (Qle_bool (w - v) tol) eqn:Hle; [|reflexivity].
    apply Qle_bool_iff in Hle. lra. }
  rewrite Hstep. etransitivity; [apply (IH _ _ Hs)|].
  rewrite <- app_assoc. reflexivity.
Qed.

Lemma singletons_are_dropped (l : list Q) :
  List.filter (fun c => (2 <=? vcount c)%nat)
              (flat_map close_values (map (fun x => [x]) l)) = []
  /\ List.filter (fun c => (2 <=? count c)%nat)
                 (flat_map close_cluster (map (fun x => [x]) l)) = [].
Proof.
  induction l as [|x l [IH1 IH2]]; [split; reflexivity|].
  cbn [map flat_map close_values close_cluster app List.filter vcount count length
       Nat.leb].
  split; assumption.
Qed.

Lemma no_cluster (tol : Q) (values : list Q) :
  far_apart tol values ->
  _cluster_values values tol = [] /\ _cluster_angles values tol = [].
Proof.
  intros Hap. destruct (runs_of_spec tol values) as (_ & _ & Hcv & Hca).
  rewrite Hcv, Hca. pose proof (sorted_gapped tol values Hap) as Hs.
  unfold runs_of. destruct (Py.sorted Py.Qltb values) as [|v0 rest];
    [split; reflexivity|].
  pose proof (gapped_runs tol rest [] v0 Hs) as Hruns. cbv zeta in Hruns.
  rewrite Hruns. cbn [app]. apply singletons_are_dropped.
Qed.

Context `{MathSqrt} `{MathTrig}.

(** A drawing of at least two lines whose angles are pairwise more than
    the tolerance apart (a cross, a triangle; also lines of which only one
    has an angle) has no cluster of angles: both analyses report a hatching
    without angle.  The matching engine then rejects the drawing against
    every target pattern, whatever the colours, for every angle tolerance
    whose double is below 45. *)
Theorem scattered_lines_match_nothing (drawing : Drawing) :
  (let lines := drawing_lines (items drawing) in
   (2 <= length lines)%nat -> drawing_angles lines <> [] ->
   far_apart 15.0 (drawing_angles lines) ->
   analyze_drawing_pattern drawing
   = mkPatternInfo HATCHING (color drawing) (fill drawing) None None
                   (length lines) None
   /\ forall (target : PatternInfo) (color_tolerance angle_tolerance spacing_tolerance : Q),
        angle_tolerance * 2 < 45 ->
        patterns_match (analyze_drawing_pattern drawing) target
                       color_tolerance angle_tolerance spacing_tolerance
        = (false, 0.0))
  /\ (let lines := pattern_lines (items drawing) in
      (2 <= length lines)%nat -> line_angles lines <> [] ->
      far_apart 10.0 (line_angles lines) ->
      analyze_pattern drawing
      = mkPatternInfo HATCHING (color drawing) (fill drawing) None None
                      (length lines) None).
Proof.
  split; cbv zeta; intros Hlen Hne Hap.
  - assert (Hres : analyze_drawing_pattern drawing
                   = mkPatternInfo HATCHING (color drawing) (fill drawing) None None
                       (length (drawing_lines (items drawing))) None).
    { unfold analyze_drawing_pattern.
      assert (Hlt : (length (drawing_lines (items drawing)) <? 2)%nat = false)
        by (apply Nat.ltb_ge; lia).
      rewrite Hlt, (proj1 (no_cluster _ _ Hap)).
      destruct (drawing_angles (drawing_lines (items drawing))); [congruence|].
      reflexivity. }
    split; [exact Hres|]. intros target ct at_ st Htol. rewrite Hres.
    apply missing_angle_rejects; [reflexivity | left; reflexivity | exact Htol].
  - unfold analyze_pattern.
    assert (Hlt : (length (pattern_lines (items drawing)) <? 2)%nat = false)
      by (apply Nat.ltb_ge; lia).
    rewrite Hlt, (proj2 (no_cluster _ _ Hap)).
    destruct (line_angles (pattern_lines (items drawing))); [congruence|].
    reflexivity.
Qed.

(** The matching engine never compares spacings: the pattern it analyses
    from a drawing has none, so that the outcome of the comparison depends
    neither on the spacing of the target nor on the spacing tolerance. *)
Theorem detection_ignores_spacing (drawing : Drawing) (target : PatternInfo)
    (spacing : option Q)
    (color_tolerance angle_tolerance spacing_tolerance spacing_tolerance' : Q) :
  hatching_spacing (analyze_drawing_pattern drawing) = None
  /\ patterns_match (analyze_drawing_pattern drawing) target
                    color_tolerance angle_tolerance spacing_tolerance
     = patterns_match (analyze_drawing_pattern drawing)
                      (mkPatternInfo (pattern_type target) (stroke_color target)
                         (fill_color target) (hatching_angle target) spacing
                         (line_count target) (secondary_angle target))
                      color_tolerance angle_tolerance spacing_tolerance'.
Proof.
  assert (Hnone : hatching_spacing (analyze_drawing_pattern drawing) = None).
  { unfold analyze_drawing_pattern.
    destruct (_ <? _)%nat; [destruct (color_truthy _); reflexivity|].
    destruct (drawing_angles _); [reflexivity|].
    destruct (_cluster_values _ _) as [|c1 [|c2 [|c3 cs]]]; reflexivity. }
  split; [exact Hnone|].
  unfold patterns_match. rewrite Hnone.
  cbn [pattern_type stroke_color fill_color hatching_angle hatching_spacing
       both_spacings].
  reflexivity.
Qed.

End ScatteredAngles.

(** A cross: one horizontal and one vertical stroke. *)
Definition cross : plankopf_parser.Drawing :=
  plankopf_parser.mkDrawing
    [plankopf_parser.mkItem "m" [plankopf_parser.VPoint 1 5];
     plankopf_parser.mkItem "l" [plankopf_parser.VPoint 11 5];
     plankopf_parser.mkItem "m" [plankopf_parser.VPoint 6 1];
     plankopf_parser.mkItem "l" [plankopf_parser.VPoint 6 11]]
    (Some [0; 0; 0]%Q) None None.

Lemma scattered_lines_match_nothing_witness :
  @material_pattern_detector.patterns_match QMath
    (@material_pattern_detector.analyze_drawing_pattern QMath QTrig cross)
    hatching_45_red 0.25%Q 15.0%Q 0.3%Q = (false, 0.0%Q).
Proof.
  refine (proj2 (proj1 (@scattered_lines_match_nothing QMath QTrig cross) _ _ _)
            hatching_45_red 0.25%Q 15.0%Q 0.3%Q _).
  - vm_compute. lia.
  - vm_compute. discriminate.
  - vm_compute. repeat constructor.
  - reflexivity.
Defined.

(** ** Spacing of the lines of a hatching *)

Section LineSpacing.
Import plankopf_parser.
Local Open Scope Q_scope.

Lemma sum_above (c x : Q) (l : list Q) :
  Forall (fun y => c < y) (x :: l) ->
  c * inject_Z (Z.of_nat (length (x :: l))) < Py.sum (x :: l).
Proof.
  revert x. induction l as [|y l IH]; intros x Hall.
  - apply Forall_cons in Hall as [Hx _]. rewrite sum_cons. change (inject_Z (Z.of_nat (length [x]))) with 1.
    change (Py.sum []) with 0. lra.
  - apply Forall_cons in Hall as [Hx Hall]. specialize (IH y Hall).
    rewrite sum_cons. change (length (x :: y :: l)) with (S (length (y :: l))).
    rewrite Nat2Z.inj_succ. unfold Z.succ. rewrite inject_Z_plus.
    change (inject_Z 1) with 1. lra.
Qed.

Lemma mean_above (c : Q) (l : list Q) :
  l <> [] -> Forall (fun y => c < y) l -> c < mean l.
Proof.
  intros Hne Hall. destruct l as [|x l]; [congruence|].
  unfold mean. apply Qlt_shift_div_l.
  - change 0 with (inject_Z 0). rewrite <- Zlt_Qlt. cbn [length]. lia.
  - apply sum_above, Hall.
Qed.

Context `{MathTrig}.

(** [_estimate_line_spacing] gives no spacing for fewer than two lines;
    a spacing that it gives is the mean of gaps above 0.1 between the
    sorted distances, so that it is above 0.1 itself: lines that lie on
    each other within 0.1 count for no gap, and the spacing is never zero
    or negative. *)
Theorem estimated_spacing_is_positive (lines : list Line) (dominant_angle : Q) :
  ((length lines < 2)%nat -> _estimate_line_spacing lines dominant_angle = None)
  /\ (forall s, _estimate_line_spacing lines dominant_angle = Some s -> 0.1 < s).
Proof.
  unfold _estimate_line_spacing. split.
  - intros Hlen. apply Nat.ltb_lt in Hlen. rewrite Hlen. reflexivity.
  - intros s. destruct (_ <? _)%nat; [discriminate|].
    destruct (_ <? _)%nat; [discriminate|].
    set (spacings := List.filter _ _).
    assert (Hall : Forall (fun y => 0.1 < y) spacings).
    { apply Forall_forall. intros y Hy. apply list_elem_of_In, filter_In in Hy as [_ Hy].
      apply Qgtb_gt, Hy. }
    destruct spacings as [|g gs] eqn:Hs; [discriminate|].
    intros [= <-]. apply mean_above; [discriminate | exact Hall].
Qed.

End LineSpacing.

Lemma estimated_spacing_is_positive_witness :
  exists s,
    @plankopf_parser._estimate_line_spacing QTrig three_hatch_lines 0%Q = Some s
    /\ (0.1 < s)%Q.
Proof.
  destruct (@plankopf_parser._estimate_line_spacing QTrig three_hatch_lines 0%Q)
    as [s|] eqn:Hs.
  - exists s. split; [reflexivity|].
    apply (proj2 (@estimated_spacing_is_positive QTrig three_hatch_lines 0%Q) s Hs).
  - vm_compute in Hs. discriminate.
Defined.

(** ** What merging keeps *)

Section MergeKeeps.
Import plankopf_parser material_pattern_detector.
Local Open Scope Q_scope.

Lemma sum_app (a b : list Q) : Py.sum (a ++ b) == Py.sum a + Py.sum b.
Proof.
  induction a as [|x a IH]; cbn [app].
  - change (Py.sum []) with 0. ring.
  - rewrite !sum_cons, IH. ring.
Qed.

Lemma merged_lengths (gs : list Group) :
  Py.sum (map length_px (map merged_group gs))
  == Py.sum (map length_px (flat_map members gs)).
Proof.
  induction gs as [|[f l] gs IH]; [reflexivity|].
  cbn [map flat_map]. rewrite map_app, sum_app, sum_cons, IH.
  destruct (merged_group_fields f l) as (_ & _ & _ & Hlen & _).
  cbv zeta in Hlen. rewrite Hlen, sum_from.
  unfold members. cbn [fst snd map]. rewrite sum_cons. ring.
Qed.

Lemma merged_number (gs : list Group) :
  (length (map merged_group gs) <= length (flat_map members gs))%nat.
Proof.
  induction gs as [|g gs IH]; [reflexivity|].
  cbn [map flat_map length]. rewrite length_app. unfold members at 1.
  cbn [length]. lia.
Qed.

Lemma running_mean_range (lo hi : Q) (l : list DetectedRegion) (f : DetectedRegion) :
  (forall r, In r (f :: l) -> lo <= confidence r /\ confidence r <= hi) ->
  lo <= confidence (merged_group (f, l)) /\ confidence (merged_group (f, l)) <= hi.
Proof.
  revert f. induction l as [|r l IH]; intros f Hall.
  - apply Hall. left. reflexivity.
  - change (merged_group (f, r :: l)) with (merged_group (merge_two f r, l)).
    apply IH. intros r' [<-|Hin].
    + destruct (Hall f (or_introl eq_refl)) as [H1 H2].
      destruct (Hall r (or_intror (or_introl eq_refl))) as [H3 H4].
      cbn [merge_two confidence].
      split; [apply Qle_shift_div_l | apply Qle_shift_div_r]; lra.
    + apply Hall. right. right. exact Hin.
Qed.

Lemma merge_total (regions : list DetectedRegion) (merge_distance : Q) :
  let merged := merge_adjacent_regions regions merge_distance in
  Py.sum (map length_px merged) == Py.sum (map length_px regions)
  /\ (length merged <= length regions)%nat
  /\ (regions <> [] -> merged <> []).
Proof.
  cbv zeta. destruct (merge_is_groups regions merge_distance) as (Hm & Hf & _).
  cbv zeta in Hm, Hf. rewrite Hm.
  pose proof (sorted_perm position_before regions) as Hperm.
  split; [|split].
  - rewrite merged_lengths, Hf. apply sum_perm, Permutation_map, Hperm.
  - etransitivity; [apply merged_number|]. rewrite Hf.
    rewrite (Permutation_length Hperm). reflexivity.
  - intros Hne Hnil. apply map_eq_nil in Hnil. rewrite Hnil in Hf. cbn in Hf.
    rewrite <- Hf in Hperm. apply Permutation_nil in Hperm. congruence.
Qed.

(** Merging keeps the total length of the regions and makes their number
    no larger; it returns no region only when it is given none.  Every
    confidence that it returns lies within the bounds of the confidences
    that it is given. *)
Theorem merging_keeps_the_total_length (regions : list DetectedRegion)
    (merge_distance : Q) :
  let merged := merge_adjacent_regions regions merge_distance in
  Py.sum (map length_px merged) == Py.sum (map length_px regions)
  /\ (length merged <= length regions)%nat
  /\ (regions <> [] -> merged <> [])
  /\ (forall lo hi : Q,
        (forall r, In r regions -> lo <= confidence r /\ confidence r <= hi) ->
        forall m, In m merged -> lo <= confidence m /\ confidence m <= hi).
Proof.
  cbv zeta. destruct (merge_total regions merge_distance) as (H1 & H2 & H3).
  split; [exact H1|]. split; [exact H2|]. split; [exact H3|].
  destruct (merge_is_groups regions merge_distance) as (Hm & Hf & _).
  cbv zeta in Hm, Hf. rewrite Hm.
  pose proof (sorted_perm position_before regions) as Hperm.
  intros lo hi Hall m Hin. apply in_map_iff in Hin as ([f l] & <- & Hg).
  apply running_mean_range. intros r Hr. apply Hall.
  apply (Permutation_in r Hperm). rewrite <- Hf.
  apply in_flat_map. exists (f, l). split; [exact Hg | exact Hr].
Qed.

(** *** The totals of a page *)

(** The region as the conversion loop leaves it. *)
Definition in_meters (target_symbol : LegendSymbol) (scale : string)
    (region : DetectedRegion) : DetectedRegion :=
  mkDetectedRegion (region_id region) (bbox region) (pattern_info region)
    (Some target_symbol) (confidence region) (length_px region)
    (Some (length_px region * 25.4 / 72.0 * inject_Z (parse_scale scale) / 1000))
    (wall_thickness_px region).

Definition meters_of (r : DetectedRegion) : Q :=
  match length_m r with Some m => m | None => 0 end.

Lemma convert_loop (sym : LegendSymbol) (scale : string)
    (l done : list DetectedRegion) (px m : Q) :
  short_scale scale = true ->
  fold_left (convert_step sym scale) l (Py.Return (done, px, m))
  = Py.Return (done ++ map (in_meters sym scale) l,
               fold_left Qplus (map length_px l) px,
               fold_left Qplus (map meters_of (map (in_meters sym scale) l)) m).
Proof.
  intros Hshort.
  revert done px m. induction l as [|r l IH]; intros done px m; cbn [fold_left map].
  - rewrite app_nil_r. reflexivity.
  - cbn [convert_step]. rewrite (convert_returns _ scale 72.0 eq_refl Hshort).
    rewrite IH, <- app_assoc. reflexivity.
Qed.

Lemma meters_total (sym : LegendSymbol) (scale : string) (l : list DetectedRegion) :
  Py.sum (map meters_of (map (in_meters sym scale) l))
  == Py.sum (map length_px l) * 25.4 / 72 * inject_Z (parse_scale scale) / 1000.
Proof.
  induction l as [|r l IH]; cbn [map].
  - change (Py.sum []) with 0. field.
  - rewrite !sum_cons, IH. unfold meters_of. cbn [in_meters length_m].
    assert (H72 : 72.0 == 72) by reflexivity. rewrite H72. field.
Qed.

(** The result for a page, from the regions that the scan found and a
    scale string of ASCII characters whose number has at most 308 digits:
    the call returns; the total length in drawing units is the sum of the lengths
    found, whatever was merged; the total in meters is the conversion of
    that total; the segment count is the number of regions returned and at
    most the number found; every region returned carries the target symbol
    and its own length in meters; the warning of an empty result is given
    exactly when nothing was found. *)
Theorem page_totals (regions : list DetectedRegion) (target_symbol : LegendSymbol)
    (scale : string) (page : Z) :
  Re.is_ascii scale = true -> short_scale scale = true ->
  exists res,
    detect_pattern_in_page regions target_symbol scale page = Py.Return res
    /\ total_length_px res == Py.sum (map length_px regions)
    /\ total_length_m res
       == total_length_px res * 25.4 / 72 * inject_Z (parse_scale scale) / 1000
    /\ segment_count res = length (detected_regions res)
    /\ (segment_count res <= length regions)%nat
    /\ detected_regions res
       = map (in_meters target_symbol scale) (merge_adjacent_regions regions 5.0)
    /\ (regions = [] ->
        warnings res = ["No matching patterns found in drawing area"%string]
        /\ result_confidence res = 0.0)
    /\ (regions <> [] ->
        warnings res = []
        /\ result_confidence res
           == mean (map confidence (merge_adjacent_regions regions 5.0))).
Proof.
  intros _ Hshort.
  unfold detect_pattern_in_page. rewrite (convert_loop _ _ _ _ _ _ Hshort). cbn [app].
  destruct (merge_total regions 5.0) as (Hsum & Hlen & Hne). cbv zeta in Hsum, Hlen, Hne.
  set (merged := merge_adjacent_regions regions 5.0) in *.
  assert (Hpx : fold_left Qplus (map length_px merged) 0.0
                == Py.sum (map length_px regions)).
  { rewrite sum_from, Hsum. assert (H0 : 0.0 == 0) by reflexivity. rewrite H0. ring. }
  assert (Hm : fold_left Qplus (map meters_of (map (in_meters target_symbol scale) merged))
                 0.0
               == fold_left Qplus (map length_px merged) 0.0 * 25.4 / 72
                  * inject_Z (parse_scale scale) / 1000).
  { rewrite !sum_from, meters_total. assert (H0 : 0.0 == 0) by reflexivity.
    rewrite H0. field. }
  destruct merged as [|r0 merged'] eqn:Hmerged.
  - eexists. split; [reflexivity|]. cbn [total_length_px total_length_m segment_count
      detected_regions warnings result_confidence map length app].
    split; [exact Hpx|]. split; [exact Hm|]. split; [reflexivity|].
    split; [lia|]. split; [reflexivity|]. split.
    + intros _. split; reflexivity.
    + intros Hr. destruct (Hne Hr eq_refl).
  - eexists. split; [reflexivity|]. cbn [total_length_px total_length_m segment_count
      detected_regions warnings result_confidence].
    split; [exact Hpx|]. split; [exact Hm|]. split; [reflexivity|].
    split; [rewrite length_map; exact Hlen|]. split; [reflexivity|]. split.
    + intros ->. discriminate Hmerged.
    + intros _. split; [reflexivity|]. unfold mean. rewrite !length_map.
      rewrite map_map. cbn [map in_meters confidence]. reflexivity.
Qed.

End MergeKeeps.

Lemma merging_keeps_the_total_length_witness :
  exists m rest,
    material_pattern_detector.merge_adjacent_regions three_fragments 5.0%Q = m :: rest
    /\ (0.4 <= material_pattern_detector.confidence m
        /\ material_pattern_detector.confidence m <= 1)%Q.
Proof.
  pose proof (proj2 (proj2 (proj2 (merging_keeps_the_total_length three_fragments 5.0%Q)))
                0.4%Q 1%Q) as Hrange.
  cbv zeta in Hrange.
  destruct (material_pattern_detector.merge_adjacent_regions three_fragments 5.0%Q)
    as [|m rest] eqn:Hm; [vm_compute in Hm; discriminate|].
  exists m, rest. split; [reflexivity|]. apply Hrange; [|left; reflexivity].
  intros r [<-|[<-|[<-|[]]]]; split; apply Qle_bool_iff; reflexivity.
Defined.

Lemma page_totals_witness :
  exists res,
    material_pattern_detector.detect_pattern_in_page three_fragments drywall_symbol
      "1:50" 1%Z = Py.Return res
    /\ material_pattern_detector.warnings res = []
    /\ (material_pattern_detector.total_length_px res == 30)%Q.
Proof.
  destruct (page_totals three_fragments drywall_symbol "1:50" 1%Z eq_refl eq_refl)
    as (res & Hres & Hpx & _ & _ & _ & _ & _ & Hfound).
  exists res. split; [exact Hres|]. split.
  - apply Hfound. discriminate.
  - rewrite Hpx. reflexivity.
Defined.

(** ** Doors detected from pairs of parallel lines *)

Section RectangleDoors.
Import door_label_detection door_geometry_extraction.
Local Open Scope Q_scope.
Context `{MathSqrt} (uuid4_hex8 : nat -> string).

(** What a rectangle geometry shows of the pair of lines it was made for. *)
Definition rectangle_of (segments : list LineSegment) (page_number : Z)
    (pixels_per_meter min_door_width_m max_door_width_m : Q) (g : DoorGeometry)
  : Prop :=
  g_confidence g = 0.6 /\ opening_type g = "rectangle"%string
  /\ g_page_number g = page_number
  /\ exists seg1 seg2,
       In seg1 segments /\ In seg2 segments
       /\ parallel_lines g = Some [seg1; seg2]
       /\ Qabs (angle_degrees seg1 - angle_degrees seg2) <= 10
       /\ _distance_between_parallel_lines seg1 seg2 = Py.Return (width_px g)
       /\ min_door_width_m <= width_px g / pixels_per_meter
       /\ width_px g / pixels_per_meter <= max_door_width_m
       /\ height_px g = Some (Py.max (length_px seg1) (length_px seg2))
       /\ orientation_deg g = angle_degrees seg1.

Definition rectangles_so_far (segments : list LineSegment) (page_number : Z)
    (ppm minw maxw : Q) (st : list DoorGeometry * bool) : Prop :=
  Forall (rectangle_of segments page_number ppm minw maxw) (fst st).

Lemma pair_step_ok (segments : list LineSegment) (page_number : Z) (ppm minw maxw : Q)
    (seg1 seg2 : LineSegment) (st : list DoorGeometry * bool) :
  Qeq_bool ppm 0 = false -> In seg1 segments -> In seg2 segments ->
  rectangles_so_far segments page_number ppm minw maxw st ->
  rectangles_so_far segments page_number ppm minw maxw
    (pair_step uuid4_hex8 page_number ppm minw maxw seg1 st seg2).
Proof.
  intros Hppm H1 H2 Hall. destruct st as [gs raised].
  unfold rectangles_so_far in *. cbn [fst] in Hall. unfold pair_step.
  destruct raised; [exact Hall|].
  destruct (Py.Qgtb _ 10) eqn:Hangle; [exact Hall|].
  destruct (_distance_between_parallel_lines seg1 seg2) as [d|e] eqn:Hd; [|exact Hall].
  rewrite (div_returns _ _ Hppm).
  destruct (Qle_bool minw (d / ppm)) eqn:Hlo; [|exact Hall].
  destruct (Qle_bool (d / ppm) maxw) eqn:Hhi; [|exact Hall].
  cbn [andb fst].
  apply Forall_app. split; [exact Hall|]. constructor; [|constructor].
  unfold rectangle_of, rectangle_geometry.
  cbn [g_confidence opening_type g_page_number parallel_lines width_px height_px
       orientation_deg].
  split; [reflexivity|]. split; [reflexivity|]. split; [reflexivity|].
  exists seg1, seg2. split; [exact H1|]. split; [exact H2|]. split; [reflexivity|].
  split; [apply Qgtb_le, Hangle|]. split; [exact Hd|].
  split; [apply Qle_bool_iff, Hlo|]. split; [apply Qle_bool_iff, Hhi|].
  split; reflexivity.
Qed.

Lemma rectangle_loop_ok (segments : list LineSegment) (page_number : Z)
    (ppm minw maxw : Q) (todo : list LineSegment) (st : list DoorGeometry * bool) :
  Qeq_bool ppm 0 = false -> (forall s, In s todo -> In s segments) ->
  rectangles_so_far segments page_number ppm minw maxw st ->
  rectangles_so_far segments page_number ppm minw maxw
    (rectangle_loop uuid4_hex8 page_number ppm minw maxw todo st).
Proof.
  intros Hppm. revert st. induction todo as [|seg1 rest IH]; intros st Hsub Hst;
    cbn [rectangle_loop]; [exact Hst|].
  apply IH; [intros s Hs; apply Hsub; right; exact Hs|].
  assert (Hinner : forall inner st0,
             (forall s, In s inner -> In s segments) ->
             rectangles_so_far segments page_number ppm minw maxw st0 ->
             rectangles_so_far segments page_number ppm minw maxw
               (fold_left (pair_step uuid4_hex8 page_number ppm minw maxw seg1)
                          inner st0)).
  { induction inner as [|seg2 inner IHi]; intros st0 Hin Hst0; cbn [fold_left];
      [exact Hst0|].
    apply IHi; [intros s Hs; apply Hin; right; exact Hs|].
    apply pair_step_ok; [exact Hppm | apply Hsub; left; reflexivity
                        | apply Hin; left; reflexivity | exact Hst0]. }
  apply Hinner; [intros s Hs; apply Hsub; right; exact Hs | exact Hst].
Qed.

(** Without a scale, or with a scale of zero pixels per meter,
    [detect_door_rectangles] finds nothing.  Otherwise every geometry it
    returns stands for two of the segments whose angles differ by at most
    10 degrees and whose distance, in meters, is within the door widths
    asked for: its width is that distance, its height the longer of the
    two segments, its confidence 0.6. *)
Theorem rectangles_are_line_pairs (segments : list LineSegment) (page_number : Z)
    (scale_context : option ScaleContext) (min_door_width_m max_door_width_m : Q) :
  (scale_context = None ->
   detect_door_rectangles uuid4_hex8 segments page_number scale_context
                          min_door_width_m max_door_width_m = [])
  /\ (forall sc, scale_context = Some sc ->
        (pixels_per_meter sc == 0 ->
         detect_door_rectangles uuid4_hex8 segments page_number scale_context
                                min_door_width_m max_door_width_m = [])
        /\ forall g,
             In g (detect_door_rectangles uuid4_hex8 segments page_number scale_context
                                          min_door_width_m max_door_width_m) ->
             rectangle_of segments page_number (pixels_per_meter sc)
                          min_door_width_m max_door_width_m g).
Proof.
  split; [intros ->; reflexivity|]. intros sc ->. unfold detect_door_rectangles.
  unfold Py.truthy. rewrite negb_involutive.
  destruct (Qeq_bool (pixels_per_meter sc) 0) eqn:Hppm.
  - split; [reflexivity | intros g []].
  - split; [intros Hz; apply Qeq_bool_iff in Hz; congruence|].
    intros g Hg.
    pose proof (rectangle_loop_ok segments page_number (pixels_per_meter sc)
                  min_door_width_m max_door_width_m segments ([], false) Hppm
                  (fun s Hs => Hs) (List.Forall_nil _)) as Hall.
    unfold rectangles_so_far in Hall.
    rewrite Forall_forall in Hall. apply Hall, list_elem_of_In, Hg.
Qed.

End RectangleDoors.

(** ** Doors without a label *)

Section UnlabelledDoors.
Import door_label_detection door_geometry_extraction.
Local Open Scope Q_scope.
Context `{MathSqrt} (uuid4_hex8 : nat -> string).

Lemma Forall2_In_r {A B : Type} (R : A -> B -> Prop) (l : list A) (k : list B) (y : B) :
  Forall2 R l k -> In y k -> exists x, In x l /\ R x y.
Proof.
  induction 1 as [|a b l k Hab Hlk IH]; intros Hin; [destruct Hin|].
  destruct Hin as [<-|Hin].
  - exists a. split; [left; reflexivity | exact Hab].
  - destruct (IH Hin) as (x & Hx & Hr). exists x. split; [right; exact Hx | exact Hr].
Qed.

Definition numberless_all (ds : list DoorExtraction) : Prop :=
  Forall (fun d => door_number d = None) ds.

Lemma associate_numbers (labels : list DoorLabel) (geometries : list DoorGeometry)
    (md : Q) :
  numberless_all (fst (associate_labels_with_geometries uuid4_hex8 labels geometries md)).
Proof.
  unfold associate_labels_with_geometries.
  apply (fold_left_invariant (fun st => numberless_all (fst st))).
  - cbn [fst]. apply (fold_left_invariant numberless_all).
    + apply (fold_left_invariant (fun st => numberless_all (doors st)));
        [constructor|].
      intros st [i l] Hst. unfold match_step.
      destruct (find_nearest _ _ _ _) as [[g d]|]; [|exact Hst].
      cbn [doors]. apply Forall_app. split; [exact Hst|].
      constructor; [reflexivity | constructor].
    + intros ds g Hds. unfold geometry_only_step.
      destruct (bool_decide _); [exact Hds|].
      apply Forall_app. split; [exact Hds|]. constructor; [reflexivity | constructor].
  - intros [ds ls] i Hst. unfold label_only_step.
    destruct (ls !! i) as [l|]; [|exact Hst].
    destruct (bool_decide _); [exact Hst|].
    destruct (_ || _); [|exact Hst].
    cbn [fst] in *. apply Forall_app. split; [exact Hst|].
    constructor; [reflexivity | constructor].
Qed.

Lemma associate_unlabelled (labels : list DoorLabel) (geometries : list DoorGeometry)
    (md : Q) (d : DoorExtraction) :
  In d (fst (associate_labels_with_geometries uuid4_hex8 labels geometries md)) ->
  label d = None ->
  exists g, In g geometries /\ unlabelled g d.
Proof.
  unfold associate_labels_with_geometries.
  set (gs := Py.sorted _ geometries).
  set (st := fold_left (match_step uuid4_hex8 gs md) _ _).
  destruct (geometry_only_loop_spec uuid4_hex8 (matched_geometry_ids st) gs (doors st))
    as (geo & Hgeo & Hgeo_all).
  destruct (label_only_loop_doors uuid4_hex8 (matched_label_indices st)
              (seq 0 (length labels))
              (fold_left (geometry_only_step uuid4_hex8 (matched_geometry_ids st)) gs
                         (doors st), labels))
    as (lab & Hlab & Hlab_all).
  cbn [fst] in Hlab. rewrite Hlab, Hgeo.
  assert (Hm : Forall is_match (doors st)) by (apply match_loop_doors; constructor).
  intros Hin Hnone.
  apply in_app_or in Hin as [Hin|Hin]; [apply in_app_or in Hin as [Hin|Hin]|].
  - rewrite Forall_forall in Hm. apply list_elem_of_In, Hm in Hin.
    destruct Hin as (_ & Hl & _). contradiction.
  - destruct (Forall2_In_r _ _ _ _ Hgeo_all Hin) as (g & Hg & Hu).
    exists g. split; [|exact Hu]. apply filter_In in Hg as [Hg _].
    subst gs. apply (Permutation_in g (sorted_perm _ geometries) Hg).
  - rewrite Forall_forall in Hlab_all. apply list_elem_of_In, Hlab_all in Hin.
    destruct Hin as (_ & Hl & _). contradiction.
Qed.

(** A final door without label is the geometry-only record of one of the
    page's geometries: it has no door number, its confidence is 0.7 times
    that of the geometry, and this reaches the minimum confidence.  The
    geometries of [detect_door_rectangles] have the confidence 0.6, so that
    a page whose geometries all come from it returns, for a minimum
    confidence above 0.42 (0.6 is the default), only doors that have a
    label. *)
Theorem unlabelled_doors_are_penalised (labels : list DoorLabel)
    (geometries : list DoorGeometry) (scale_context : option ScaleContext)
    (search_radius_px min_confidence : Q) :
  (forall d,
     In d (_extract_doors_from_page uuid4_hex8 labels geometries scale_context
                                    search_radius_px min_confidence) ->
     label d = None ->
     exists g, In g geometries /\ geometry d = Some g
               /\ d_confidence d = g_confidence g * 0.7
               /\ min_confidence <= g_confidence g * 0.7
               /\ door_number d = None)
  /\ (forall (uuid' : nat -> string) (segments : list LineSegment) (page_number : Z)
             (min_door_width_m max_door_width_m : Q),
        geometries = detect_door_rectangles uuid' segments page_number scale_context
                                            min_door_width_m max_door_width_m ->
        0.42 < min_confidence ->
        forall d,
          In d (_extract_doors_from_page uuid4_hex8 labels geometries scale_context
                                         search_radius_px min_confidence) ->
          label d <> None).
Proof.
  assert (Hfirst : forall d,
     In d (_extract_doors_from_page uuid4_hex8 labels geometries scale_context
                                    search_radius_px min_confidence) ->
     label d = None ->
     exists g, In g geometries /\ geometry d = Some g
               /\ d_confidence d = g_confidence g * 0.7
               /\ min_confidence <= g_confidence g * 0.7
               /\ door_number d = None).
  { intros d Hin Hnone. unfold _extract_doors_from_page, final_doors in Hin.
    apply unique_loop_values in Hin as [[]|Hin].
    apply filter_In in Hin as [Hin Hconf]. apply Qle_bool_iff in Hconf.
    apply in_map_iff in Hin as (d0 & <- & Hin).
    destruct (extract_door_attributes_keeps d0 scale_context)
      as (Hl & Hg & _ & _ & Hc).
    rewrite Hl in Hnone.
    destruct (associate_unlabelled _ _ _ _ Hin Hnone) as (g & Hgin & Hu).
    destruct Hu as (_ & _ & Hgeo & Hcd & _).
    exists g. split; [exact Hgin|]. rewrite Hg, Hc. split; [exact Hgeo|].
    split; [exact Hcd|]. rewrite Hc, Hcd in Hconf. split; [exact Hconf|].
    assert (Hnum : door_number d0 = None).
    { pose proof (associate_numbers labels geometries search_radius_px) as Hall.
      unfold numberless_all in Hall. rewrite Forall_forall in Hall.
      apply Hall, list_elem_of_In, Hin. }
    unfold extract_door_attributes.
    destruct (match _ with Some l => _ | None => _ end) as [[w h] a].
    cbn [door_number]. rewrite Hnone. exact Hnum. }
  split; [exact Hfirst|].
  intros uuid' segments page_number minw maxw Hgeos Hmin d Hin Hnone.
  destruct (Hfirst d Hin Hnone) as (g & Hg & _ & _ & Hle & _).
  assert (Hconf : g_confidence g = 0.6).
  { rewrite Hgeos in Hg. unfold detect_door_rectangles in Hg.
    destruct scale_context as [sc|]; [|destruct Hg].
    unfold Py.truthy in Hg. rewrite negb_involutive in Hg.
    destruct (Qeq_bool (pixels_per_meter sc) 0) eqn:Hppm; [destruct Hg|].
    pose proof (rectangle_loop_ok uuid' segments page_number (pixels_per_meter sc)
                  minw maxw segments ([], false) Hppm
                  (fun s Hs => Hs) (List.Forall_nil _)) as Hall.
    unfold rectangles_so_far in Hall.
    rewrite Forall_forall in Hall. apply list_elem_of_In, Hall in Hg.
    apply Hg. }
  rewrite Hconf in Hle. assert (H42 : 0.6 * 0.7 == 0.42) by reflexivity. lra.
Qed.

End UnlabelledDoors.

(** The two jambs of a door, 60 units apart, and the scale 1:100 at 150
    dpi. *)
Definition two_jambs : list door_geometry_extraction.LineSegment :=
  [door_geometry_extraction.mkLineSegment 0 0 60 0 (30, 0) 60 0;
   door_geometry_extraction.mkLineSegment 0 60 60 60 (30, 60) 60 0]%Q.

Definition scale_100 : door_geometry_extraction.ScaleContext :=
  door_geometry_extraction.mkScaleContext "scale_1" 100 59.055%Q.

Lemma rectangles_are_line_pairs_witness :
  exists g rest,
    @door_geometry_extraction.detect_door_rectangles QMath counting_uuid two_jambs 1%Z
      (Some scale_100) 0.6%Q 1.5%Q = g :: rest
    /\ door_geometry_extraction.g_confidence g = 0.6%Q
    /\ (door_geometry_extraction.width_px g == 60)%Q.
Proof.
  pose proof (proj2 (proj2 (@rectangles_are_line_pairs QMath counting_uuid two_jambs 1%Z
                              (Some scale_100) 0.6%Q 1.5%Q) scale_100 eq_refl))
    as Hpairs.
  destruct (@door_geometry_extraction.detect_door_rectangles QMath counting_uuid
              two_jambs 1%Z (Some scale_100) 0.6%Q 1.5%Q) as [|g rest] eqn:Hg;
    [vm_compute in Hg; discriminate|].
  exists g, rest. split; [reflexivity|].
  split; [apply (Hpairs g (or_introl eq_refl))|].
  vm_compute in Hg. injection Hg as <- _. reflexivity.
Defined.

Lemma unlabelled_doors_are_penalised_witness :
  exists d g,
    In d (@door_geometry_extraction._extract_doors_from_page QMath counting_uuid []
            [geometry_115_105] None 150%Q 0.5%Q)
    /\ door_geometry_extraction.geometry d = Some g
    /\ door_geometry_extraction.d_confidence d
       = (door_geometry_extraction.g_confidence g * 0.7)%Q.
Proof.
  destruct (@door_geometry_extraction._extract_doors_from_page QMath counting_uuid []
              [geometry_115_105] None 150%Q 0.5%Q) as [|d rest] eqn:Hd;
    [vm_compute in Hd; discriminate|].
  assert (Hnone : door_geometry_extraction.label d = None).
  { vm_compute in Hd. injection Hd as <- _. reflexivity. }
  assert (Hin : In d (@door_geometry_extraction._extract_doors_from_page QMath
                        counting_uuid [] [geometry_115_105] None 150%Q 0.5%Q)).
  { rewrite Hd. left. reflexivity. }
  destruct (proj1 (@unlabelled_doors_are_penalised QMath counting_uuid []
                     [geometry_115_105] None 150%Q 0.5%Q) d Hin Hnone)
    as (g & _ & Hgeo & Hconf & _).
  exists d, g. split; [left; reflexivity|]. split; [exact Hgeo | exact Hconf].
Defined.

(** ** The pattern to the left of a legend text *)

Section LeftOfText.
Import plankopf_parser.
Local Open Scope Q_scope.

(** The score of a drawing that lies to the left of the text and in line
    with it: its horizontal distance to the text plus half its vertical
    offset.  The other drawings have no score. *)
Definition left_score (text_bbox : BoundingBox) (drawing : Drawing) : option Q :=
  match rect drawing with
  | None => None
  | Some (_, ry0, rx1, ry1) =>
      let v := Qabs ((y0 text_bbox + y1 text_bbox) / 2 - (ry0 + ry1) / 2) in
      if Qle_bool rx1 (x0 text_bbox) && Qle_bool v (height text_bbox * 2)
      then Some (x0 text_bbox - rx1 + v * 0.5)
      else None
  end.

Definition best_so_far (text_bbox : BoundingBox) (max_distance : Q)
    (seen : list Drawing) (st : option Drawing * Q) : Prop :=
  match fst st with
  | Some best =>
      In best seen /\ left_score text_bbox best = Some (snd st)
      /\ snd st < max_distance
      /\ forall d s, In d seen -> left_score text_bbox d = Some s -> snd st <= s
  | None =>
      snd st = max_distance
      /\ forall d s, In d seen -> left_score text_bbox d = Some s -> max_distance <= s
  end.

Lemma left_of_text_step_cases (text_bbox : BoundingBox) (max_distance : Q)
    (best : option Drawing) (bd : Q) (drawing : Drawing) :
  bd <= max_distance ->
  match left_score text_bbox drawing with
  | Some s =>
      if Py.Qltb s bd
      then left_of_text_step text_bbox max_distance (best, bd) drawing
           = (Some drawing, s)
      else left_of_text_step text_bbox max_distance (best, bd) drawing = (best, bd)
  | None => left_of_text_step text_bbox max_distance (best, bd) drawing = (best, bd)
  end.
Proof.
  intros Hbd. unfold left_score, left_of_text_step.
  destruct (rect drawing) as [[[[rx0 ry0] rx1] ry1]|]; [|reflexivity].
  set (v := Qabs _).
  assert (Hv : 0 <= v) by apply Qabs_nonneg.
  change (Py.Qgtb rx1 (x0 text_bbox)) with (negb (Qle_bool rx1 (x0 text_bbox))).
  change (Py.Qgtb v (height text_bbox * 2))
    with (negb (Qle_bool v (height text_bbox * 2))).
  destruct (Qle_bool rx1 (x0 text_bbox)) eqn:Hleft; cbn [negb andb]; [|reflexivity].
  destruct (Qle_bool v (height text_bbox * 2)) eqn:Hline; cbn [negb].
  - destruct (Py.Qgtb (x0 text_bbox - rx1) max_distance) eqn:Hfar.
    + apply Qgtb_gt in Hfar.
      destruct (Py.Qltb (x0 text_bbox - rx1 + v * 0.5) bd) eqn:Hlt; [|reflexivity].
      apply Qltb_lt in Hlt. assert (H05 : 0.5 == 1 / 2) by reflexivity. nra.
    + destruct (Py.Qltb (x0 text_bbox - rx1 + v * 0.5) bd); reflexivity.
  - destruct (Py.Qgtb (x0 text_bbox - rx1) max_distance); reflexivity.
Qed.

Lemma left_of_text_loop (text_bbox : BoundingBox) (max_distance : Q)
    (todo seen : list Drawing) (st : option Drawing * Q) :
  best_so_far text_bbox max_distance seen st ->
  best_so_far text_bbox max_distance (seen ++ todo)
    (fold_left (left_of_text_step text_bbox max_distance) todo st).
Proof.
  revert seen st. induction todo as [|d todo IH]; intros seen st Hst; cbn [fold_left].
  - rewrite app_nil_r. exact Hst.
  - replace (seen ++ d :: todo) with ((seen ++ [d]) ++ todo)
      by (rewrite <- app_assoc; reflexivity).
    apply IH. destruct st as [best bd].
    assert (Hbd : bd <= max_distance).
    { unfold best_so_far in Hst. cbn [fst snd] in Hst.
      destruct best; [destruct Hst as (_ & _ & Hlt & _); lra|].
      destruct Hst as [-> _]. lra. }
    pose proof (left_of_text_step_cases text_bbox max_distance best bd d Hbd) as Hstep.
    destruct (left_score text_bbox d) as [s|] eqn:Hs.
    + destruct (Py.Qltb s bd) eqn:Hlt; rewrite Hstep.
      * apply Qltb_lt in Hlt. unfold best_so_far. cbn [fst snd].
        split; [apply in_or_app; right; left; reflexivity|].
        split; [exact Hs|]. split; [lra|].
        intros d' s' Hin Hs'. apply in_app_or in Hin as [Hin|[<-|[]]].
        -- unfold best_so_far in Hst. cbn [fst snd] in Hst.
           destruct best.
           ++ destruct Hst as (_ & _ & _ & Hmin). specialize (Hmin d' s' Hin Hs'). lra.
           ++ destruct Hst as [-> Hmin]. specialize (Hmin d' s' Hin Hs'). lra.
        -- rewrite Hs in Hs'. injection Hs' as <-. lra.
      * apply Qltb_ge in Hlt. unfold best_so_far in *. cbn [fst snd] in *.
        destruct best.
        -- destruct Hst as (Hin & Hb & Hmax & Hmin).
           split; [apply in_or_app; left; exact Hin|]. split; [exact Hb|].
           split; [exact Hmax|].
           intros d' s' Hin' Hs'. apply in_app_or in Hin' as [Hin'|[<-|[]]].
           ++ apply (Hmin d' s' Hin' Hs').
           ++ rewrite Hs in Hs'. injection Hs' as <-. exact Hlt.
        -- destruct Hst as [-> Hmin]. split; [reflexivity|].
           intros d' s' Hin' Hs'. apply in_app_or in Hin' as [Hin'|[<-|[]]].
           ++ apply (Hmin d' s' Hin' Hs').
           ++ rewrite Hs in Hs'. injection Hs' as <-. exact Hlt.
    + rewrite Hstep. unfold best_so_far in *. cbn [fst snd] in *.
      destruct best.
      * destruct Hst as (Hin & Hb & Hmax & Hmin).
        split; [apply in_or_app; left; exact Hin|]. split; [exact Hb|].
        split; [exact Hmax|].
        intros d' s' Hin' Hs'. apply in_app_or in Hin' as [Hin'|[<-|[]]].
        -- apply (Hmin d' s' Hin' Hs').
        -- rewrite Hs in Hs'. discriminate.
      * destruct Hst as [-> Hmin]. split; [reflexivity|].
        intros d' s' Hin' Hs'. apply in_app_or in Hin' as [Hin'|[<-|[]]].
        -- apply (Hmin d' s' Hin' Hs').
        -- rewrite Hs in Hs'. discriminate.
Qed.

(** [find_pattern_left_of_text] returns a drawing of the list that has a
    box, ends at or before the left edge of the text, is vertically offset
    by at most twice the height of the text, and whose score (horizontal
    distance plus half the vertical offset) is below [max_distance] and
    the least of all such drawings; it returns nothing exactly when no
    drawing has a score below [max_distance].  The empty list gives
    nothing. *)
Theorem pattern_left_of_text_is_nearest (drawings : list Drawing)
    (text_bbox : BoundingBox) (max_distance : Q) :
  match find_pattern_left_of_text drawings text_bbox max_distance with
  | Some best =>
      In best drawings
      /\ exists score,
           left_score text_bbox best = Some score /\ score < max_distance
           /\ forall d s, In d drawings -> left_score text_bbox d = Some s -> score <= s
  | None =>
      forall d s, In d drawings -> left_score text_bbox d = Some s -> max_distance <= s
  end.
Proof.
  unfold find_pattern_left_of_text.
  pose proof (left_of_text_loop text_bbox max_distance drawings [] (None, max_distance))
    as Hloop.
  cbn [app] in Hloop. unfold best_so_far in Hloop at 2.
  destruct (fst (fold_left _ drawings (None, max_distance))) as [best|].
  - destruct Hloop as (Hin & Hs & Hlt & Hmin).
    + cbn [fst snd]. split; [reflexivity | intros d s []].
    + split; [exact Hin|]. eexists. split; [exact Hs|]. split; [exact Hlt | exact Hmin].
  - apply Hloop. cbn [fst snd]. split; [reflexivity | intros d s []].
Qed.

(** *** Overlap of two boxes *)

Lemma area_nonneg (b : BoundingBox) : 0 <= area b.
Proof.
  unfold area, width, height. apply Qmult_le_0_compat; apply Qabs_nonneg.
Qed.

Lemma max0_nonneg (x : Q) : 0 <= Py.max 0 x.
Proof. destruct (max_cases 0 x) as [[? ->]|[? ->]]; lra. Qed.

(** [overlaps] is false whenever one of the boxes has no area.  For two
    boxes that both have an area, the default [min_overlap] of 0 makes it
    true whether the boxes meet or not; for a positive [min_overlap] it is
    true only if the boxes share more than a border on both axes. *)
Theorem overlaps_by_default (self other : BoundingBox) (min_overlap : Q) :
  (area self == 0 \/ area other == 0 -> overlaps self other min_overlap = false)
  /\ (~ area self == 0 -> ~ area other == 0 -> overlaps self other 0 = true)
  /\ (0 < min_overlap -> overlaps self other min_overlap = true ->
      Py.max (x0 self) (x0 other) < Py.min (x1 self) (x1 other)
      /\ Py.max (y0 self) (y0 other) < Py.min (y1 self) (y1 other)).
Proof.
  pose proof (area_nonneg self) as Hs. pose proof (area_nonneg other) as Ho.
  unfold overlaps.
  set (xo := Py.min (x1 self) (x1 other) - Py.max (x0 self) (x0 other)).
  set (yo := Py.min (y1 self) (y1 other) - Py.max (y0 self) (y0 other)).
  pose proof (max0_nonneg xo) as Hx. pose proof (max0_nonneg yo) as Hy.
  destruct (min_cases (area self) (area other)) as [[Hlt Hm]|[Hle Hm]]; rewrite Hm;
    (split; [|split]).
  - intros Hz. assert (Hz' : area other == 0) by (destruct Hz; lra).
    apply Qeq_bool_iff in Hz'. rewrite Hz'. reflexivity.
  - intros _ Hn. destruct (Qeq_bool (area other) 0) eqn:Hz;
      [apply Qeq_bool_iff in Hz; contradiction|].
    apply Qle_bool_iff, Qle_shift_div_l.
    + destruct (Qlt_le_dec 0 (area other)) as [Hp|Hp]; [exact Hp|].
      exfalso. apply Hn. lra.
    + rewrite Qmult_0_l. apply Qmult_le_0_compat; assumption.
  - intros Hmin Htrue. destruct (Qeq_bool (area other) 0) eqn:Hz; [discriminate|].
    apply Qle_bool_iff in Htrue.
    assert (Hpos : 0 < Py.max 0 xo * Py.max 0 yo).
    { destruct (Qlt_le_dec 0 (Py.max 0 xo * Py.max 0 yo)) as [Hp|Hp]; [exact Hp|].
      exfalso. assert (Hzero : Py.max 0 xo * Py.max 0 yo == 0).
      { apply Qle_antisym; [exact Hp | apply Qmult_le_0_compat; assumption]. }
      rewrite Hzero in Htrue. unfold Qdiv in Htrue. rewrite Qmult_0_l in Htrue. lra. }
    assert (Hxy : 0 < Py.max 0 xo /\ 0 < Py.max 0 yo) by nra.
    destruct Hxy as [Hxp Hyp].
    destruct (max_cases 0 xo) as [[? Ex]|[? Ex]]; rewrite Ex in Hxp; [|lra].
    destruct (max_cases 0 yo) as [[? Ey]|[? Ey]]; rewrite Ey in Hyp; [|lra].
    unfold xo, yo in *. split; lra.
  - intros Hz. assert (Hz' : area self == 0) by (destruct Hz; lra).
    apply Qeq_bool_iff in Hz'. rewrite Hz'. reflexivity.
  - intros Hn _. destruct (Qeq_bool (area self) 0) eqn:Hz;
      [apply Qeq_bool_iff in Hz; contradiction|].
    apply Qle_bool_iff, Qle_shift_div_l.
    + destruct (Qlt_le_dec 0 (area self)) as [Hp|Hp]; [exact Hp|].
      exfalso. apply Hn. lra.
    + rewrite Qmult_0_l. apply Qmult_le_0_compat; assumption.
  - intros Hmin Htrue. destruct (Qeq_bool (area self) 0) eqn:Hz; [discriminate|].
    apply Qle_bool_iff in Htrue.
    assert (Hpos : 0 < Py.max 0 xo * Py.max 0 yo).
    { destruct (Qlt_le_dec 0 (Py.max 0 xo * Py.max 0 yo)) as [Hp|Hp]; [exact Hp|].
      exfalso. assert (Hzero : Py.max 0 xo * Py.max 0 yo == 0).
      { apply Qle_antisym; [exact Hp | apply Qmult_le_0_compat; assumption]. }
      rewrite Hzero in Htrue. unfold Qdiv in Htrue. rewrite Qmult_0_l in Htrue. lra. }
    assert (Hxy : 0 < Py.max 0 xo /\ 0 < Py.max 0 yo) by nra.
    destruct Hxy as [Hxp Hyp].
    destruct (max_cases 0 xo) as [[? Ex]|[? Ex]]; rewrite Ex in Hxp; [|lra].
    destruct (max_cases 0 yo) as [[? Ey]|[? Ey]]; rewrite Ey in Hyp; [|lra].
    unfold xo, yo in *. split; lra.
Qed.

End LeftOfText.

(** A legend text with two boxes to its left, the second one nearer. *)
Definition legend_text_box : plankopf_parser.BoundingBox :=
  plankopf_parser.mkBoundingBox 60 0 100 10.

Definition box_drawing (bx0 bx1 : Q) : plankopf_parser.Drawing :=
  plankopf_parser.mkDrawing [] None (Some [1; 0; 0]%Q) (Some (bx0, 0, bx1, 10)%Q).

Lemma pattern_left_of_text_is_nearest_witness :
  exists best score,
    plankopf_parser.find_pattern_left_of_text [box_drawing 0 10; box_drawing 40 50]
      legend_text_box 100 = Some best
    /\ left_score legend_text_box best = Some score
    /\ (score < 100)%Q.
Proof.
  pose proof (pattern_left_of_text_is_nearest [box_drawing 0 10; box_drawing 40 50]
                legend_text_box 100) as Hbest.
  destruct (plankopf_parser.find_pattern_left_of_text
              [box_drawing 0 10; box_drawing 40 50] legend_text_box 100)
    as [best|] eqn:Hfound; [|vm_compute in Hfound; discriminate].
  destruct Hbest as (_ & score & Hs & Hlt & _).
  exists best, score. split; [reflexivity|]. split; [exact Hs | exact Hlt].
Defined.

Lemma overlaps_by_default_witness :
  plankopf_parser.overlaps (plankopf_parser.mkBoundingBox 0 0 10 10)
                           (plankopf_parser.mkBoundingBox 50 50 60 60) 0 = true.
Proof.
  apply (proj1 (proj2 (overlaps_by_default (plankopf_parser.mkBoundingBox 0 0 10 10)
                         (plankopf_parser.mkBoundingBox 50 50 60 60) 0))).
  - intros Hz. vm_compute in Hz. discriminate.
  - intros Hz. vm_compute in Hz. discriminate.
Defined.

(** ** Every geometry is recorded once *)

Section GeometriesOnce.
Import door_label_detection door_geometry_extraction.
Local Open Scope Q_scope.
Context `{MathSqrt} (uuid4_hex8 : nat -> string).










End GeometriesOnce.


(** ** The summary of an extraction *)

Section SummaryCounts.
Import door_label_detection door_geometry_extraction.
Local Open Scope Q_scope.
Variable format_2f : Q -> string.

(** The number of doors counted in a dictionary. *)
Definition counted (d : gmap string nat) : nat :=
  map_fold (fun _ n acc => (n + acc)%nat) 0%nat d.

Lemma counted_insert (k : string) (n : nat) (d : gmap string nat) :
  d !! k = None -> counted (<[k := n]> d) = (n + counted d)%nat.
Proof.
  intros Hk. unfold counted.
  apply (map_fold_insert_L (fun (_ : string) (m acc : nat) => (m + acc)%nat) 0%nat k n d);
    [|exact Hk].
  intros. lia.
Qed.

Lemma counted_count_in (k : string) (d : gmap string nat) :
  counted (count_in k d) = S (counted d).
Proof.
  unfold count_in. destruct (d !! k) as [n|] eqn:Hk; cbn [default].
  - rewrite <- (insert_delete_eq d). rewrite <- (insert_delete_id d k n Hk) at 2.
    rewrite !counted_insert by apply lookup_delete_eq. unfold Datatypes.id. lia.
  - rewrite counted_insert by exact Hk. lia.
Qed.

Definition has_type (door : DoorExtraction) : bool := str_truthy (d_door_type door).
Definition has_width (door : DoorExtraction) : bool := float_truthy (d_width_m door).
Definition width_or_zero (door : DoorExtraction) : Q :=
  match d_width_m door with Some w => w | None => 0 end.

Definition counts_agree (seen : list DoorExtraction) (s : Summary) : Prop :=
  counted (by_fire_rating s) = length seen
  /\ counted (by_type s) = length (List.filter has_type seen)
  /\ counted (by_width s) = width_count s
  /\ width_count s = length (List.filter has_width seen)
  /\ total_width s == Py.sum (map width_or_zero (List.filter has_width seen)).

Lemma summary_step_counts (seen : list DoorExtraction) (s : Summary)
    (door : DoorExtraction) :
  counts_agree seen s -> counts_agree (seen ++ [door]) (summary_step format_2f s door).
Proof.
  intros (Hf & Ht & Hw & Hc & Hs). unfold counts_agree.
  rewrite !List.filter_app, !length_app, map_app, sum_app. cbn [List.filter].
  assert (Hfire : counted (by_fire_rating (summary_step format_2f s door))
                  = (length seen + length [door])%nat).
  { assert (Hone : counted (match d_fire_rating door with
                            | Some r =>
                                if str_truthy (Some r)
                                then count_in r (by_fire_rating s)
                                else count_in "Standard" (by_fire_rating s)
                            | None => count_in "Standard" (by_fire_rating s)
                            end) = (length seen + length [door])%nat).
    { destruct (d_fire_rating door) as [r|]; [destruct (str_truthy (Some r))|];
        rewrite counted_count_in; cbn [length]; lia. }
    unfold summary_step.
    destruct (d_width_m door) as [w|]; [destruct (Py.truthy w)|]; exact Hone. }
  assert (Htype : counted (by_type (summary_step format_2f s door))
                  = (length (List.filter has_type seen)
                     + length (if has_type door then [door] else []))%nat).
  { assert (Hone : counted (match d_door_type door with
                            | Some t =>
                                if str_truthy (Some t) then count_in t (by_type s)
                                else by_type s
                            | None => by_type s
                            end)
                   = (length (List.filter has_type seen)
                      + length (if has_type door then [door] else []))%nat).
    { unfold has_type at 2.
      destruct (d_door_type door) as [t|]; [destruct (str_truthy (Some t))|];
        rewrite ?counted_count_in; cbn [length str_truthy]; lia. }
    unfold summary_step.
    destruct (d_width_m door) as [w|]; [destruct (Py.truthy w)|]; exact Hone. }
  split; [exact Hfire|]. split; [exact Htype|].
  unfold summary_step.
  destruct (d_width_m door) as [w|] eqn:Hdw; [destruct (Py.truthy w) eqn:Htw|].
  - assert (Hhw : has_width door = true)
      by (unfold has_width, float_truthy; rewrite Hdw; exact Htw).
    assert (Hwz : width_or_zero door = w) by (unfold width_or_zero; rewrite Hdw; reflexivity).
    rewrite Hhw. cbn [by_width width_count total_width length map].
    rewrite counted_count_in, Hwz. split; [lia|]. split; [lia|].
    rewrite Hs, sum_cons. change (Py.sum []) with 0. ring.
  - assert (Hhw : has_width door = false)
      by (unfold has_width, float_truthy; rewrite Hdw; exact Htw).
    rewrite Hhw. cbn [by_width width_count total_width length map].
    split; [exact Hw|]. split; [lia|]. rewrite Hs. change (Py.sum []) with 0. ring.
  - assert (Hhw : has_width door = false)
      by (unfold has_width, float_truthy; rewrite Hdw; reflexivity).
    rewrite Hhw. cbn [by_width width_count total_width length map].
    split; [exact Hw|]. split; [lia|]. rewrite Hs. change (Py.sum []) with 0. ring.
Qed.

(** The summary counts every door once by fire rating (a door without
    rating under "Standard"), so that the counts by fire rating add up to
    the number of doors; the counts by type add up to the number of doors
    that have a type, and the counts by width to the number of doors that
    have a width; the average width is the mean of these widths, and there
    is none exactly when no door has a width. *)
Theorem summary_counts_every_door (all_doors : list DoorExtraction) :
  let s := summary_of format_2f all_doors in
  let with_width := List.filter has_width all_doors in
  counted (by_fire_rating s) = length all_doors
  /\ counted (by_type s) = length (List.filter has_type all_doors)
  /\ counted (by_width s) = length with_width
  /\ (with_width = [] -> avg_width_m s = None)
  /\ (with_width <> [] ->
      exists avg, avg_width_m s = Some avg
                  /\ avg == plankopf_parser.mean (map width_or_zero with_width)).
Proof.
  cbv zeta.
  assert (Hall : forall todo seen s,
             counts_agree seen s ->
             counts_agree (seen ++ todo) (fold_left (summary_step format_2f) todo s)).
  { induction todo as [|d todo IH]; intros seen s Hs; cbn [fold_left].
    - rewrite app_nil_r. exact Hs.
    - replace (seen ++ d :: todo) with ((seen ++ [d]) ++ todo)
        by (rewrite <- app_assoc; reflexivity).
      apply IH, summary_step_counts, Hs. }
  destruct (Hall all_doors [] (mkSummary ∅ ∅ ∅ 0.0 0)) as (Hf & Ht & Hw & Hc & Hs).
  { unfold counts_agree, counted. cbn [by_fire_rating by_type by_width width_count
      total_width List.filter length map].
    rewrite !map_fold_empty. repeat split; reflexivity. }
  cbn [app] in *. fold (summary_of format_2f all_doors) in *.
  split; [exact Hf|]. split; [exact Ht|]. split; [lia|].
  unfold avg_width_m. rewrite Hc. split.
  - intros ->. reflexivity.
  - intros Hne. destruct (List.filter has_width all_doors) as [|d ds] eqn:Hfl;
      [congruence|].
    cbn [length Nat.ltb Nat.leb]. eexists. split; [reflexivity|].
    unfold plankopf_parser.mean. rewrite Hs, length_map. reflexivity.
Qed.

End SummaryCounts.

(** A door 0.90 wide with a fire rating, next to a door of which only the
    number is known. *)
Definition wide_door : door_geometry_extraction.DoorExtraction :=
  door_geometry_extraction.mkDoorExtraction "door_0000000c" 1 None None
    (Some 0.9%Q) (Some 2.1%Q) (Some "WD"%string) (Some "B.00.1.004-1"%string)
    (Some "T30"%string) (Some door_geometry_extraction.T30) 0.9%Q
    "label_geometry_match" None [] [].

Lemma summary_counts_every_door_witness :
  exists avg,
    door_geometry_extraction.avg_width_m
      (door_geometry_extraction.summary_of (fun _ => "0.90"%string) [wide_door; door_06])
    = Some avg
    /\ (avg == 0.9)%Q.
Proof.
  destruct (proj2 (proj2 (proj2 (proj2
              (summary_counts_every_door (fun _ => "0.90"%string) [wide_door; door_06])))))
    as (avg & Havg & Hmean).
  - vm_compute. discriminate.
  - exists avg. split; [exact Havg|]. rewrite Hmean. reflexivity.
Defined.
